(** * carl.ratios.cc: calibrated classifier ratios

    A shallow embedding of [carl/ratios/cc.py]: the adapter
    [WrapAsClassifier] and the estimator [CalibratedClassifierRatio].

    Numbers are real numbers ([R]); numpy arrays are lists (a matrix is the
    list of its rows; the arrays that are stacked also carry their number
    of columns, which numpy knows of an array without rows); Python
    objects live in a store indexed by allocation order, so that two names
    for one object are one location.  Exceptions are values of [error],
    which record the statement that raised them. *)

From Stdlib Require Import Reals Lra ZArith Lia List Sorted String.
From stdpp Require Import base list.

Set Default Proof Using "Type".

(** ** Exceptions *)

Inductive exn :=
| ValueError
| TypeError
| IndexError
| AttributeError
| NotImplementedError
| RecursionError
| RuntimeError.

(** Where an exception was raised: the two [raise ValueError] statements of
    the file are told apart, as a traceback tells them apart. *)
Inductive origin :=
| ArgumentCheck      (* cc.py, line 98: [fit] of CalibratedClassifierRatio *)
| CardinalityCheck   (* cc.py, line 40: [fit] of WrapAsClassifier *)
| ScoreStub          (* cc.py, line 155 *)
| Interpreter        (* a missing attribute or method *)
| Numpy              (* indexing, stacking, broadcasting *)
| Sklearn            (* check_array, check_X_y, clone, check_cv and split *)
| Collaborator.      (* base estimators, calibrators, distributions *)

Record error := Raise { err_origin : origin; err_exn : exn }.

Inductive result (A : Type) :=
| Ok (a : A)
| Err (e : error).
Arguments Ok {A} a.
Arguments Err {A} e.

Global Instance result_ret : MRet result := fun A a => Ok a.
Global Instance result_bind : MBind result := fun A B f r =>
  match r with
  | Ok a => f a
  | Err e => Err e
  end.

(** A call into a collaborator: its exception, if any, is raised at [o]. *)
Definition call {A} (o : origin) (r : A + exn) : result A :=
  match r with
  | inl a => Ok a
  | inr e => Err (Raise o e)
  end.

(** ** State and error monad *)

Definition M (S A : Type) : Type := S -> result A * S.

Global Instance M_ret {S} : MRet (M S) := fun A a s => (Ok a, s).
Global Instance M_bind {S} : MBind (M S) := fun A B f m s =>
  match m s with
  | (Ok a, s') => f a s'
  | (Err e, s') => (Err e, s')
  end.

Definition raise {S A} (o : origin) (e : exn) : M S A :=
  fun s => (Err (Raise o e), s).
Definition get {S} : M S S := fun s => (Ok s, s).

(** A computation that does not touch the state. *)
Definition pure_ {S A} (r : result A) : M S A := fun s => (r, s).

(** [for x in l: body x] *)
Fixpoint for_each {S A} (l : list A) (body : A -> M S unit) : M S unit :=
  match l with
  | [] => mret tt
  | x :: l' => body x ≫= fun _ => for_each l' body
  end.

(** ** numpy *)

Abbreviation vector := (list R) (only parsing).
Abbreviation matrix := (list (list R)) (only parsing).
Abbreviation labels := (list Z) (only parsing).
Abbreviation loc := nat (only parsing).

(** [np.zeros(n, dtype=np.int)] *)
Definition np_zeros_int (n : Z) : result labels :=
  if (n <? 0)%Z then Err (Raise Numpy ValueError)
  else Ok (repeat 0%Z (Z.to_nat n)).

(** [np.zeros(n)] for a length *)
Definition np_zeros (n : nat) : vector := repeat 0%R n.

(** The index at which the slice [a[k:]] of an array of length [len]
    starts. *)
Definition slice_start (len : nat) (k : Z) : nat :=
  if (k <? 0)%Z then Z.to_nat (Z.max (Z.of_nat len + k) 0)
  else Nat.min (Z.to_nat k) len.

(** [a[k:] = v] *)
Definition np_set_from {A} (a : list A) (k : Z) (v : A) : list A :=
  let s := slice_start (length a) k in
  take s a ++ repeat v (length a - s).

Definition width (m : matrix) : option nat :=
  match m with
  | [] => None
  | r :: _ => Some (length r)
  end.

(** A two-dimensional array with its shape: the rows, and the number of
    columns that numpy records also for an array without rows, of shape
    [(0, d)]. *)
Record array2 : Type := Array2 { arr_rows : matrix; arr_cols : nat }.

(** [a.shape[1]]: the length of the rows; [arr_cols] says it for an array
    without rows. *)
Definition shape1 (a : array2) : nat :=
  match width (arr_rows a) with
  | Some w => w
  | None => arr_cols a
  end.

(** [np.vstack((a, b))]: the rows of [a] followed by those of [b]; a
    [ValueError] when the two arrays differ in their number of columns,
    with or without rows. *)
Definition np_vstack (a b : array2) : result matrix :=
  if Nat.eqb (shape1 a) (shape1 b) then Ok (arr_rows a ++ arr_rows b)
  else Err (Raise Numpy ValueError).

(** [a[mask]] for a boolean array [mask] *)
Fixpoint select {A} (a : list A) (mask : list bool) : list A :=
  match a, mask with
  | x :: a', b :: mask' => if b then x :: select a' mask' else select a' mask'
  | _, _ => []
  end.

Definition np_mask {A} (a : list A) (mask : list bool) : result (list A) :=
  if Nat.eqb (length a) (length mask) then Ok (select a mask)
  else Err (Raise Numpy IndexError).

(** [y == v] *)
Definition np_eq (y : labels) (v : Z) : list bool := map (Z.eqb v) y.

(** [a[idx]] for an array [idx] of indices *)
Fixpoint np_take {A} (a : list A) (idx : list nat) : result (list A) :=
  match idx with
  | [] => Ok []
  | i :: idx' =>
      match a !! i with
      | Some x =>
          match np_take a idx' with
          | Ok xs => Ok (x :: xs)
          | Err e => Err e
          end
      | None => Err (Raise Numpy IndexError)
      end
  end.

(** [m[:, j]] *)
Fixpoint np_col (m : matrix) (j : nat) : result vector :=
  match m with
  | [] => Ok []
  | r :: m' =>
      match r !! j with
      | Some x =>
          match np_col m' j with
          | Ok xs => Ok (x :: xs)
          | Err e => Err e
          end
      | None => Err (Raise Numpy IndexError)
      end
  end.

(** Elementwise [f a b] with numpy's broadcasting of one-dimensional
    arrays: equal lengths, or one side of length one. *)
Definition np_binop (f : R -> R -> R) (a b : vector) : result vector :=
  if Nat.eqb (length a) (length b) then Ok (zip_with f a b)
  else match a, b with
       | [x], _ => Ok (map (f x) b)
       | _, [y] => Ok (map (fun x => f x y) a)
       | _, _ => Err (Raise Numpy ValueError)
       end.

(** [r += v]: [v] is broadcast to the shape of [r], which does not change. *)
Definition np_iadd (r v : vector) : result vector :=
  if Nat.eqb (length r) (length v) then Ok (zip_with Rplus r v)
  else match v with
       | [y] => Ok (map (fun x => (x + y)%R) r)
       | _ => Err (Raise Numpy ValueError)
       end.

(** [np.clip(p, 0., 1.)] *)
Definition clip01 (x : R) : R := Rmin (Rmax x 0) 1.
Definition np_clip01 (p : vector) : vector := map clip01 p.

(** [col[:] = v] for a column of [n] entries: [v] is broadcast to it. *)
Definition np_assign_col (n : nat) (v : vector) : result vector :=
  if Nat.eqb (length v) n then Ok v
  else match v with
       | [y] => Ok (repeat y n)
       | _ => Err (Raise Numpy ValueError)
       end.

(** [a[i]] for one index [i] *)
Definition np_item {A} (a : list A) (i : nat) : result A :=
  match a !! i with
  | Some x => Ok x
  | None => Err (Raise Numpy IndexError)
  end.

(** [np.unique(y)]: the sorted distinct values. *)
Fixpoint insert_sorted (v : Z) (l : list Z) : list Z :=
  match l with
  | [] => [v]
  | x :: l' =>
      if (v <? x)%Z then v :: l
      else if (v =? x)%Z then l
      else x :: insert_sorted v l'
  end.

Definition np_unique (y : labels) : list Z := foldr insert_sorted [] y.

Fixpoint index_of (v : Z) (l : list Z) : nat :=
  match l with
  | [] => 0
  | x :: l' => if (v =? x)%Z then 0 else S (index_of v l')
  end.

(** [label_encoder.fit_transform(y).astype(np.float)] *)
Definition encode (classes : list Z) (y : labels) : vector :=
  map (fun v => INR (index_of v classes)) y.

(** [a.reshape(-1, 1)] *)
Definition np_reshape_col (a : vector) : matrix := map (fun x => [x]) a.

(** ** Collaborators

    What the file imports and does not define: the validators of
    scikit-learn, the base estimators, the density estimators
    [KernelDensity] and [Histogram] of [carl.distributions], the
    distributions sampled in generative mode and the fold splitters.  A
    fitted estimator is identified with its hyperparameters and the data
    it was fitted on. *)
Class Collaborators := {
  clf_params : Type;
  reg_params : Type;
  cal_params : Type;
  cv_arg : Type;
  dist : Type;
  (** [check_array(X)] and [check_X_y(X, y)] *)
  check_array : matrix -> matrix + exn;
  check_X_y : matrix -> labels -> (matrix * labels) + exn;
  (** a base classifier: [fit(X, y)] raises or not, [predict_proba(X)] *)
  clf_fit : clf_params -> matrix -> labels -> option exn;
  clf_predict_proba :
    clf_params -> option (matrix * labels) -> matrix -> matrix + exn;
  (** a base regressor: [fit(X, y)], [predict(X)] *)
  reg_fit : reg_params -> matrix -> vector -> option exn;
  reg_predict :
    reg_params -> option (matrix * vector) -> matrix -> vector + exn;
  (** calibrators: [KernelDensity()], [Histogram(bins=, range=)],
      [fit(X)], [pdf(X)], [nnlf(X)] *)
  KernelDensity : cal_params;
  Histogram : nat -> list (R * R) -> cal_params;
  cal_fit : cal_params -> matrix -> option exn;
  cal_pdf : cal_params -> option matrix -> matrix -> vector + exn;
  cal_nnlf : cal_params -> option matrix -> matrix -> vector + exn;
  (** [d.rvs(k)]: an array of shape [(k, d)] *)
  rvs : dist -> Z -> array2 + exn;
  (** [check_cv(cv, y, classifier=True).split(X, y)]: the folds it yields
      and the exception, if any, that ends the iteration *)
  cv_split :
    cv_arg -> matrix -> labels -> list (list nat * list nat) * option exn
}.

Section Carl.
Context `{Collaborators}.

(** ** The store of Python objects

    An estimator object is its constructor parameters together with what
    [fit] has set on it; a location is the index at which the object was
    allocated.  [fit] returns its receiver, as the estimators of
    scikit-learn do. *)

Inductive obj :=
| Classifier (p : clf_params) (fitted : option (matrix * labels))
| Regressor (p : reg_params) (fitted : option (matrix * vector))
| Calibrator (p : cal_params) (fitted : option matrix)
| WrapAsClassifier
    (regressor : loc) (classes_ : option (list Z)) (regressor_ : option loc).

#[local] Abbreviation heap := (list obj) (only parsing).

(** A new object. *)
Definition alloc (o : obj) : M heap loc :=
  fun h => (Ok (length h), h ++ [o]).

(** Assignment to attributes of the object at [l]. *)
Definition update (l : loc) (f : obj -> obj) : M heap unit :=
  fun h => (Ok tt, match h !! l with
                   | Some o => <[l := f o]> h
                   | None => h
                   end).

(** [isinstance(o, RegressorMixin)] *)
Definition is_regressor (h : heap) (l : loc) : bool :=
  match h !! l with
  | Some (Regressor _ _) => true
  | _ => false
  end.

(** [sklearn.base.clone]: a new, unfitted estimator with the same
    parameters; a parameter that is an estimator is cloned too.  [fuel]
    bounds the depth of nested estimators. *)
Fixpoint clone_at (fuel : nat) (l : loc) : M heap loc :=
  match fuel with
  | 0 => raise Sklearn RecursionError
  | S fuel' =>
      h ← get;
      match h !! l with
      | Some (Classifier p _) => alloc (Classifier p None)
      | Some (Regressor p _) => alloc (Regressor p None)
      | Some (Calibrator p _) => alloc (Calibrator p None)
      | Some (WrapAsClassifier r _ _) =>
          r' ← clone_at fuel' r;
          alloc (WrapAsClassifier r' None None)
      | None => raise Sklearn TypeError
      end
  end.

Definition clone (l : loc) : M heap loc :=
  h ← get;
  clone_at (S (length h)) l.

(** ** WrapAsClassifier *)

(** [r.fit(X, y)] on the regressor a wrapper holds; the model covers
    wrappers around regressors, on any other object the call raises. *)
Definition regressor_fit (l : loc) (X : matrix) (y : vector) : M heap unit :=
  h ← get;
  match h !! l with
  | Some (Regressor p _) =>
      match reg_fit p X y with
      | None => update l (fun _ => Regressor p (Some (X, y)))
      | Some e => raise Collaborator e
      end
  | _ => raise Interpreter TypeError
  end.

(** [r.predict(X)] on the regressor a wrapper holds. *)
Definition regressor_predict (h : heap) (l : loc) (X : matrix)
  : result vector :=
  match h !! l with
  | Some (Regressor p f) => call Collaborator (reg_predict p f X)
  | _ => Err (Raise Interpreter TypeError)
  end.

(** [self.classes_ = classes] and [self.regressor_ = l] *)
Definition set_classes_ (classes : list Z) (o : obj) : obj :=
  match o with
  | WrapAsClassifier r _ r_ => WrapAsClassifier r (Some classes) r_
  | _ => o
  end.

Definition set_regressor_ (l : loc) (o : obj) : obj :=
  match o with
  | WrapAsClassifier r c _ => WrapAsClassifier r c (Some l)
  | _ => o
  end.

(** [WrapAsClassifier.fit], lines 31-47. *)
Definition WrapAsClassifier_fit (self : loc) (X : matrix) (y : labels)
  : M heap unit :=
  h ← get;
  match h !! self with
  | Some (WrapAsClassifier regressor _ _) =>
      Xy ← pure_ (call Sklearn (check_X_y X y));
      let X := Xy.1 in
      let classes := np_unique Xy.2 in
      let y := encode classes Xy.2 in
      if negb (Nat.eqb (length classes) 2)
      then raise CardinalityCheck ValueError
      else
        update self (set_classes_ classes) ≫= fun _ =>
        r ← clone regressor;
        regressor_fit r X y ≫= fun _ =>
        update self (set_regressor_ r)
  | _ => raise Interpreter TypeError
  end.

(** [WrapAsClassifier.predict_proba], lines 54-63. *)
Definition WrapAsClassifier_predict_proba
    (h : heap) (self : loc) (X : matrix) : result matrix :=
  match h !! self with
  | Some (WrapAsClassifier _ _ regressor_) =>
      X ← call Sklearn (check_array X);
      r ← match regressor_ with
          | Some r => Ok r
          | None => Err (Raise Interpreter AttributeError)
          end;
      p ← regressor_predict h r X;
      let p := np_clip01 p in
      c0 ← np_assign_col (length X) (map (fun x => (1 - x)%R) p);
      c1 ← np_assign_col (length X) p;
      Ok (zip_with (fun a b => [a; b]) c0 c1)
  | _ => Err (Raise Interpreter TypeError)
  end.

(** [WrapAsClassifier.predict], lines 49-52: [np.where] picks, per
    sample, [classes_[1]] where column 1 of [predict_proba] is at least
    0.5 and [classes_[0]] elsewhere. *)
Definition WrapAsClassifier_predict
    (h : heap) (self : loc) (X : matrix) : result labels :=
  match h !! self with
  | Some (WrapAsClassifier _ classes_ _) =>
      P ← WrapAsClassifier_predict_proba h self X;
      p ← np_col P 1;
      classes ← match classes_ with
                | Some classes => Ok classes
                | None => Err (Raise Interpreter AttributeError)
                end;
      c1 ← np_item classes 1;
      c0 ← np_item classes 0;
      Ok (map (fun x => if Rge_dec x (1 / 2) then c1 else c0) p)
  | _ => Err (Raise Interpreter TypeError)
  end.

(** ** Method dispatch on the classifier of an ensemble entry *)

(** [classifier.fit(X, y)] *)
Definition classifier_fit (l : loc) (X : matrix) (y : labels) : M heap unit :=
  h ← get;
  match h !! l with
  | Some (Classifier p _) =>
      match clf_fit p X y with
      | None => update l (fun _ => Classifier p (Some (X, y)))
      | Some e => raise Collaborator e
      end
  | Some (WrapAsClassifier _ _ _) => WrapAsClassifier_fit l X y
  | Some (Regressor _ _) => regressor_fit l X (map IZR y)
  | Some (Calibrator _ _) => raise Interpreter TypeError
  | None => raise Interpreter AttributeError
  end.

(** [classifier.predict_proba(X)] *)
Definition classifier_predict_proba (h : heap) (l : loc) (X : matrix)
  : result matrix :=
  match h !! l with
  | Some (Classifier p f) => call Collaborator (clf_predict_proba p f X)
  | Some (WrapAsClassifier _ _ _) => WrapAsClassifier_predict_proba h l X
  | _ => Err (Raise Interpreter AttributeError)
  end.

(** [c.fit(X)], [c.pdf(X)] and [c.nnlf(X)] on a calibrator *)
Definition calibrator_fit (l : loc) (X : matrix) : M heap unit :=
  h ← get;
  match h !! l with
  | Some (Calibrator p _) =>
      match cal_fit p X with
      | None => update l (fun _ => Calibrator p (Some X))
      | Some e => raise Collaborator e
      end
  | _ => raise Interpreter TypeError
  end.

Definition calibrator_pdf (h : heap) (l : loc) (X : matrix) : result vector :=
  match h !! l with
  | Some (Calibrator p f) => call Collaborator (cal_pdf p f X)
  | _ => Err (Raise Interpreter AttributeError)
  end.

Definition calibrator_nnlf (h : heap) (l : loc) (X : matrix) : result vector :=
  match h !! l with
  | Some (Calibrator p f) => call Collaborator (cal_nnlf p f X)
  | _ => Err (Raise Interpreter AttributeError)
  end.

(** ** CalibratedClassifierRatio *)

(** The [calibration] parameter: a string or an estimator to clone. *)
Inductive calibration_param :=
| CalibrationName (s : string)
| CalibrationEstimator (l : loc).

(** The [cv] parameter: the string "prefit" or anything [check_cv] takes. *)
Inductive cv_param :=
| Prefit
| Cv (c : cv_arg).

Record CalibratedClassifierRatio := {
  base_estimator : loc;
  calibration : calibration_param;
  cv : cv_param;
  decompose : bool;
  classifiers_ : option (list loc);
  calibrators_ : option (list (loc * loc))
}.

Definition set_classifiers_ (l : list loc) (s : CalibratedClassifierRatio) :=
  {| base_estimator := base_estimator s; calibration := calibration s;
     cv := cv s; decompose := decompose s;
     classifiers_ := Some l; calibrators_ := calibrators_ s |}.

Definition set_calibrators_ (l : list (loc * loc))
    (s : CalibratedClassifierRatio) :=
  {| base_estimator := base_estimator s; calibration := calibration s;
     cv := cv s; decompose := decompose s;
     classifiers_ := classifiers_ s; calibrators_ := Some l |}.

(** The estimator [self] and the store. *)
#[local] Abbreviation world :=
  (CalibratedClassifierRatio * heap)%type (only parsing).

Definition on_heap {A} (m : M heap A) : M world A :=
  fun w => let (r, h') := m w.2 in (r, (w.1, h')).

Definition read {A} (f : heap -> result A) : M world A :=
  fun w => (f w.2, w).

Definition self_ : M world CalibratedClassifierRatio :=
  fun w => (Ok w.1, w).

Definition set_self (f : CalibratedClassifierRatio -> CalibratedClassifierRatio)
  : M world unit :=
  fun w => (Ok tt, (f w.1, w.2)).

(** [self.name] for an attribute that [fit] creates. *)
Definition attr {A} (a : option A) : result A :=
  match a with
  | Some x => Ok x
  | None => Err (Raise Interpreter AttributeError)
  end.

Definition calibration_is (c : calibration_param) (name : string) : bool :=
  match c with
  | CalibrationName s => String.eqb s name
  | CalibrationEstimator _ => false
  end.

(** [_check_calibration], lines 74-85. *)
Definition _check_calibration : M world (loc * loc) :=
  self ← self_;
  if calibration_is (calibration self) "kde" then
    calibrator_num ← on_heap (alloc (Calibrator KernelDensity None));
    calibrator_den ← on_heap (alloc (Calibrator KernelDensity None));
    mret (calibrator_num, calibrator_den)
  else if calibration_is (calibration self) "histogram" then
    calibrator_num ←
      on_heap (alloc (Calibrator (Histogram 100 [(0, 1)%R]) None));
    calibrator_den ←
      on_heap (alloc (Calibrator (Histogram 100 [(0, 1)%R]) None));
    mret (calibrator_num, calibrator_den)
  else
    match calibration self with
    | CalibrationEstimator l =>
        calibrator_num ← on_heap (clone l);
        calibrator_den ← on_heap (clone l);
        mret (calibrator_num, calibrator_den)
    | CalibrationName _ => raise Sklearn TypeError
    end.

(** Lines 93-96: the samples and labels of generative mode. *)
Definition generate (numerator denominator : dist) (n_samples : Z)
  : result (matrix * labels) :=
  a ← call Collaborator (rvs numerator (n_samples / 2));
  b ← call Collaborator (rvs denominator (n_samples / 2));
  X ← np_vstack a b;
  y ← np_zeros_int n_samples;
  Ok (X, np_set_from y (n_samples / 2) 1%Z).

(** Lines 89-98: the data [fit] works on. *)
Definition fit_data (X : option matrix) (y : option labels)
    (numerator denominator : option dist) (n_samples : option Z)
  : result (matrix * labels) :=
  match X, y with
  | Some X, Some y => Ok (X, y)
  | _, _ =>
      match numerator, denominator, n_samples with
      | Some numerator, Some denominator, Some n_samples =>
          generate numerator denominator n_samples
      | _, _, _ => Err (Raise ArgumentCheck ValueError)
      end
  end.

(** Lines 111-117, which lines 129-135 repeat: score the samples of each
    label, fit the two calibrators, append the entry. *)
Definition calibrate (classifier : loc) (cals : loc * loc)
    (X : matrix) (y : labels) : M world unit :=
  let calibrator_num := cals.1 in
  let calibrator_den := cals.2 in
  X0 ← pure_ (np_mask X (np_eq y 0));
  P ← read (fun h => classifier_predict_proba h classifier X0);
  X_num ← pure_ (np_col P 0);
  X1 ← pure_ (np_mask X (np_eq y 1));
  P ← read (fun h => classifier_predict_proba h classifier X1);
  X_den ← pure_ (np_col P 0);
  on_heap (calibrator_fit calibrator_num (np_reshape_col X_num)) ≫= fun _ =>
  on_heap (calibrator_fit calibrator_den (np_reshape_col X_den)) ≫= fun _ =>
  self ← self_;
  l ← pure_ (attr (classifiers_ self));
  set_self (set_classifiers_ (l ++ [classifier])) ≫= fun _ =>
  self ← self_;
  l ← pure_ (attr (calibrators_ self));
  set_self (set_calibrators_ (l ++ [cals])).

(** Lines 123-135: the body of the loop over the folds. *)
Definition fit_fold (base_estimator : loc) (X : matrix) (y : labels)
    (fold : list nat * list nat) : M world unit :=
  let train := fold.1 in
  let calibrate_ := fold.2 in
  classifier ← on_heap (clone base_estimator);
  X_train ← pure_ (np_take X train);
  y_train ← pure_ (np_take y train);
  on_heap (classifier_fit classifier X_train y_train) ≫= fun _ =>
  cals ← _check_calibration;
  X_cal ← pure_ (np_take X calibrate_);
  y_cal ← pure_ (np_take y calibrate_);
  calibrate classifier cals X_cal y_cal.

(** Lines 107-135: the ensemble, from a classifier used as it is when [cv]
    is "prefit", from one clone per fold otherwise. *)
Definition fit_ensemble (base_estimator : loc) (X : matrix) (y : labels)
  : M world unit :=
  self ← self_;
  match cv self with
  | Prefit =>
      cals ← _check_calibration;
      calibrate base_estimator cals X y
  | Cv c =>
      for_each (cv_split c X y).1 (fit_fold base_estimator X y) ≫= fun _ =>
      match (cv_split c X y).2 with
      | Some e => raise Sklearn e
      | None => mret tt
      end
  end.

(** [CalibratedClassifierRatio.fit], lines 87-137. *)
Definition fit (X : option matrix) (y : option labels)
    (numerator denominator : option dist) (n_samples : option Z)
  : M world unit :=
  Xy ← pure_ (fit_data X y numerator denominator n_samples);
  let X := Xy.1 in
  let y := Xy.2 in
  set_self (set_classifiers_ []) ≫= fun _ =>
  set_self (set_calibrators_ []) ≫= fun _ =>
  self ← self_;
  regressor ← read (fun h => Ok (is_regressor h (base_estimator self)));
  base ← (if regressor : bool
          then on_heap (alloc (WrapAsClassifier (base_estimator self)
                                  None None))
          else mret (base_estimator self));
  fit_ensemble base X y.

(** One pass of the loop of [predict], lines 142-150: the term added to
    [r]. *)
Definition contribution (h : heap) (X : matrix) (log : bool)
    (entry : loc * (loc * loc)) : result vector :=
  let classifier := entry.1 in
  let calibrator_num := entry.2.1 in
  let calibrator_den := entry.2.2 in
  P ← classifier_predict_proba h classifier X;
  c ← np_col P 0;
  let p := np_reshape_col c in
  if log then
    a ← calibrator_nnlf h calibrator_num p;
    b ← calibrator_nnlf h calibrator_den p;
    np_binop Rplus (map Ropp a) b
  else
    a ← calibrator_pdf h calibrator_num p;
    b ← calibrator_pdf h calibrator_den p;
    np_binop Rdiv a b.

Fixpoint predict_loop (h : heap) (X : matrix) (log : bool)
    (entries : list (loc * (loc * loc))) (r : vector) : result vector :=
  match entries with
  | [] => Ok r
  | entry :: entries' =>
      v ← contribution h X log entry;
      r ← np_iadd r v;
      predict_loop h X log entries' r
  end.

(** [CalibratedClassifierRatio.predict], lines 139-152. *)
Definition predict (w : world) (X : matrix) (log : bool) : result vector :=
  let r := np_zeros (length X) in
  classifiers ← attr (classifiers_ w.1);
  calibrators ← attr (calibrators_ w.1);
  r ← predict_loop w.2 X log (zip classifiers calibrators) r;
  Ok (map (fun x => (x / INR (length classifiers))%R) r).

(** [CalibratedClassifierRatio.score], lines 154-155. *)
Definition score (X : matrix) (y : labels) : M world unit :=
  raise ScoreStub NotImplementedError.

End Carl.

Abbreviation heap := (list obj) (only parsing).
Abbreviation world := (CalibratedClassifierRatio * heap)%type (only parsing).

(** ** Reasoning about a run *)

(** [wp m Q s]: running [m] from [s] ends, normally or with an exception,
    in a result and a state that satisfy [Q]. *)
Definition wp {S A} (m : M S A) (Q : result A -> S -> Prop) (s : S) : Prop :=
  Q (m s).1 (m s).2.

Section Specification.
Context `{Collaborators}.

(** The first [n] objects of the store are as they were, and nothing was
    removed. *)
Definition keeps (n : nat) (h h' : heap) : Prop :=
  take n h' = take n h /\ length h <= length h'.

(** [c] in [h'] is a clone of what [l] was in [h]: unfitted, with the
    same parameters; the regressor a wrapper holds is cloned with it. *)
Definition cloned (h : heap) (l : loc) (h' : heap) (c : loc) : Prop :=
  match h !! l with
  | Some (Classifier p _) => h' !! c = Some (Classifier p None)
  | Some (Regressor p _) => h' !! c = Some (Regressor p None)
  | Some (Calibrator p _) => h' !! c = Some (Calibrator p None)
  | Some (WrapAsClassifier r _ _) =>
      exists r', h' !! c = Some (WrapAsClassifier r' None None) /\
        forall p f, h !! r = Some (Regressor p f) ->
                    h' !! r' = Some (Regressor p None)
  | None => False
  end.

(** [c] in [h] is a wrapper fitted on [X] and [y]: it holds the two
    classes of what [check_X_y] makes of them and a regressor of its own,
    with parameters [p], fitted on the encoded labels. *)
Definition wrapped (p : reg_params) (h : heap) (c : loc)
    (X : matrix) (y : labels) : Prop :=
  exists r0' r X' y',
    check_X_y X y = inl (X', y') /\
    length (np_unique y') = 2 /\
    h !! c = Some (WrapAsClassifier r0' (Some (np_unique y')) (Some r)) /\
    h !! r = Some (Regressor p (Some (X', encode (np_unique y') y'))).

(** [c] in [h] is a fitted clone of the classifier [base] of [h0], and was
    fitted on [X] and [y]. *)
Definition trained (h0 : heap) (base : loc) (h : heap) (c : loc)
    (X : matrix) (y : labels) : Prop :=
  match h0 !! base with
  | Some (Classifier p _) => h !! c = Some (Classifier p (Some (X, y)))
  | Some (WrapAsClassifier r0 _ _) =>
      forall p f, h0 !! r0 = Some (Regressor p f) -> wrapped p h c X y
  | _ => True
  end.

(** The same for the [base_estimator] of the ratio estimator, which is
    wrapped first when it is a regressor. *)
Definition fitted_clone (h0 : heap) (b : loc) (h : heap) (c : loc)
    (X : matrix) (y : labels) : Prop :=
  match h0 !! b with
  | Some (Classifier p _) => h !! c = Some (Classifier p (Some (X, y)))
  | Some (Regressor p _) => wrapped p h c X y
  | Some (WrapAsClassifier r0 _ _) =>
      forall p f, h0 !! r0 = Some (Regressor p f) -> wrapped p h c X y
  | _ => True
  end.

(** The classifier [c] made for a fold: a new object, fitted on the
    train subset of the fold. *)
Definition fold_classifier (fitted : loc -> matrix -> labels -> Prop)
    (n : nat) (X : matrix) (y : labels)
    (fold : list nat * list nat) (c : loc) : Prop :=
  n <= c /\
  exists X_train y_train,
    np_take X fold.1 = Ok X_train /\
    np_take y fold.1 = Ok y_train /\
    fitted c X_train y_train.

(** The calibrator pair [k] of [h'] was made after [h] and fitted on the
    scores that [classifier] gives to all samples with label 0, and to all
    samples with label 1, of the whole [X] and [y]. *)
Definition calibrated_on_all (h h' : heap) (classifier : loc)
    (X : matrix) (y : labels) (k : loc * loc) : Prop :=
  exists hs X0 P0 s0 X1 P1 s1 pn pd,
    length h <= k.1 /\ length h <= k.2 /\ keeps (length h) h hs /\
    np_mask X (np_eq y 0) = Ok X0 /\
    classifier_predict_proba hs classifier X0 = Ok P0 /\
    np_col P0 0 = Ok s0 /\
    np_mask X (np_eq y 1) = Ok X1 /\
    classifier_predict_proba hs classifier X1 = Ok P1 /\
    np_col P1 0 = Ok s1 /\
    h' !! k.1 = Some (Calibrator pn (Some (np_reshape_col s0))) /\
    h' !! k.2 = Some (Calibrator pd (Some (np_reshape_col s1))).

(** The calibrators of the entry [(c, k)] of [h'] were fitted on the
    scores that the classifier [c] gives to the calibrate subset of
    [fold]: the first on those of its samples with label 0, the second
    on those with label 1.  [hs] is the store at the time of scoring; the
    final store [h'] differs from it, on the objects it held, by the two
    calibrators only. *)
Definition held_out (h' : heap) (X : matrix) (y : labels)
    (fold : list nat * list nat) (entry : loc * (loc * loc)) : Prop :=
  exists hs X_cal y_cal X0 P0 s0 X1 P1 s1 pn pd,
    np_take X fold.2 = Ok X_cal /\
    np_take y fold.2 = Ok y_cal /\
    np_mask X_cal (np_eq y_cal 0) = Ok X0 /\
    classifier_predict_proba hs entry.1 X0 = Ok P0 /\
    np_col P0 0 = Ok s0 /\
    np_mask X_cal (np_eq y_cal 1) = Ok X1 /\
    classifier_predict_proba hs entry.1 X1 = Ok P1 /\
    np_col P1 0 = Ok s1 /\
    h' !! entry.2.1 = Some (Calibrator pn (Some (np_reshape_col s0))) /\
    h' !! entry.2.2 = Some (Calibrator pd (Some (np_reshape_col s1))) /\
    entry.1 < length hs /\ length hs <= length h' /\
    (forall l, l < length hs -> l <> entry.2.1 -> l <> entry.2.2 ->
               h' !! l = hs !! l).

(** The objects of an ensemble: per entry the classifier and its two
    calibrators. *)
Definition entry_locs (classifiers : list loc) (calibrators : list (loc * loc))
  : list loc :=
  concat (zip_with (fun c k => [c; k.1; k.2]) classifiers calibrators).

(** Where the loop of [fit] starts (lines 100-105): the classifier it
    clones, and the world at that point.  The two lists are empty, and a
    regressor given as [base_estimator] has been wrapped. *)
Definition loop_entry (s : CalibratedClassifierRatio) (h : heap)
  : loc * world :=
  let s0 := set_calibrators_ [] (set_classifiers_ [] s) in
  if is_regressor h (base_estimator s)
  then (length h, (s0, h ++ [WrapAsClassifier (base_estimator s) None None]))
  else (base_estimator s, (s0, h)).

(** The loop over [folds], started in [w0], raises [e] and leaves [w']
    after exactly [k] completed passes: the passes for the first [k]
    folds complete, and the pass for the next fold raises [e], leaving
    the two lists as the [k] passes made them; when no fold is left it is
    the splitter that ends with an exception, [stop]. *)
Definition stops_after (k : nat) (base : loc) (X : matrix) (y : labels)
    (folds : list (list nat * list nat)) (stop : option exn)
    (w0 : world) (e : error) (w' : world) : Prop :=
  exists wk,
    for_each (take k folds) (fit_fold base X y) w0 = (Ok tt, wk) /\
    classifiers_ w'.1 = classifiers_ wk.1 /\
    calibrators_ w'.1 = calibrators_ wk.1 /\
    match folds !! k with
    | Some fold => fit_fold base X y fold wk = (Err e, w')
    | None => exists x, stop = Some x /\ e = Raise Sklearn x /\ w' = wk
    end.

(** [calibration] is one of the two built-in names. *)
Definition builtin_calibration (s : CalibratedClassifierRatio) : Prop :=
  calibration_is (calibration s) "kde" = true \/
  calibration_is (calibration s) "histogram" = true.

(** Neither input mode of [fit] is complete: not both [X] and [y], and not
    all of [numerator], [denominator] and [n_samples]. *)
Definition neither_mode (X : option matrix) (y : option labels)
    (numerator denominator : option dist) (n_samples : option Z) : Prop :=
  ~ (is_Some X /\ is_Some y) /\
  ~ (is_Some numerator /\ is_Some denominator /\ is_Some n_samples).

(** The parameters of the estimator, which [fit] does not touch. *)
Definition same_params (s s' : CalibratedClassifierRatio) : Prop :=
  base_estimator s' = base_estimator s /\ calibration s' = calibration s /\
  cv s' = cv s /\ decompose s' = decompose s.

(** An exception that is not the argument error of [fit]. *)
Definition late (e : error) : Prop := err_origin e <> ArgumentCheck.

(** The arithmetic mean. *)
Definition mean (l : list R) : R := (foldr Rplus 0 l / INR (length l))%R.

(** What one ensemble entry is asked at [X], in the words of the
    specification: [p] is column 0 of the classifier's [predict_proba];
    the two calibrators give the vectors [num] and [den] at [p], their
    [pdf] when [log] is false and their [nnlf] when it is true. *)
Definition scored (h : heap) (X : matrix) (log : bool)
    (entry : loc * (loc * loc)) (num den : vector) : Prop :=
  exists P p,
    classifier_predict_proba h entry.1 X = Ok P /\
    np_col P 0 = Ok p /\
    (if log
     then calibrator_nnlf h entry.2.1 (np_reshape_col p) = Ok num /\
          calibrator_nnlf h entry.2.2 (np_reshape_col p) = Ok den
     else calibrator_pdf h entry.2.1 (np_reshape_col p) = Ok num /\
          calibrator_pdf h entry.2.2 (np_reshape_col p) = Ok den) /\
    length num = length X /\ length den = length X.

(** The contribution of an entry at one point, in the words of the
    specification. *)
Definition term (log : bool) (num den : R) : R :=
  if log then (- num + den)%R else (num / den)%R.

(** A density that is nonnegative and not zero. *)
Definition positive (x : R) : Prop := (0 <= x)%R /\ x <> 0%R.

(** The terms of all entries at point [i]. *)
Definition column (log : bool) (scores : list (vector * vector)) (i : nat)
  : list R :=
  map (fun s => term log (nth i s.1 0%R) (nth i s.2 0%R)) scores.

End Specification.

(** ** A concrete set of collaborators

    Small stand-ins with the behaviour their documentation states, used to
    run the code on concrete inputs. *)
Module Toy.

(** A matrix with at least one row and one column, all rows of one width. *)
Definition well_formed (X : matrix) : bool :=
  match X with
  | [] => false
  | r :: _ =>
      negb (Nat.eqb (length r) 0)
      && forallb (fun r' => Nat.eqb (length r') (length r)) X
  end.

Definition toy_check_array (X : matrix) : matrix + exn :=
  if well_formed X then inl X else inr ValueError.

Definition toy_check_X_y (X : matrix) (y : labels) : (matrix * labels) + exn :=
  if well_formed X && Nat.eqb (length X) (length y)
  then inl (X, y) else inr ValueError.

(** A classifier that refuses to train on fewer than two classes and, once
    trained, scores every sample alike; like the estimators of
    scikit-learn it rejects an input without samples. *)
Definition toy_clf_fit (_ : unit) (X : matrix) (y : labels) : option exn :=
  if Nat.ltb (length (np_unique y)) 2 then Some ValueError else None.

Definition toy_clf_predict_proba (_ : unit) (f : option (matrix * labels))
    (X : matrix) : matrix + exn :=
  match f, X with
  | Some _, _ :: _ => inl (map (fun _ => [1; 0]%R) X)
  | Some _, [] => inr ValueError
  | None, _ => inr RuntimeError
  end.

(** A regressor that predicts the constant it is parameterised by. *)
Definition toy_reg_predict (c : R) (f : option (matrix * vector))
    (X : matrix) : vector + exn :=
  match f with
  | Some _ => inl (map (fun _ => c) X)
  | None => inr RuntimeError
  end.

(** A calibrator with the uniform density on the unit interval. *)
Definition toy_cal_pdf (_ : unit) (f : option matrix) (X : matrix)
  : vector + exn :=
  match f with
  | Some _ => inl (map (fun _ => 1%R) X)
  | None => inr RuntimeError
  end.

Definition toy_cal_nnlf (_ : unit) (f : option matrix) (X : matrix)
  : vector + exn :=
  match f with
  | Some _ => inl (map (fun _ => (- ln 1)%R) X)
  | None => inr RuntimeError
  end.

(** A distribution that puts all its mass on one point. *)
Definition toy_rvs (point : list R) (k : Z) : array2 + exn :=
  if (k <? 0)%Z then inr ValueError
  else inl {| arr_rows := repeat point (Z.to_nat k);
              arr_cols := length point |}.

(** A splitter that yields the folds it was built with. *)
Definition toy_cv_split (c : list (list nat * list nat) * option exn)
    (X : matrix) (y : labels) := c.

Definition collaborators : Collaborators := {|
  clf_params := unit;
  reg_params := R;
  cal_params := unit;
  cv_arg := list (list nat * list nat) * option exn;
  dist := list R;
  check_array := toy_check_array;
  check_X_y := toy_check_X_y;
  clf_fit := toy_clf_fit;
  clf_predict_proba := toy_clf_predict_proba;
  reg_fit := fun _ _ _ => None;
  reg_predict := toy_reg_predict;
  KernelDensity := tt;
  Histogram := fun _ _ => tt;
  cal_fit := fun _ _ => None;
  cal_pdf := toy_cal_pdf;
  cal_nnlf := toy_cal_nnlf;
  rvs := toy_rvs;
  cv_split := toy_cv_split
|}.

(** Data for the runs below: an estimator with the default calibration
    whose base estimator is the first object of the store. *)
Definition estimator (c : @cv_param collaborators)
  : @CalibratedClassifierRatio collaborators :=
  {| base_estimator := 0; calibration := CalibrationName "histogram";
     cv := c; decompose := false;
     classifiers_ := None; calibrators_ := None |}.

Definition six_samples : matrix := [[0]; [1]; [2]; [3]; [4]; [5]]%R.

(** The [cv] parameter for a list of folds. *)
Definition folds (l : list (list nat * list nat)) : @cv_param collaborators :=
  @Cv collaborators (l, None).

(** The three folds of six samples, in order. *)
Definition three_folds : @cv_param collaborators :=
  folds [([2; 3; 4; 5], [0; 1]); ([0; 1; 4; 5], [2; 3]);
         ([0; 1; 2; 3], [4; 5])].

(** One fold that trains and calibrates on both of two samples. *)
Definition one_fold : @cv_param collaborators := folds [([0; 1], [0; 1])].

(** The same collaborators with a regressor that needs at least three
    samples to be fitted. *)
Definition needs_three_samples (_ : R) (X : matrix) (_ : vector)
  : option exn :=
  if Nat.ltb (length X) 3 then Some ValueError else None.

Definition strict_collaborators : Collaborators := {|
  clf_params := unit;
  reg_params := R;
  cal_params := unit;
  cv_arg := list (list nat * list nat) * option exn;
  dist := list R;
  check_array := toy_check_array;
  check_X_y := toy_check_X_y;
  clf_fit := toy_clf_fit;
  clf_predict_proba := toy_clf_predict_proba;
  reg_fit := needs_three_samples;
  reg_predict := toy_reg_predict;
  KernelDensity := tt;
  Histogram := fun _ _ => tt;
  cal_fit := fun _ _ => None;
  cal_pdf := toy_cal_pdf;
  cal_nnlf := toy_cal_nnlf;
  rvs := toy_rvs;
  cv_split := toy_cv_split
|}.

(** An estimator with an ensemble of fitted entries over the store
    [fitted_store]: the classifiers at 0 and 3 are fitted, the one at 4
    is not; 1 and 2 are fitted calibrators. *)
Definition fitted_store : list (@obj collaborators) :=
  [@Classifier collaborators tt (Some ([], []));
   @Calibrator collaborators tt (Some []);
   @Calibrator collaborators tt (Some []);
   @Classifier collaborators tt (Some ([], []));
   @Classifier collaborators tt None].

Definition with_ensemble (cls : list nat) (cals : list (nat * nat))
  : @CalibratedClassifierRatio collaborators :=
  {| base_estimator := 0; calibration := CalibrationName "histogram";
     cv := Prefit; decompose := false;
     classifiers_ := Some cls; calibrators_ := Some cals |}.

End Toy.

(** * Properties *)

Section Monad.
Context {S : Type}.
Implicit Types s : S.

Lemma wp_run {A} (m : M S A) Q s r s' :
  m s = (r, s') -> wp m Q s -> Q r s'.
Proof. unfold wp. intros ->. auto. Qed.

Lemma wp_intro {A} (m : M S A) (Q : result A -> S -> Prop) s :
  (forall r s', m s = (r, s') -> Q r s') -> wp m Q s.
Proof. unfold wp. intros HQ. apply HQ. by destruct (m s). Qed.

Lemma wp_mono {A} (m : M S A) (Q Q' : result A -> S -> Prop) s :
  wp m Q s -> (forall r s', Q r s' -> Q' r s') -> wp m Q' s.
Proof. unfold wp. auto. Qed.

Lemma wp_ret {A} (a : A) (Q : result A -> S -> Prop) s :
  Q (Ok a) s -> wp (mret a) Q s.
Proof. done. Qed.

Lemma wp_raise {A} o e (Q : result A -> S -> Prop) s :
  Q (Err (Raise o e)) s -> wp (raise o e) Q s.
Proof. done. Qed.

Lemma wp_pure {A} (r : result A) (Q : result A -> S -> Prop) s :
  Q r s -> wp (pure_ r) Q s.
Proof. done. Qed.

Lemma wp_get (Q : result S -> S -> Prop) s : Q (Ok s) s -> wp get Q s.
Proof. done. Qed.

Lemma wp_bind {A B} (m : M S A) (f : A -> M S B) Q s :
  wp m (fun r s' => match r with
                    | Ok a => wp (f a) Q s'
                    | Err e => Q (Err e) s'
                    end) s ->
  wp (m ≫= f) Q s.
Proof.
  unfold wp, mbind, M_bind. by destruct (m s) as [[a|e] s1].
Qed.

Lemma wp_for_each {A} (Inv : list A -> S -> Prop) (body : A -> M S unit)
    (Q : result unit -> S -> Prop) (l : list A) s :
  Inv [] s ->
  (forall done_ x s1, Inv done_ s1 ->
     wp (body x) (fun r s2 => match r with
                              | Ok _ => Inv (done_ ++ [x]) s2
                              | Err e => forall todo, done_ ++ x :: todo = l -> Q (Err e) s2
                              end) s1) ->
  (forall s', Inv l s' -> Q (Ok tt) s') ->
  wp (for_each l body) Q s.
Proof.
  intros H0 Hbody Hend.
  assert (Hgen : forall todo done_ s1, done_ ++ todo = l -> Inv done_ s1 ->
            wp (for_each todo body) Q s1).
  { induction todo as [|x todo IH]; intros done_ s1 Hl HI; simpl.
    - rewrite app_nil_r in Hl. subst. apply wp_ret. auto.
    - apply wp_bind. eapply wp_mono; [apply (Hbody done_ x s1 HI)|].
      intros [[]|e] s2 HQ; [|by eapply HQ].
      apply (IH (done_ ++ [x])); [by rewrite <- app_assoc|done]. }
  by apply (Hgen l []).
Qed.

End Monad.

Section Adapter.
Context `{Collaborators}.

Lemma clip01_bounds x : (0 <= clip01 x <= 1)%R.
Proof.
  unfold clip01, Rmin, Rmax.
  destruct (Rle_dec x 0); destruct (Rle_dec _ 1); lra.
Qed.

Lemma clip01_inside x : (0 <= x <= 1)%R -> clip01 x = x.
Proof.
  unfold clip01, Rmin, Rmax.
  destruct (Rle_dec x 0); destruct (Rle_dec _ 1); lra.
Qed.

Lemma clip01_below x : (x <= 0)%R -> clip01 x = 0%R.
Proof.
  unfold clip01, Rmin, Rmax.
  destruct (Rle_dec x 0); destruct (Rle_dec _ 1); lra.
Qed.

Lemma clip01_above x : (1 <= x)%R -> clip01 x = 1%R.
Proof.
  unfold clip01, Rmin, Rmax.
  destruct (Rle_dec x 0); destruct (Rle_dec _ 1); lra.
Qed.

Lemma zip_with_map_same {A B C D} (f : B -> C -> D) (g : A -> B) (k : A -> C)
    (l : list A) :
  zip_with f (map g l) (map k l) = map (fun x => f (g x) (k x)) l.
Proof. induction l; simpl; congruence. Qed.

Lemma np_assign_col_same n v : length v = n -> np_assign_col n v = Ok v.
Proof. intros <-. unfold np_assign_col. by rewrite Nat.eqb_refl. Qed.

(** C5. On a fitted wrapper and an input that [check_array] accepts,
    [predict_proba] clips the regressor's output [p] to the unit interval
    and returns one row [[1 - p, p]] per sample: the rows have two entries,
    both between 0 and 1, and sum to 1. *)
Theorem predict_proba_rows_are_probabilities
    (h : heap) (self : loc) (X X' : matrix) (regressor : loc)
    (classes : option (list Z)) (r : loc) (p : vector) :
  h !! self = Some (WrapAsClassifier regressor classes (Some r)) ->
  check_array X = inl X' ->
  regressor_predict h r X' = Ok p ->
  length p = length X' ->
  exists probas,
    WrapAsClassifier_predict_proba h self X = Ok probas /\
    probas = map (fun x => [(1 - clip01 x)%R; clip01 x]) p /\
    length probas = length X' /\
    (forall x, (0 <= clip01 x <= 1)%R /\
               ((0 <= x <= 1)%R -> clip01 x = x) /\
               ((x <= 0)%R -> clip01 x = 0%R) /\
               ((1 <= x)%R -> clip01 x = 1%R)) /\
    Forall (fun row => exists a b, row = [a; b] /\ (a + b = 1)%R /\
                         (0 <= a <= 1)%R /\ (0 <= b <= 1)%R) probas.
Proof.
  intros Hself HX Hp Hlen.
  eexists. split; [|split; [reflexivity|]].
  - unfold WrapAsClassifier_predict_proba. rewrite Hself, HX. simpl.
    rewrite Hp. simpl.
    rewrite !np_assign_col_same
      by (unfold np_clip01; by rewrite ?length_map).
    simpl. unfold np_clip01. rewrite map_map.
    by rewrite zip_with_map_same.
  - split; [by rewrite length_map|]. split.
    + intros x. pose proof (clip01_bounds x).
      split; [done|]. split; [apply clip01_inside|].
      split; [apply clip01_below|apply clip01_above].
    + apply List.Forall_forall. intros row [x [<- _]]%in_map_iff.
      pose proof (clip01_bounds x).
      exists (1 - clip01 x)%R, (clip01 x). repeat split; lra.
Qed.

End Adapter.

Section Predict.
Context `{Collaborators}.

Lemma np_binop_same f a b :
  length a = length b -> np_binop f a b = Ok (zip_with f a b).
Proof. intros E. unfold np_binop. by rewrite E, Nat.eqb_refl. Qed.

Lemma np_iadd_same r v :
  length r = length v -> np_iadd r v = Ok (zip_with Rplus r v).
Proof. intros E. unfold np_iadd. by rewrite E, Nat.eqb_refl. Qed.

Lemma zip_with_map_l {A B C D} (f : B -> C -> D) (g : A -> B) l k :
  zip_with f (map g l) k = zip_with (fun x y => f (g x) y) l k.
Proof. revert k. induction l; intros [|y k]; simpl; congruence. Qed.

Lemma nth_zip_with (f : R -> R -> R) a b i :
  i < length a -> i < length b ->
  nth i (zip_with f a b) 0%R = f (nth i a 0%R) (nth i b 0%R).
Proof.
  revert b i. induction a as [|x a IH]; intros [|y b] [|i]; simpl;
    try lia; auto.
  intros. apply IH; lia.
Qed.

Lemma nth_repeat_0 i n : nth i (repeat 0%R n) 0%R = 0%R.
Proof. revert i. induction n; intros [|i]; simpl; auto. Qed.

(** The loop body computes the specification's term at every point. *)
Lemma contribution_scored h X log entry num den :
  scored h X log entry num den ->
  contribution h X log entry = Ok (zip_with (term log) num den).
Proof.
  intros (P & p & HP & Hp & Hcal & Hn & Hd).
  unfold contribution. rewrite HP. simpl. rewrite Hp. simpl.
  destruct log; destruct Hcal as [-> ->]; simpl.
  - rewrite np_binop_same by (rewrite length_map; congruence).
    by rewrite zip_with_map_l.
  - by rewrite np_binop_same by congruence.
Qed.

Lemma predict_loop_scored h X log entries scores r :
  Forall2 (fun e s => scored h X log e s.1 s.2) entries scores ->
  length r = length X ->
  exists r',
    predict_loop h X log entries r = Ok r' /\
    length r' = length X /\
    forall i, i < length X ->
      nth i r' 0%R = (nth i r 0 + foldr Rplus 0 (column log scores i))%R.
Proof.
  intros HF. revert r.
  induction HF as [|e [num den] entries scores He HF IH]; intros r Hr.
  - exists r. simpl. repeat split; auto. intros. lra.
  - simpl in He. pose proof He as (P & p & _ & _ & _ & Hn & Hd).
    simpl. rewrite (contribution_scored _ _ _ _ _ _ He). simpl.
    assert (Hv : length (zip_with (term log) num den) = length X)
      by (rewrite length_zip_with; lia).
    rewrite np_iadd_same by congruence. simpl.
    destruct (IH (zip_with Rplus r (zip_with (term log) num den)))
      as (r' & Hrun & Hlen & Hsum).
    { rewrite length_zip_with. lia. }
    exists r'. split; [done|]. split; [done|].
    intros i Hi. rewrite (Hsum i Hi).
    rewrite !nth_zip_with by (rewrite ?length_zip_with; lia).
    simpl. lra.
Qed.

Lemma nth_map_div (k : R) r i :
  i < length r ->
  nth i (map (fun x => (x / k)%R) r) 0%R = (nth i r 0 / k)%R.
Proof.
  revert i. induction r as [|x r IH]; intros [|i]; simpl; try lia; auto.
  intros. apply IH. lia.
Qed.

Lemma predict_scored (w : world) X log classifiers calibrators scores :
  classifiers_ w.1 = Some classifiers ->
  calibrators_ w.1 = Some calibrators ->
  length classifiers = length calibrators ->
  Forall2 (fun e s => scored w.2 X log e s.1 s.2)
    (zip classifiers calibrators) scores ->
  exists r,
    predict w X log = Ok r /\
    length r = length X /\
    forall i, i < length X -> nth i r 0%R = mean (column log scores i).
Proof.
  intros Hc Hk Hlen HF.
  destruct (predict_loop_scored _ _ _ _ _ (np_zeros (length X)) HF)
    as (r' & Hrun & Hr' & Hsum).
  { unfold np_zeros. by rewrite repeat_length. }
  unfold predict. rewrite Hc, Hk. simpl. rewrite Hrun. simpl.
  eexists. split; [reflexivity|]. split; [by rewrite length_map|].
  intros i Hi. rewrite nth_map_div by lia. rewrite (Hsum i Hi).
  unfold np_zeros. rewrite nth_repeat_0. unfold mean, column.
  rewrite length_map. apply Forall2_length in HF.
  rewrite length_zip_with in HF.
  replace (length classifiers) with (length scores) by lia.
  f_equal. lra.
Qed.


End Predict.

Section LogRatio.
Context `{Collaborators}.

Lemma nth_map_lt {A B} (f : A -> B) (l : list A) i d d' :
  i < length l -> nth i (map f l) d = f (nth i l d').
Proof.
  revert i. induction l as [|x l IH]; intros [|i]; simpl; try lia; auto.
  intros. apply IH. lia.
Qed.

Lemma ln_ratio a b :
  positive a -> positive b ->
  (- (- ln a) + (- ln b))%R = ln (a / b).
Proof.
  intros [Ha Ha'] [Hb Hb'].
  unfold Rdiv. rewrite ln_mult, ln_Rinv; try lra.
  apply Rinv_0_lt_compat. lra.
Qed.

Lemma log_terms_are_log_ratios a b :
  Forall positive a -> Forall positive b ->
  zip_with (term true) (map (fun x => (- ln x)%R) a)
                       (map (fun x => (- ln x)%R) b)
  = map ln (zip_with Rdiv a b).
Proof.
  intros Ha. revert b.
  induction Ha as [|x a Hx Ha IH]; intros b Hb; [done|].
  destruct Hb as [|y b Hy Hb]; [done|].
  simpl. rewrite IH by done. f_equal. by apply ln_ratio.
Qed.

Lemma mean_singleton x : mean [x] = x.
Proof. unfold mean. simpl. lra. Qed.

(** C9. When the two calibrators of an entry satisfy [nnlf = - ln pdf] at
    the scores [p] and their densities there are nonnegative and nonzero,
    the entry's term in log mode is the logarithm of its term in ratio
    mode; so for an ensemble of that single entry the exponential of
    [predict(X, log=True)] is [predict(X, log=False)]. *)
Theorem log_mode_agrees_with_ratio_mode
    (h : heap) (X : matrix) (entry : loc * (loc * loc))
    (P : matrix) (p a b : vector) :
  classifier_predict_proba h entry.1 X = Ok P ->
  np_col P 0 = Ok p ->
  calibrator_pdf h entry.2.1 (np_reshape_col p) = Ok a ->
  calibrator_pdf h entry.2.2 (np_reshape_col p) = Ok b ->
  calibrator_nnlf h entry.2.1 (np_reshape_col p)
    = Ok (map (fun x => (- ln x)%R) a) ->
  calibrator_nnlf h entry.2.2 (np_reshape_col p)
    = Ok (map (fun x => (- ln x)%R) b) ->
  length a = length X ->
  length b = length X ->
  Forall (fun x => (0 <= x)%R /\ x <> 0%R) a ->
  Forall (fun x => (0 <= x)%R /\ x <> 0%R) b ->
  (exists vlog vratio,
     contribution h X true entry = Ok vlog /\
     contribution h X false entry = Ok vratio /\
     vratio = zip_with Rdiv a b /\
     vlog = map ln vratio) /\
  (forall self : CalibratedClassifierRatio,
     classifiers_ self = Some [entry.1] ->
     calibrators_ self = Some [entry.2] ->
     exists rlog rratio,
       predict (self, h) X true = Ok rlog /\
       predict (self, h) X false = Ok rratio /\
       map exp rlog = rratio).
Proof.
  intros HP Hp Ha Hb Hna Hnb Hla Hlb Hpa Hpb.
  assert (Hlog : scored h X true entry (map (fun x => (- ln x)%R) a)
                   (map (fun x => (- ln x)%R) b)).
  { exists P, p. by rewrite !length_map. }
  assert (Hratio : scored h X false entry a b) by (by exists P, p).
  split.
  - exists (map ln (zip_with Rdiv a b)), (zip_with Rdiv a b).
    split; [|split; [|done]].
    + rewrite (contribution_scored _ _ _ _ _ _ Hlog).
      by rewrite log_terms_are_log_ratios.
    + by rewrite (contribution_scored _ _ _ _ _ _ Hratio).
  - intros self Hc Hk.
    destruct (predict_scored (self, h) X true [entry.1] [entry.2]
                [(map (fun x => (- ln x)%R) a, map (fun x => (- ln x)%R) b)])
      as (rlog & Hrl & Hll & Hlv); auto.
    { simpl. destruct entry as [c [n d]]. by constructor. }
    destruct (predict_scored (self, h) X false [entry.1] [entry.2] [(a, b)])
      as (rratio & Hrr & Hlr & Hrv); auto.
    { simpl. destruct entry as [c [n d]]. by constructor. }
    exists rlog, rratio. split; [done|]. split; [done|].
    apply (nth_ext _ _ (exp 0) 0%R); [rewrite length_map; congruence|].
    intros i Hi. rewrite length_map in Hi.
    rewrite (map_nth exp), (Hlv i), (Hrv i) by lia.
    unfold column. simpl. rewrite !mean_singleton.
    rewrite !(nth_map_lt (fun x => (- ln x)%R) _ _ 0%R 0%R) by lia.
    assert (Hai : positive (nth i a 0%R)).
    { eapply (proj1 (List.Forall_forall _ _) Hpa), nth_In. lia. }
    assert (Hbi : positive (nth i b 0%R)).
    { eapply (proj1 (List.Forall_forall _ _) Hpb), nth_In. lia. }
    unfold term. rewrite ln_ratio by done.
    apply exp_ln. destruct Hai, Hbi. apply Rdiv_lt_0_compat; lra.
Qed.

End LogRatio.

Section Store.
Context `{Collaborators}.
Implicit Types h : heap.

Lemma keeps_refl n h : keeps n h h.
Proof. by split. Qed.

Lemma keeps_trans n h1 h2 h3 : keeps n h1 h2 -> keeps n h2 h3 -> keeps n h1 h3.
Proof. intros [E1 L1] [E2 L2]. split; [congruence|lia]. Qed.

Lemma keeps_le n m h h' : m <= n -> keeps n h h' -> keeps m h h'.
Proof.
  intros Hm [E L]. split; [|done].
  replace m with (m `min` n) by lia. by rewrite <- !take_take, E.
Qed.

Lemma keeps_lookup n h h' l : keeps n h h' -> l < n -> h' !! l = h !! l.
Proof.
  intros [E _] Hl.
  rewrite <- (lookup_take_lt h' n l) by done.
  rewrite <- (lookup_take_lt h n l) by done. by rewrite E.
Qed.

Lemma keeps_app n h ext : n <= length h -> keeps n h (h ++ ext).
Proof.
  intros Hn. split; [by rewrite take_app_le|]. rewrite length_app. lia.
Qed.

Lemma keeps_insert n h l o : n <= l -> keeps n h (<[l := o]> h).
Proof.
  intros Hn. split; [by apply take_insert_ge|]. by rewrite length_insert.
Qed.

Lemma wp_alloc o (Q : result loc -> heap -> Prop) h :
  Q (Ok (length h)) (h ++ [o]) -> wp (alloc o) Q h.
Proof. done. Qed.

Lemma update_keeps n l f h :
  n <= l -> keeps n h (update l f h).2 /\ length (update l f h).2 = length h.
Proof.
  intros Hn. unfold update. simpl. destruct (h !! l).
  - split; [by apply keeps_insert|]. by rewrite length_insert.
  - split; [apply keeps_refl|done].
Qed.

Lemma clone_at_spec fuel l h :
  wp (clone_at fuel l)
     (fun r h' => exists ext, h' = h ++ ext /\
        match r with
        | Ok c => length h <= c < length h' /\ cloned h l h' c
        | Err e => err_origin e = Sklearn /\ ext = []
        end) h.
Proof.
  revert l. induction fuel as [|fuel IH]; intros l.
  { apply wp_raise. exists []. by rewrite app_nil_r. }
  simpl. apply wp_bind, wp_get. unfold cloned.
  destruct (h !! l) as [[p f|p f|p f|r c r_]|] eqn:E.
  1-3: apply wp_alloc; eexists; split; [reflexivity|]; rewrite length_app;
       simpl; split; [lia|]; by rewrite lookup_app_r, Nat.sub_diag by lia.
  - apply wp_bind. eapply wp_mono; [apply IH|].
    intros [r'|e] h1 (ext & -> & Hpost).
    + destruct Hpost as [Hr' Hcl]. apply wp_alloc.
      exists (ext ++ [WrapAsClassifier r' None None]).
      split; [by rewrite app_assoc|].
      rewrite !length_app in *. simpl. split; [lia|].
      exists r'. split.
      * rewrite lookup_app_r by (rewrite length_app; lia).
        by rewrite length_app, Nat.sub_diag.
      * intros p f Hr. unfold cloned in Hcl. rewrite Hr in Hcl.
        rewrite lookup_app_l by (rewrite length_app; lia). done.
    + destruct Hpost as [Ho ->]. by exists [].
  - apply wp_raise. exists []. by rewrite app_nil_r.
Qed.

Lemma clone_spec l h :
  wp (clone l)
     (fun r h' => exists ext, h' = h ++ ext /\
        match r with
        | Ok c => length h <= c < length h' /\ cloned h l h' c
        | Err e => err_origin e = Sklearn /\ ext = []
        end) h.
Proof. apply wp_bind, wp_get, clone_at_spec. Qed.

End Store.

Section AdapterFit.
Context `{Collaborators}.
Implicit Types h : heap.

Lemma wp_update l f (Q : result unit -> heap -> Prop) h :
  Q (Ok tt) (update l f h).2 -> wp (update l f) Q h.
Proof. done. Qed.

Lemma update_lookup l f h o :
  h !! l = Some o -> (update l f h).2 !! l = Some (f o).
Proof.
  intros E. unfold update. simpl. rewrite E.
  apply list_lookup_insert_eq. by eapply lookup_lt_Some.
Qed.

Lemma update_lookup_ne l l' f h :
  l <> l' -> (update l f h).2 !! l' = h !! l'.
Proof.
  intros E. unfold update. simpl. destruct (h !! l); [|done].
  by apply list_lookup_insert_ne.
Qed.

Lemma regressor_fit_spec n r X y h :
  n <= r ->
  wp (regressor_fit r X y)
     (fun res h' => keeps n h h' /\ length h' = length h /\
        match res with
        | Ok _ => forall p f, h !! r = Some (Regressor p f) ->
                    h' !! r = Some (Regressor p (Some (X, y)))
        | Err e => h' = h /\
            (err_origin e = Collaborator \/ err_origin e = Interpreter)
        end) h.
Proof.
  intros Hn. apply wp_bind, wp_get.
  destruct (h !! r) as [[p f|p f|p f|r0 c r_]|] eqn:E;
    try (apply wp_raise; repeat split; auto using keeps_refl).
  destruct (reg_fit p X y).
  - apply wp_raise; repeat split; auto using keeps_refl.
  - apply wp_update. destruct (update_keeps n r (fun _ => Regressor p (Some (X, y))) h Hn).
    split; [done|]. split; [done|]. intros p' f' [= <- <-].
    by rewrite (update_lookup _ _ _ _ E).
Qed.

Lemma wrap_fit_spec n self X y h r0 c0 r_0 :
  h !! self = Some (WrapAsClassifier r0 c0 r_0) ->
  n <= self ->
  wp (WrapAsClassifier_fit self X y)
     (fun res h' => keeps n h h' /\
        match res with
        | Ok _ =>
            exists X' y' r,
              check_X_y X y = inl (X', y') /\
              length (np_unique y') = 2 /\
              h' !! self
                = Some (WrapAsClassifier r0 (Some (np_unique y')) (Some r)) /\
              forall p f, h !! r0 = Some (Regressor p f) ->
                h' !! r
                  = Some (Regressor p (Some (X', encode (np_unique y') y')))
        | Err e =>
            err_origin e <> ArgumentCheck /\
            (err_origin e = CardinalityCheck ->
               h' = h /\ err_exn e = ValueError /\
               exists X' y', check_X_y X y = inl (X', y') /\
                             length (np_unique y') <> 2)
        end) h.
Proof.
  intros Hself Hn. pose proof (lookup_lt_Some _ _ _ Hself) as Hlt.
  apply wp_bind, wp_get. rewrite Hself.
  apply wp_bind, wp_pure.
  destruct (check_X_y X y) as [[X' y']|e] eqn:Hcheck; simpl;
    [|by repeat split; auto using keeps_refl].
  destruct (Nat.eqb_spec (length (np_unique y')) 2) as [Hcard|Hcard]; simpl.
  2:{ apply wp_raise. repeat split; auto using keeps_refl. by exists X', y'. }
  apply wp_bind, wp_update.
  set (h1 := (update self (set_classes_ (np_unique y')) h).2).
  destruct (update_keeps n self (set_classes_ (np_unique y')) h Hn)
    as [Hk1 Hl1]. fold h1 in Hk1, Hl1.
  assert (Hself1 : h1 !! self
            = Some (WrapAsClassifier r0 (Some (np_unique y')) r_0)).
  { unfold h1. by rewrite (update_lookup _ _ _ _ Hself). }
  apply wp_bind. eapply wp_mono; [apply clone_spec|].
  intros [r|e] h2 (ext & -> & Hpost); simpl.
  2:{ destruct Hpost as [Ho ->]. rewrite app_nil_r.
      split; [done|]. rewrite Ho. by split. }
  destruct Hpost as [Hr Hcl].
  assert (Hk2 : keeps n h (h1 ++ ext)).
  { eapply keeps_trans; [exact Hk1|]. apply keeps_app. lia. }
  apply wp_bind.
  eapply wp_mono; [apply (regressor_fit_spec (S self)); lia|].
  intros [[]|e] h3 (Hk3 & Hl3 & Hpost); simpl.
  2:{ destruct Hpost as [-> Ho]. split; [done|].
      split; [destruct Ho as [-> | ->]; done|].
      destruct Ho as [-> | ->]; done. }
  apply wp_update.
  set (h4 := (update self (set_regressor_ r) h3).2).
  destruct (update_keeps n self (set_regressor_ r) h3 Hn) as [Hk4 Hl4].
  fold h4 in Hk4, Hl4.
  split.
  { eapply keeps_trans; [exact Hk2|]. eapply keeps_trans; [|exact Hk4].
    eapply keeps_le; [|exact Hk3]. lia. }
  exists X', y', r. split; [done|]. split; [done|].
  assert (Hself3 : h3 !! self
            = Some (WrapAsClassifier r0 (Some (np_unique y')) r_0)).
  { rewrite (keeps_lookup (S self) (h1 ++ ext) h3) by (done || lia).
    by rewrite lookup_app_l by lia. }
  split.
  - unfold h4. by rewrite (update_lookup _ _ _ _ Hself3).
  - intros p f Hr0.
    assert (self <> r) by lia.
    unfold h4. rewrite update_lookup_ne by done.
    apply (Hpost p None). unfold cloned in Hcl.
    assert (Hne : self <> r0) by (intros ->; congruence).
    assert (Hr1 : h1 !! r0 = Some (Regressor p f)).
    { unfold h1. by rewrite update_lookup_ne. }
    by rewrite Hr1 in Hcl.
Qed.

End AdapterFit.

Section AdapterFitErrors.
Context `{Collaborators}.
Implicit Types h : heap.

Lemma wrap_fit_rejected self X y h r0 c0 r_0 e :
  h !! self = Some (WrapAsClassifier r0 c0 r_0) ->
  check_X_y X y = inr e ->
  WrapAsClassifier_fit self X y h = (Err (Raise Sklearn e), h).
Proof.
  intros Hself Hcheck.
  unfold WrapAsClassifier_fit, mbind, M_bind, get, pure_.
  by rewrite Hself, Hcheck.
Qed.

Lemma wrap_fit_wrong_cardinality self X y h r0 c0 r_0 X' y' :
  h !! self = Some (WrapAsClassifier r0 c0 r_0) ->
  check_X_y X y = inl (X', y') ->
  length (np_unique y') <> 2 ->
  WrapAsClassifier_fit self X y h
    = (Err (Raise CardinalityCheck ValueError), h).
Proof.
  intros Hself Hcheck Hcard.
  unfold WrapAsClassifier_fit, mbind, M_bind, get, pure_.
  rewrite Hself, Hcheck. simpl.
  by destruct (Nat.eqb_spec (length (np_unique y')) 2).
Qed.

(** C6, amended. For [X] and [y] that [check_X_y] accepts,
    [WrapAsClassifier.fit] raises the [ValueError] of its cardinality
    check if and only if the encoded label set has a cardinality other
    than 2.  That error, like a rejection by [check_X_y], is raised before
    the regressor is cloned or fitted and before [classes_] or
    [regressor_] is set: the store is left as it was. *)
Theorem wrap_fit_cardinality_error
    (h : heap) (self : loc) (X : matrix) (y : labels)
    (regressor : loc) (classes : option (list Z)) (fitted : option loc) :
  h !! self = Some (WrapAsClassifier regressor classes fitted) ->
  (forall e, check_X_y X y = inr e ->
     WrapAsClassifier_fit self X y h = (Err (Raise Sklearn e), h)) /\
  (forall X' y', check_X_y X y = inl (X', y') ->
     ((WrapAsClassifier_fit self X y h).1
        = Err (Raise CardinalityCheck ValueError)
      <-> length (np_unique y') <> 2) /\
     (length (np_unique y') <> 2 ->
      WrapAsClassifier_fit self X y h
        = (Err (Raise CardinalityCheck ValueError), h))).
Proof.
  intros Hself. split.
  - intros e. by eapply wrap_fit_rejected.
  - intros X' y' Hcheck.
    split; [|by eapply wrap_fit_wrong_cardinality].
    split.
    + intros Hres.
      pose proof (wrap_fit_spec 0 self X y h _ _ _ Hself (Nat.le_0_l _))
        as Hspec.
      unfold wp in Hspec. rewrite Hres in Hspec.
      destruct Hspec as (_ & _ & Hcard).
      destruct (Hcard eq_refl) as (_ & _ & X'' & y'' & Hcheck' & Hne).
      congruence.
    + intros Hcard.
      by rewrite (wrap_fit_wrong_cardinality _ _ _ _ _ _ _ _ _ Hself Hcheck).
Qed.

End AdapterFitErrors.

Section Estimator.
Context `{Collaborators}.
Implicit Types h : heap.
Implicit Types w : world.

Lemma wp_on_heap {A} (m : M heap A) (Q : result A -> world -> Prop) w :
  wp m (fun r h' => Q r (w.1, h')) w.2 -> wp (on_heap m) Q w.
Proof. unfold wp, on_heap. by destruct (m w.2). Qed.

Lemma wp_read {A} (f : heap -> result A) (Q : result A -> world -> Prop) w :
  Q (f w.2) w -> wp (read f) Q w.
Proof. done. Qed.

Lemma wp_self (Q : result CalibratedClassifierRatio -> world -> Prop) w :
  Q (Ok w.1) w -> wp self_ Q w.
Proof. done. Qed.

Lemma wp_set_self f (Q : result unit -> world -> Prop) w :
  Q (Ok tt) (f w.1, w.2) -> wp (set_self f) Q w.
Proof. done. Qed.

Lemma call_late {A} o (r : A + exn) e :
  o <> ArgumentCheck -> call o r = Err e -> late e.
Proof. intros Ho. destruct r; simpl; [done|]. by intros [= <-]. Qed.

Lemma np_mask_late {A} (a : list A) m e : np_mask a m = Err e -> late e.
Proof. unfold np_mask. destruct (_ =? _); [done|]. by intros [= <-]. Qed.

Lemma np_take_late {A} (a : list A) idx e : np_take a idx = Err e -> late e.
Proof.
  induction idx as [|i idx IH]; simpl; [done|].
  destruct (a !! i); [|by intros [= <-]].
  destruct (np_take a idx); [done|]. intros [= <-]. by apply IH.
Qed.

Lemma np_col_late m j e : np_col m j = Err e -> late e.
Proof.
  induction m as [|r m IH]; simpl; [done|].
  destruct (r !! j); [|by intros [= <-]].
  destruct (np_col m j); [done|]. intros [= <-]. by apply IH.
Qed.

Lemma np_assign_col_late n v e : np_assign_col n v = Err e -> late e.
Proof.
  unfold np_assign_col. destruct (_ =? _); [done|].
  destruct v as [|? [|]]; try done; by intros [= <-].
Qed.

Lemma attr_late {A} (a : option A) e : attr a = Err e -> late e.
Proof. destruct a; [done|]. by intros [= <-]. Qed.

Lemma regressor_predict_late h r X e :
  regressor_predict h r X = Err e -> late e.
Proof.
  unfold regressor_predict.
  destruct (h !! r) as [[]|]; try by intros [= <-].
  by apply call_late.
Qed.

Lemma wrap_predict_proba_late h l X e :
  WrapAsClassifier_predict_proba h l X = Err e -> late e.
Proof.
  unfold WrapAsClassifier_predict_proba.
  destruct (h !! l) as [[| | |r0 c0 r_0]|]; try by intros [= <-].
  destruct (check_array X) as [X'|x] eqn:E; simpl; [|by intros [= <-]].
  destruct r_0 as [r|]; simpl; [|by intros [= <-]].
  destruct (regressor_predict h r X') eqn:E1; simpl;
    [|intros [= <-]; by eapply regressor_predict_late].
  destruct (np_assign_col _ (map _ _)) eqn:E2; simpl;
    [|intros [= <-]; by eapply np_assign_col_late].
  destruct (np_assign_col _ (np_clip01 _)) eqn:E3; simpl;
    [done|intros [= <-]; by eapply np_assign_col_late].
Qed.

Lemma classifier_predict_proba_late h l X e :
  classifier_predict_proba h l X = Err e -> late e.
Proof.
  unfold classifier_predict_proba.
  destruct (h !! l) as [[]|]; try by intros [= <-].
  - by apply call_late.
  - apply wrap_predict_proba_late.
Qed.

Lemma calibrator_fit_spec n l X h :
  n <= l ->
  wp (calibrator_fit l X)
     (fun r h' => keeps n h h' /\ length h' = length h /\
        (forall l', l' <> l -> h' !! l' = h !! l') /\
        match r with
        | Ok _ => exists p f, h !! l = Some (Calibrator p f) /\
                              h' !! l = Some (Calibrator p (Some X))
        | Err e => h' = h /\ late e
        end) h.
Proof.
  intros Hn. apply wp_bind, wp_get.
  destruct (h !! l) as [[p f|p f|p f|r0 c r_]|] eqn:E;
    try (apply wp_raise; repeat split; auto using keeps_refl; done).
  destruct (cal_fit p X).
  - apply wp_raise; repeat split; auto using keeps_refl; done.
  - apply wp_update.
    destruct (update_keeps n l (fun _ => Calibrator p (Some X)) h Hn).
    split; [done|]. split; [done|]. split.
    + intros l' Hl'. by apply update_lookup_ne.
    + exists p, f. split; [done|]. by rewrite (update_lookup _ _ _ _ E).
Qed.

Lemma classifier_fit_spec n c X y h :
  n <= c ->
  wp (classifier_fit c X y)
     (fun r h' => keeps n h h' /\
        match r with
        | Ok _ =>
            (forall p f, h !! c = Some (Classifier p f) ->
               h' !! c = Some (Classifier p (Some (X, y)))) /\
            (forall r0 c0 r_0, h !! c = Some (WrapAsClassifier r0 c0 r_0) ->
               exists X' y' r,
                 check_X_y X y = inl (X', y') /\
                 length (np_unique y') = 2 /\
                 h' !! c = Some (WrapAsClassifier r0 (Some (np_unique y'))
                                   (Some r)) /\
                 forall p f, h !! r0 = Some (Regressor p f) ->
                   h' !! r = Some (Regressor p
                                     (Some (X', encode (np_unique y') y'))))
        | Err e => late e
        end) h.
Proof.
  intros Hn. apply wp_bind, wp_get.
  destruct (h !! c) as [[p f|p f|p f|r0 c0 r_0]|] eqn:E.
  - destruct (clf_fit p X y).
    + apply wp_raise. split; [apply keeps_refl|done].
    + apply wp_update.
      destruct (update_keeps n c (fun _ => Classifier p (Some (X, y))) h Hn).
      split; [done|]. split; [|done].
      intros p' f' [= <- <-]. by rewrite (update_lookup _ _ _ _ E).
  - eapply wp_mono; [by apply (regressor_fit_spec n)|].
    intros [[]|e] h' (Hk & _ & Hpost); (split; [done|]).
    + by split.
    + destruct Hpost as [_ [Ho|Ho]]; unfold late; by rewrite Ho.
  - apply wp_raise. split; [apply keeps_refl|done].
  - eapply wp_mono; [by apply (wrap_fit_spec n _ _ _ _ _ _ _ E)|].
    intros [[]|e] h' [Hk Hpost]; (split; [done|]).
    + split; [done|]. by intros r0' c0' r_0' [= <- <- <-].
    + apply Hpost.
  - apply wp_raise. split; [apply keeps_refl|done].
Qed.

Lemma check_calibration_spec w :
  wp _check_calibration
     (fun r w' => w'.1 = w.1 /\ exists ext, w'.2 = w.2 ++ ext /\
        match r with
        | Ok k => length w.2 <= k.1 < length w'.2 /\
                  length w.2 <= k.2 < length w'.2 /\ k.1 <> k.2
        | Err e => late e
        end) w.
Proof.
  destruct w as [s h]. unfold _check_calibration.
  apply wp_bind, wp_self. simpl.
  assert (Hallocs : forall o,
    wp (on_heap (alloc o) ≫= fun n =>
        on_heap (alloc o) ≫= fun d => mret (n, d))
       (fun r w' => w'.1 = s /\ exists ext, w'.2 = h ++ ext /\
          match r with
          | Ok k => length h <= k.1 < length w'.2 /\
                    length h <= k.2 < length w'.2 /\ k.1 <> k.2
          | Err e => late e
          end) (s, h)).
  { intros o. apply wp_bind, wp_on_heap, wp_alloc. simpl.
    apply wp_bind, wp_on_heap, wp_alloc. simpl. apply wp_ret. simpl.
    split; [done|]. exists [o; o]. rewrite <- app_assoc. split; [done|].
    rewrite !length_app. simpl. lia. }
  destruct (calibration_is _ "kde"); [apply Hallocs|].
  destruct (calibration_is _ "histogram"); [apply Hallocs|].
  destruct (calibration s) as [name|l].
  { apply wp_raise. split; [done|]. exists []. by rewrite app_nil_r. }
  apply wp_bind, wp_on_heap. eapply wp_mono; [apply clone_spec|].
  intros [n|e] h1 (ext1 & -> & Hpost); simpl in *.
  2:{ destruct Hpost as [Ho ->]. split; [done|]. exists [].
      split; [done|]. unfold late. by rewrite Ho. }
  destruct Hpost as [Hn _].
  apply wp_bind, wp_on_heap. eapply wp_mono; [apply clone_spec|].
  intros [d|e] h2 (ext2 & -> & Hpost); simpl in *.
  2:{ destruct Hpost as [Ho ->]. split; [done|]. exists ext1.
      rewrite app_nil_r. split; [done|]. unfold late. by rewrite Ho. }
  destruct Hpost as [Hd _]. apply wp_ret. simpl.
  split; [done|]. exists (ext1 ++ ext2). rewrite app_assoc. split; [done|].
  rewrite !length_app in *. lia.
Qed.

Lemma calibrate_spec n c cn cd X y s h cls cals :
  classifiers_ s = Some cls ->
  calibrators_ s = Some cals ->
  n <= cn -> n <= cd -> cn <> cd ->
  wp (calibrate c (cn, cd) X y)
     (fun r w' =>
        keeps n h w'.2 /\ length w'.2 = length h /\
        (forall l, l <> cn -> l <> cd -> w'.2 !! l = h !! l) /\
        match r with
        | Ok _ =>
            w'.1 = set_calibrators_ (cals ++ [(cn, cd)])
                     (set_classifiers_ (cls ++ [c]) s) /\
            exists X0 P0 s0 X1 P1 s1 pn pd,
              np_mask X (np_eq y 0) = Ok X0 /\
              classifier_predict_proba h c X0 = Ok P0 /\
              np_col P0 0 = Ok s0 /\
              np_mask X (np_eq y 1) = Ok X1 /\
              classifier_predict_proba h c X1 = Ok P1 /\
              np_col P1 0 = Ok s1 /\
              w'.2 !! cn = Some (Calibrator pn (Some (np_reshape_col s0))) /\
              w'.2 !! cd = Some (Calibrator pd (Some (np_reshape_col s1)))
        | Err e => w'.1 = s /\ late e
        end) (s, h).
Proof.
  intros Hcls Hcals Hn Hd Hne. unfold calibrate. simpl.
  apply wp_bind, wp_pure.
  destruct (np_mask X (np_eq y 0)) as [X0|e] eqn:E0;
    [|by eauto 10 using keeps_refl, np_mask_late].
  apply wp_bind, wp_read. simpl.
  destruct (classifier_predict_proba h c X0) as [P0|e] eqn:EP0;
    [|by eauto 10 using keeps_refl, classifier_predict_proba_late].
  apply wp_bind, wp_pure.
  destruct (np_col P0 0) as [s0|e] eqn:Es0;
    [|by eauto 10 using keeps_refl, np_col_late].
  apply wp_bind, wp_pure.
  destruct (np_mask X (np_eq y 1)) as [X1|e] eqn:E1;
    [|by eauto 10 using keeps_refl, np_mask_late].
  apply wp_bind, wp_read. simpl.
  destruct (classifier_predict_proba h c X1) as [P1|e] eqn:EP1;
    [|by eauto 10 using keeps_refl, classifier_predict_proba_late].
  apply wp_bind, wp_pure.
  destruct (np_col P1 0) as [s1|e] eqn:Es1;
    [|by eauto 10 using keeps_refl, np_col_late].
  apply wp_bind, wp_on_heap. simpl.
  eapply wp_mono; [by apply (calibrator_fit_spec n)|].
  intros [[]|e] h1 (Hk1 & Hl1 & Hf1 & Hpost); simpl.
  2:{ destruct Hpost as [-> Hlate]. eauto 10 using keeps_refl. }
  destruct Hpost as (pn & fn & Hcn & Hcn1).
  apply wp_bind, wp_on_heap. simpl.
  eapply wp_mono; [by apply (calibrator_fit_spec n)|].
  intros [[]|e] h2 (Hk2 & Hl2 & Hf2 & Hpost); simpl.
  2:{ destruct Hpost as [-> Hlate]. split; [done|]. split; [done|].
      split; [|done]. intros l Hl _. by apply Hf1. }
  destruct Hpost as (pd & fd & Hcd & Hcd2).
  apply wp_bind, wp_self. simpl. rewrite Hcls.
  apply wp_bind, wp_pure. simpl.
  apply wp_bind, wp_set_self. simpl.
  apply wp_bind, wp_self. simpl. rewrite Hcals.
  apply wp_bind, wp_pure. simpl.
  apply wp_set_self. simpl.
  split; [eauto using keeps_trans|]. split; [congruence|].
  split. { intros l Hl1' Hl2'. rewrite Hf2, Hf1; done. }
  split; [done|].
  exists X0, P0, s0, X1, P1, s1, pn, pd. repeat split; try done.
  rewrite Hf2; done.
Qed.

Lemma trained_keeps h0 base h h' c X y :
  trained h0 base h c X y -> keeps (length h) h h' ->
  trained h0 base h' c X y.
Proof.
  unfold trained. intros Ht Hk.
  destruct (h0 !! base) as [[p f|p f|p f|r0 c0 r_0]|]; try done.
  - rewrite (keeps_lookup _ _ _ _ Hk); [done|by eapply lookup_lt_Some].
  - intros p f Hr0.
    destruct (Ht p f Hr0) as (r0' & r & X' & y' & ? & ? & Hc & Hr).
    exists r0', r, X', y'. split; [done|]. split; [done|].
    rewrite !(keeps_lookup _ _ _ _ Hk); [done|by eapply lookup_lt_Some..].
Qed.

Lemma trained_base h0 h1 base h c X y :
  keeps (length h0) h0 h1 ->
  trained h1 base h c X y -> trained h0 base h c X y.
Proof.
  unfold trained. intros Hk Ht.
  destruct (h0 !! base) as [o|] eqn:E; [|done].
  assert (Hb : h1 !! base = Some o).
  { rewrite (keeps_lookup _ _ _ _ Hk); [done|by eapply lookup_lt_Some]. }
  rewrite Hb in Ht.
  destruct o as [p f|p f|p f|r0 c0 r_0]; try done.
  intros p f Hr0. apply (Ht p f).
  rewrite (keeps_lookup _ _ _ _ Hk); [done|by eapply lookup_lt_Some].
Qed.

Lemma fit_fold_spec base X y fold s h cls cals :
  classifiers_ s = Some cls ->
  calibrators_ s = Some cals ->
  wp (fit_fold base X y fold)
     (fun r w' =>
        keeps (length h) h w'.2 /\
        match r with
        | Ok _ =>
            exists c k,
              w'.1 = set_calibrators_ (cals ++ [k])
                       (set_classifiers_ (cls ++ [c]) s) /\
              length h <= c < length w'.2 /\
              exists Xtr ytr,
                np_take X fold.1 = Ok Xtr /\
                np_take y fold.1 = Ok ytr /\
                trained h base w'.2 c Xtr ytr
        | Err e => w'.1 = s /\ late e
        end) (s, h).
Proof.
  intros Hcls Hcals. unfold fit_fold.
  apply wp_bind, wp_on_heap. simpl.
  eapply wp_mono; [apply clone_spec|].
  intros [c|e] h1 (ext & -> & Hpost); simpl.
  2:{ destruct Hpost as [Ho ->]. rewrite app_nil_r.
      split; [apply keeps_refl|]. split; [done|]. unfold late.
      by rewrite Ho. }
  destruct Hpost as [Hc Hcl].
  assert (Hk1 : keeps (length h) h (h ++ ext)) by (by apply keeps_app).
  apply wp_bind, wp_pure.
  destruct (np_take X fold.1) as [Xtr|e] eqn:EX;
    [|by eauto using np_take_late].
  apply wp_bind, wp_pure.
  destruct (np_take y fold.1) as [ytr|e] eqn:Ey;
    [|by eauto using np_take_late].
  apply wp_bind, wp_on_heap. simpl.
  eapply wp_mono; [apply (classifier_fit_spec (length h)); lia|].
  intros [[]|e] h2 [Hk2 Hpost]; simpl.
  2:{ split; [eauto using keeps_trans|done]. }
  assert (Htr : trained h base h2 c Xtr ytr).
  { unfold trained, cloned in *. destruct Hpost as [Hclf Hwrap].
    destruct (h !! base) as [[p f|p f|p f|r0 c0 r_0]|]; try done.
    - by apply (Hclf p None).
    - destruct Hcl as (r' & Hc' & Hr'). intros p f Hr0.
      destruct (Hwrap _ _ _ Hc') as (X' & y' & r & ? & ? & ? & Hr).
      exists r', r, X', y'. repeat split; try done.
      apply (Hr p None). by apply (Hr' p f). }
  assert (Hlen2 : length (h ++ ext) <= length h2) by apply Hk2.
  apply wp_bind. eapply wp_mono; [apply check_calibration_spec|].
  intros [[cn cd]|e] [s3 h3] (Hs & ext3 & Hh & Hpost3);
    simpl in *; subst s3 h3.
  2:{ split; [|done]. eapply keeps_trans; [exact Hk1|].
      eapply keeps_trans; [exact Hk2|]. apply keeps_app. lia. }
  destruct Hpost3 as (Hcn & Hcd & Hne).
  assert (Hk3 : keeps (length h) h (h2 ++ ext3)).
  { eapply keeps_trans; [exact Hk1|].
    eapply keeps_trans; [exact Hk2|]. apply keeps_app. lia. }
  apply wp_bind, wp_pure.
  destruct (np_take X fold.2) as [Xcal|e] eqn:EXc;
    [|by eauto using np_take_late].
  apply wp_bind, wp_pure.
  destruct (np_take y fold.2) as [ycal|e] eqn:Eyc;
    [|by eauto using np_take_late].
  eapply wp_mono;
    [by apply (calibrate_spec (length h2) c cn cd Xcal ycal s _ cls cals);
       try lia|].
  intros r [s4 h4] (Hk4 & Hl4 & _ & Hpost4); simpl in *.
  assert (Hk : keeps (length h) h h4).
  { eapply keeps_trans; [exact Hk3|]. eapply keeps_le; [|exact Hk4]. lia. }
  split; [done|]. destruct r as [[]|e]; [|done].
  destruct Hpost4 as [-> _]. exists c, (cn, cd). split; [done|].
  rewrite length_app in *. split; [lia|].
  exists Xtr, ytr. split; [done|]. split; [done|].
  eapply trained_keeps; [exact Htr|].
  eapply keeps_trans; [|exact Hk4]. by apply keeps_app.
Qed.

Lemma calibrate_unfitted_wrapper c k X y s h r0 c0 :
  h !! c = Some (WrapAsClassifier r0 c0 None) ->
  exists e,
    calibrate c k X y (s, h) = (Err e, (s, h)) /\
    forall X0 X0', np_mask X (np_eq y 0) = Ok X0 ->
                   check_array X0 = inl X0' ->
                   e = Raise Interpreter AttributeError.
Proof.
  intros Hc. unfold calibrate, mbind, M_bind, pure_, read. simpl.
  destruct (np_mask X (np_eq y 0)) as [X0|e] eqn:E0.
  2:{ exists e. split; [done|]. intros; congruence. }
  unfold classifier_predict_proba, WrapAsClassifier_predict_proba.
  rewrite Hc.
  destruct (check_array X0) as [X0'|x] eqn:EX; simpl.
  - eexists. split; [done|]. done.
  - eexists. split; [done|]. intros ? ? [= <-]. congruence.
Qed.

Lemma fit_ensemble_spec base X y s h :
  classifiers_ s = Some [] ->
  calibrators_ s = Some [] ->
  wp (fit_ensemble base X y)
     (fun r w' =>
        same_params s w'.1 /\ keeps (length h) h w'.2 /\
        exists cls cals,
          classifiers_ w'.1 = Some cls /\ calibrators_ w'.1 = Some cals /\
          length cls = length cals /\
          (forall e, r = Err e -> late e) /\
          match cv s with
          | Prefit =>
              match r with
              | Ok _ => cls = [base] /\
                        exists k, cals = [k] /\
                                  calibrated_on_all h w'.2 base X y k
              | Err _ => cls = []
              end
          | Cv c =>
              Forall2 (fold_classifier (trained h base w'.2) (length h) X y)
                (take (length cls) (cv_split c X y).1) cls /\
              length cls <= length (cv_split c X y).1 /\
              (r = Ok tt -> (cv_split c X y).2 = None /\
                            length cls = length (cv_split c X y).1)
          end) (s, h).
Proof.
  intros Hcls Hcals. unfold fit_ensemble.
  apply wp_bind, wp_self. simpl.
  destruct (cv s) as [|c] eqn:Hcv.
  - (* prefit *)
    apply wp_bind. eapply wp_mono; [apply check_calibration_spec|].
    intros [[cn cd]|e] [s3 h3] (Hs & ext3 & Hh & Hpost3);
      simpl in *; subst s3 h3.
    2:{ split; [done|]. split; [by apply keeps_app|].
        exists [], []. repeat split; try done. by intros ? [= <-]. }
    destruct Hpost3 as (Hcn & Hcd & Hne).
    eapply wp_mono;
      [by apply (calibrate_spec (length h) base cn cd X y s _ [] []);
         try lia|].
    intros r [s4 h4] (Hk4 & Hl4 & _ & Hpost4); simpl in *.
    assert (Hk : keeps (length h) h h4).
    { eapply keeps_trans; [|exact Hk4]. by apply keeps_app. }
    destruct r as [[]|e].
    + destruct Hpost4 as (-> & X0 & P0 & s0 & X1 & P1 & s1 & pn & pd & HH).
      split; [done|]. split; [done|].
      exists [base], [(cn, cd)]. repeat split; try done.
      exists (cn, cd). split; [done|].
      exists (h ++ ext3), X0, P0, s0, X1, P1, s1, pn, pd. simpl.
      destruct HH as (? & ? & ? & ? & ? & ? & ? & ?).
      repeat split; try done; try lia. by apply keeps_app.
    + destruct Hpost4 as [-> Hlate].
      split; [done|]. split; [done|].
      exists [], []. repeat split; try done. by intros ? [= <-].
  - (* cross-validation *)
    set (folds := (cv_split c X y).1). set (stop := (cv_split c X y).2).
    set (Q := fun (r : result unit) (w' : world) =>
      same_params s w'.1 /\ keeps (length h) h w'.2 /\
      exists cls cals,
        classifiers_ w'.1 = Some cls /\ calibrators_ w'.1 = Some cals /\
        length cls = length cals /\
        (forall e, r = Err e -> late e) /\
        Forall2 (fold_classifier (trained h base w'.2) (length h) X y)
          (take (length cls) folds) cls /\
        length cls <= length folds /\
        (r = Ok tt -> length cls = length folds)).
    apply wp_bind.
    apply (wp_mono _ Q).
    2:{ intros [[]|e] [s' h'] (Hp & Hk & cls & cals & ? & ? & ? & ? & HF & ? & Hall);
          simpl in *.
        - destruct stop as [x|].
          + apply wp_raise. simpl. split; [done|]. split; [done|].
            exists cls, cals. repeat split; try done.
            by intros ? [= <-].
          + apply wp_ret. simpl. split; [done|]. split; [done|].
            exists cls, cals. repeat split; try done. by apply Hall.
        - split; [done|]. split; [done|].
          exists cls, cals. repeat split; done. }
    apply (wp_for_each
      (fun done_ (w' : world) =>
         same_params s w'.1 /\ keeps (length h) h w'.2 /\
         exists cls cals,
           classifiers_ w'.1 = Some cls /\ calibrators_ w'.1 = Some cals /\
           length cls = length cals /\
           Forall2 (fold_classifier (trained h base w'.2) (length h) X y)
             done_ cls)).
    + split; [done|]. split; [apply keeps_refl|].
      exists [], []. repeat split; done.
    + intros done_ fold [s1 h1] (Hp & Hk & cls & cals & Hc1 & Hk1 & Hlen & HF).
      simpl in *.
      eapply wp_mono; [by apply (fit_fold_spec base X y fold s1 h1 cls cals)|].
      intros r [s2 h2] [Hk2 Hpost]; simpl in *.
      assert (Hkk : keeps (length h) h h2).
      { eapply keeps_trans; [exact Hk|]. eapply keeps_le; [|exact Hk2].
        apply Hk. }
      destruct r as [[]|e].
      * destruct Hpost as (c' & k & -> & Hc' & Xtr & ytr & ? & ? & Htr).
        split; [done|]. split; [done|].
        exists (cls ++ [c']), (cals ++ [k]). repeat split; try done.
        { rewrite !length_app. simpl. lia. }
        apply Forall2_app.
        -- eapply Forall2_impl; [exact HF|].
           intros f' c0 (? & Xtr0 & ytr0 & ? & ? & Htr0). split; [done|].
           exists Xtr0, ytr0. repeat split; try done.
           by eapply trained_keeps.
        -- constructor; [|constructor]. split; [destruct Hk; lia|].
           exists Xtr, ytr. repeat split; try done.
           exact (trained_base _ _ _ _ _ _ _ Hk Htr).
      * destruct Hpost as [-> Hlate]. intros todo Hfolds.
        split; [done|]. split; [done|].
        exists cls, cals. repeat split; try done.
        -- by intros ? [= <-].
        -- apply Forall2_length in HF as HFl. rewrite <- HFl.
           rewrite <- Hfolds, take_app_length.
           eapply Forall2_impl; [exact HF|].
           intros f' c0 (? & Xtr0 & ytr0 & ? & ? & Htr0). split; [done|].
           exists Xtr0, ytr0. repeat split; try done.
           by eapply trained_keeps.
        -- apply Forall2_length in HF. rewrite <- HF, <- Hfolds.
           rewrite length_app. lia.
    + intros [s' h'] (Hp & Hk & cls & cals & ? & ? & ? & HF). simpl in *.
      split; [done|]. split; [done|].
      exists cls, cals. apply Forall2_length in HF as HFl.
      repeat split; try done.
      * rewrite <- HFl, firstn_all. done.
      * lia.
Qed.

Lemma check_calibration_builtin s h :
  builtin_calibration s ->
  exists k ext, _check_calibration (s, h) = (Ok k, (s, h ++ ext)).
Proof.
  unfold _check_calibration, mbind, M_bind, self_, on_heap, alloc, mret,
    M_ret. simpl.
  intros [E|E].
  - rewrite E. eexists _, [_; _]. by rewrite <- app_assoc.
  - rewrite E. destruct (calibration_is _ "kde");
      eexists _, [_; _]; by rewrite <- app_assoc.
Qed.

Lemma same_params_trans s1 s2 s3 :
  same_params s1 s2 -> same_params s2 s3 -> same_params s1 s3.
Proof. unfold same_params. intuition congruence. Qed.

Lemma trained_fitted_clone h be hf c X y :
  is_regressor h be = false ->
  trained h be hf c X y -> fitted_clone h be hf c X y.
Proof.
  unfold is_regressor, trained, fitted_clone.
  by destruct (h !! be) as [[]|].
Qed.

Lemma trained_wrapper_fitted_clone h be hf c X y :
  is_regressor h be = true ->
  trained (h ++ [WrapAsClassifier be None None]) (length h) hf c X y ->
  fitted_clone h be hf c X y.
Proof.
  unfold is_regressor, trained, fitted_clone.
  rewrite lookup_app_r, Nat.sub_diag by lia. simpl.
  destruct (h !! be) as [[p f|p f|p f|]|] eqn:E; try done.
  intros _ Ht. apply (Ht p f).
  rewrite lookup_app_l; [done|by eapply lookup_lt_Some].
Qed.

(** What a run of [fit] leaves behind. *)
Lemma fit_spec X y numerator denominator n_samples s h :
  wp (fit X y numerator denominator n_samples)
     (fun r w' =>
        match fit_data X y numerator denominator n_samples with
        | Err e => r = Err e /\ w' = (s, h)
        | Ok Xy =>
            same_params s w'.1 /\ keeps (length h) h w'.2 /\
            exists cls cals,
              classifiers_ w'.1 = Some cls /\
              calibrators_ w'.1 = Some cals /\
              length cls = length cals /\
              (forall e, r = Err e -> late e) /\
              match cv s with
              | Prefit =>
                  match r with
                  | Ok _ =>
                      is_regressor h (base_estimator s) = false /\
                      cls = [base_estimator s] /\
                      exists k, cals = [k] /\
                        calibrated_on_all h w'.2 (base_estimator s)
                          Xy.1 Xy.2 k
                  | Err e =>
                      cls = [] /\
                      (is_regressor h (base_estimator s) = true ->
                       w'.2 !! length h
                         = Some (WrapAsClassifier (base_estimator s)
                                   None None) /\
                       forall X0 X0',
                         builtin_calibration s ->
                         np_mask Xy.1 (np_eq Xy.2 0) = Ok X0 ->
                         check_array X0 = inl X0' ->
                         e = Raise Interpreter AttributeError)
                  end
              | Cv c =>
                  Forall2
                    (fold_classifier
                       (fitted_clone h (base_estimator s) w'.2)
                       (length h) Xy.1 Xy.2)
                    (take (length cls) (cv_split c Xy.1 Xy.2).1) cls /\
                  length cls <= length (cv_split c Xy.1 Xy.2).1 /\
                  (r = Ok tt ->
                   (cv_split c Xy.1 Xy.2).2 = None /\
                   length cls = length (cv_split c Xy.1 Xy.2).1)
              end
        end) (s, h).
Proof.
  unfold fit. apply wp_bind, wp_pure.
  destruct (fit_data X y numerator denominator n_samples)
    as [[X' y']|e] eqn:Hdata; [|done].
  apply wp_bind, wp_set_self. apply wp_bind, wp_set_self.
  apply wp_bind, wp_self. apply wp_bind, wp_read. simpl.
  set (s' := set_calibrators_ [] (set_classifiers_ [] s)).
  assert (Hp : same_params s s') by done.
  destruct (is_regressor h (base_estimator s)) eqn:Hreg.
  - (* a regressor: wrapped *)
    apply wp_bind, wp_on_heap, wp_alloc. simpl.
    set (h1 := h ++ [WrapAsClassifier (base_estimator s) None None]).
    assert (Hk1 : keeps (length h) h h1) by (by apply keeps_app).
    assert (Hw1 : h1 !! length h
              = Some (WrapAsClassifier (base_estimator s) None None)).
    { unfold h1. by rewrite lookup_app_r, Nat.sub_diag by lia. }
    destruct (cv s) as [|c] eqn:Hcv.
    + unfold fit_ensemble. apply wp_bind, wp_self. simpl. rewrite Hcv.
      apply wp_bind, wp_intro. intros rk [s3 h3] Hrun.
      destruct (wp_run _ _ _ _ _ Hrun (check_calibration_spec (s', h1)))
        as (Hs & ext3 & Hh & Hpost3).
      simpl in *; subst s3 h3.
      assert (Hk3 : keeps (length h) h (h1 ++ ext3)).
      { eapply keeps_trans; [exact Hk1|]. apply keeps_app, Hk1. }
      assert (Hw3 : (h1 ++ ext3) !! length h
                = Some (WrapAsClassifier (base_estimator s) None None)).
      { rewrite lookup_app_l; [done|by eapply lookup_lt_Some]. }
      destruct rk as [k|e].
      2:{ split; [done|]. split; [done|].
          exists [], []. repeat split; try done.
          - by intros ? [= <-].
          - intros X0 X0' Hb _ _.
            destruct (check_calibration_builtin s' h1 Hb)
              as (k & ext & Hrun').
            rewrite Hrun' in Hrun. discriminate. }
      destruct (calibrate_unfitted_wrapper (length h) k X' y' s'
                  (h1 ++ ext3) _ _ Hw3) as (e & Hcal & He).
      unfold wp. rewrite Hcal. simpl.
      split; [done|]. split; [done|].
      exists [], []. repeat split; try done.
      * intros e' [= <-]. unfold late.
        unfold calibrate, mbind, M_bind, pure_, read in Hcal.
        simpl in Hcal.
        destruct (np_mask X' (np_eq y' 0)) as [X0|e0] eqn:E0.
        -- destruct (classifier_predict_proba (h1 ++ ext3) (length h) X0)
             as [P0|e0] eqn:EP.
           ++ unfold classifier_predict_proba,
                WrapAsClassifier_predict_proba in EP.
              rewrite Hw3 in EP. by destruct (check_array X0).
           ++ injection Hcal as <-.
              by eapply classifier_predict_proba_late.
        -- injection Hcal as <-. by eapply np_mask_late.
      * intros X0 X0' _. apply He.
    + (* cross-validation with the wrapper *)
      eapply wp_mono; [by apply (fit_ensemble_spec (length h) X' y' s' h1)|].
      intros r [s4 h4] (Hp4 & Hk4 & cls & cals & ? & ? & ? & ? & Hcvpost).
      simpl in *. rewrite Hcv in Hcvpost.
      destruct Hcvpost as (HF & ? & ?).
      split; [eauto using same_params_trans|].
      assert (Hk : keeps (length h) h h4).
      { eapply keeps_trans; [exact Hk1|]. eapply keeps_le; [|exact Hk4].
        apply Hk1. }
      split; [done|].
      exists cls, cals. do 4 (split; [done|]). split; [|done].
      eapply Forall2_impl; [exact HF|].
      intros fold c0 (Hc0 & Xtr & ytr & ? & ? & Htr).
      split; [destruct Hk1; lia|].
      exists Xtr, ytr. do 2 (split; [done|]).
      by apply trained_wrapper_fitted_clone.
  - (* a classifier: used as it is *)
    apply wp_bind, wp_ret.
    eapply wp_mono;
      [by apply (fit_ensemble_spec (base_estimator s) X' y' s' h)|].
    intros r [s4 h4] (Hp4 & Hk4 & cls & cals & ? & ? & ? & ? & Hcvpost).
    simpl in *.
    split; [eauto using same_params_trans|]. split; [done|].
    exists cls, cals. do 4 (split; [done|]).
    destruct (cv s) as [|c] eqn:Hcv.
    + destruct r as [[]|e]; [|done].
      destruct Hcvpost as [-> Hcal]. by split.
    + destruct Hcvpost as (HF & ? & ?). split; [|done].
      eapply Forall2_impl; [exact HF|].
      intros fold c0 (Hc0 & Xtr & ytr & ? & ? & Htr). split; [done|].
      exists Xtr, ytr. do 2 (split; [done|]).
      by apply trained_fitted_clone.
Qed.

End Estimator.

Section Fit.
Context `{Collaborators}.
Implicit Types h : heap.
Implicit Types s : CalibratedClassifierRatio.

Lemma np_vstack_late a b e : np_vstack a b = Err e -> late e.
Proof.
  unfold np_vstack. destruct (_ =? _); [done|]. by intros [= <-].
Qed.

Lemma generate_late numerator denominator n_samples e :
  generate numerator denominator n_samples = Err e -> late e.
Proof.
  unfold generate.
  destruct (call Collaborator (rvs numerator _)) as [a|e1] eqn:Ea; simpl;
    [|intros [= <-]; by eapply call_late; [|exact Ea]].
  destruct (call Collaborator (rvs denominator _)) as [b|e1] eqn:Eb; simpl;
    [|intros [= <-]; by eapply call_late; [|exact Eb]].
  destruct (np_vstack a b) as [X|e1] eqn:EX; simpl;
    [|intros [= <-]; by eapply np_vstack_late].
  unfold np_zeros_int. destruct (_ <? _)%Z; simpl; [|done].
  by intros [= <-].
Qed.

Lemma take_repeat {A} (x : A) n k : k <= n -> take k (repeat x n) = repeat x k.
Proof.
  revert k. induction n as [|n IH]; intros [|k] Hk; simpl; try done; [lia|].
  f_equal. apply IH. lia.
Qed.

(** Generative mode for any [n_samples >= 0]: both sides are asked for
    [n_samples // 2] samples, and there are [n_samples] labels, the first
    [n_samples // 2] of them 0 and the others 1. *)
Lemma generate_blocks numerator denominator n_samples a b :
  (0 <= n_samples)%Z ->
  rvs numerator (n_samples / 2) = inl a ->
  rvs denominator (n_samples / 2) = inl b ->
  shape1 a = shape1 b ->
  generate numerator denominator n_samples
    = Ok (arr_rows a ++ arr_rows b,
          repeat 0%Z (Z.to_nat (n_samples / 2))
          ++ repeat 1%Z (Z.to_nat n_samples - Z.to_nat (n_samples / 2))).
Proof.
  intros Hn Ha Hb Hw. unfold generate. rewrite Ha, Hb. simpl.
  assert (Hstack : np_vstack a b = Ok (arr_rows a ++ arr_rows b)).
  { unfold np_vstack. by rewrite Hw, Nat.eqb_refl. }
  rewrite Hstack. simpl. unfold np_zeros_int.
  destruct (Z.ltb_spec n_samples 0); [lia|]. simpl.
  unfold np_set_from, slice_start. rewrite repeat_length.
  assert (0 <= n_samples / 2 <= n_samples)%Z as [Hlo Hhi].
  { split; [apply Z.div_pos; lia|]. apply Z.div_le_upper_bound; lia. }
  destruct (Z.ltb_spec (n_samples / 2) 0); [lia|].
  replace (Z.to_nat (n_samples / 2) `min` Z.to_nat n_samples)
    with (Z.to_nat (n_samples / 2)) by lia.
  by rewrite take_repeat by lia.
Qed.

(** The samples and the labels so built are equally many exactly when
    [n_samples] is even. *)
Lemma generate_lengths (n_samples : Z) (a b : matrix) :
  (0 <= n_samples)%Z ->
  length a = Z.to_nat (n_samples / 2) ->
  length b = Z.to_nat (n_samples / 2) ->
  length (a ++ b)
    = length (repeat 0%Z (Z.to_nat (n_samples / 2))
              ++ repeat 1%Z (Z.to_nat n_samples - Z.to_nat (n_samples / 2)))
  <-> Z.even n_samples = true.
Proof.
  intros Hn Ha Hb. rewrite !length_app, !repeat_length, Ha, Hb.
  assert (0 <= n_samples / 2 <= n_samples)%Z as [Hlo Hhi].
  { split; [apply Z.div_pos; lia|]. apply Z.div_le_upper_bound; lia. }
  pose proof (Z.div_mod n_samples 2 ltac:(lia)) as Hdm.
  rewrite Zmod_even in Hdm.
  destruct (Z.even n_samples); split; intros; try done; lia.
Qed.

Lemma fit_data_neither X y numerator denominator n_samples :
  neither_mode X y numerator denominator n_samples ->
  fit_data X y numerator denominator n_samples
    = Err (Raise ArgumentCheck ValueError).
Proof.
  intros [HXy Hgen]. unfold fit_data.
  destruct X, y, numerator, denominator, n_samples; try done;
    solve [ exfalso; apply HXy; split; eauto
          | exfalso; apply Hgen; repeat split; eauto ].
Qed.

Lemma fit_data_complete X y numerator denominator n_samples e :
  fit_data X y numerator denominator n_samples = Err e ->
  err_origin e = ArgumentCheck ->
  neither_mode X y numerator denominator n_samples.
Proof.
  unfold fit_data, neither_mode. intros Hdata Ho.
  destruct X, y; try done;
    destruct numerator, denominator, n_samples;
    try (apply generate_late in Hdata; done);
    split; intros HH; destruct_and?;
    repeat match goal with Hs : is_Some None |- _ => by destruct Hs end.
Qed.

(** C7, amended. [CalibratedClassifierRatio.fit] raises the [ValueError]
    of its argument check (line 98) if and only if neither input mode is
    complete, and it raises it before any computation or mutation: the
    estimator and the store are as they were.  (With a complete mode a
    later step can still raise a [ValueError] of its own.) *)
Theorem fit_argument_error
    (X : option matrix) (y : option labels)
    (numerator denominator : option dist) (n_samples : option Z)
    (s : CalibratedClassifierRatio) (h : heap) :
  ((exists e, (fit X y numerator denominator n_samples (s, h)).1 = Err e /\
              err_origin e = ArgumentCheck)
   <-> neither_mode X y numerator denominator n_samples) /\
  (neither_mode X y numerator denominator n_samples ->
   fit X y numerator denominator n_samples (s, h)
     = (Err (Raise ArgumentCheck ValueError), (s, h))).
Proof.
  pose proof (fit_spec X y numerator denominator n_samples s h) as Hspec.
  unfold wp in Hspec.
  destruct (fit X y numerator denominator n_samples (s, h)) as [r w'] eqn:Hrun.
  simpl in *.
  assert (Hraise : neither_mode X y numerator denominator n_samples ->
            (r, w') = (Err (Raise ArgumentCheck ValueError), (s, h))).
  { intros Hn. rewrite (fit_data_neither _ _ _ _ _ Hn) in Hspec.
    by destruct Hspec as [-> ->]. }
  split; [|done]. split.
  - intros (e & -> & Ho).
    destruct (fit_data X y numerator denominator n_samples)
      as [Xy|e'] eqn:Hdata.
    + destruct Hspec as (_ & _ & cls & cals & _ & _ & _ & Hlate & _).
      by destruct (Hlate e eq_refl).
    + destruct Hspec as [[= <-] _]. by eapply fit_data_complete.
  - intros Hn. injection (Hraise Hn) as -> _. by eexists.
Qed.

(** C8. After a successful [fit] the two lists have the same length and
    no object that existed before the call was modified.  With
    [cv = "prefit"] the ensemble has exactly one entry: its classifier is the
    caller's [base_estimator], the very object, and its calibrators were
    fitted on the scores of the whole [X] and [y].  Otherwise [cv] yields
    [k] folds and the ensemble has exactly [k] entries: the classifier of
    each fold is an object made during the call, with the parameters of
    [base_estimator], fitted on the train subset of that fold. *)
Theorem fit_builds_one_entry_per_fold
    (X : option matrix) (y : option labels)
    (numerator denominator : option dist) (n_samples : option Z)
    (s : CalibratedClassifierRatio) (h : heap)
    (w' : world) (X' : matrix) (y' : labels) :
  fit X y numerator denominator n_samples (s, h) = (Ok tt, w') ->
  fit_data X y numerator denominator n_samples = Ok (X', y') ->
  exists cls cals,
    classifiers_ w'.1 = Some cls /\
    calibrators_ w'.1 = Some cals /\
    length cls = length cals /\
    (forall l, l < length h -> w'.2 !! l = h !! l) /\
    match cv s with
    | Prefit =>
        cls = [base_estimator s] /\
        exists k, cals = [k] /\
                  calibrated_on_all h w'.2 (base_estimator s) X' y' k
    | Cv c =>
        (cv_split c X' y').2 = None /\
        length cls = length (cv_split c X' y').1 /\
        Forall2 (fold_classifier (fitted_clone h (base_estimator s) w'.2)
                   (length h) X' y')
          (cv_split c X' y').1 cls
    end.
Proof.
  intros Hrun Hdata.
  pose proof (wp_run _ _ _ _ _ Hrun
                (fit_spec X y numerator denominator n_samples s h)) as Hspec.
  rewrite Hdata in Hspec. simpl in Hspec.
  destruct Hspec as (Hp & Hk & cls & cals & Hc & Hcal & Hlen & _ & Hcv).
  exists cls, cals. do 3 (split; [done|]).
  split; [intros l Hl; by eapply keeps_lookup|].
  destruct (cv s) as [|c].
  - by destruct Hcv as (_ & ? & ?).
  - destruct Hcv as (HF & _ & Hall). destruct (Hall eq_refl) as [? Hn].
    do 2 (split; [done|]). by rewrite Hn, firstn_all in HF.
Qed.

(** C10. When [base_estimator] is a regressor and [cv] is "prefit", [fit]
    raises on every input.  The wrapper it makes is never fitted: it is
    left in the store without [classes_] and without [regressor_], and the
    ensemble is left empty.  With a built-in calibration, once the
    samples with label 0 are selected and [check_array] accepts them, the
    exception is the [AttributeError] of the missing [regressor_]. *)
Theorem prefit_regressor_never_fits
    (X : option matrix) (y : option labels)
    (numerator denominator : option dist) (n_samples : option Z)
    (s : CalibratedClassifierRatio) (h : heap) :
  is_regressor h (base_estimator s) = true ->
  cv s = Prefit ->
  let w' := (fit X y numerator denominator n_samples (s, h)).2 in
  exists e,
    (fit X y numerator denominator n_samples (s, h)).1 = Err e /\
    forall X' y',
      fit_data X y numerator denominator n_samples = Ok (X', y') ->
      classifiers_ w'.1 = Some [] /\
      calibrators_ w'.1 = Some [] /\
      w'.2 !! length h
        = Some (WrapAsClassifier (base_estimator s) None None) /\
      forall X0 X0',
        builtin_calibration s ->
        np_mask X' (np_eq y' 0) = Ok X0 ->
        check_array X0 = inl X0' ->
        e = Raise Interpreter AttributeError.
Proof.
  intros Hreg Hcv.
  pose proof (fit_spec X y numerator denominator n_samples s h) as Hspec.
  unfold wp in Hspec. simpl.
  destruct (fit X y numerator denominator n_samples (s, h)) as [r w'].
  simpl in *.
  destruct (fit_data X y numerator denominator n_samples) as [[X' y']|e].
  - destruct Hspec as (_ & _ & cls & cals & Hc & Hcal & Hlen & _ & Hpost).
    rewrite Hcv in Hpost. destruct r as [[]|e].
    { destruct Hpost as [Hno _]. congruence. }
    destruct Hpost as [-> Hwrap]. destruct (Hwrap Hreg) as [Hw He].
    exists e. split; [done|]. intros ? ? [= <- <-].
    destruct cals; [|done]. by repeat split.
  - destruct Hspec as [-> _]. exists e. by split.
Qed.

End Fit.

(** * Runs on concrete inputs *)

Section Runs.
#[local] Existing Instance Toy.collaborators.
Import Toy.

(** C1. Generative mode on two point distributions.  For [n_samples = 100]
    the code draws 50 samples from each side and labels them with 50
    zeros followed by 50 ones.  For [n_samples = 101] the labels are 50
    zeros followed by 51 ones, but the denominator is again asked for
    [101 // 2 = 50] samples: 100 samples are drawn, not 101, and the odd
    sample lands on neither side. *)
Theorem generative_mode_draws_two_halves :
  generate [0%R] [1%R] 100
    = Ok (repeat [0%R] 50 ++ repeat [1%R] 50,
          repeat 0%Z 50 ++ repeat 1%Z 50) /\
  generate [0%R] [1%R] 101
    = Ok (repeat [0%R] 50 ++ repeat [1%R] 50,
          repeat 0%Z 50 ++ repeat 1%Z 51).
Proof. split; reflexivity. Qed.

(** C2. For [n_samples = 101] generative mode builds 100 samples and 101
    labels; with a prefit classifier the selection of the samples by
    label then fails with an [IndexError], the mask having one entry more
    than there are samples. *)
Theorem generative_mode_odd_lengths_differ :
  (exists X y, generate [0%R] [1%R] 101 = Ok (X, y) /\
               length X = 100 /\ length y = 101) /\
  (fit None None (Some [0%R]) (Some [1%R]) (Some 101%Z)
     (estimator Prefit, [Classifier tt (Some ([], []))])).1
    = Err (Raise Numpy IndexError).
Proof.
  split; [|reflexivity]. eexists _, _. split; [reflexivity|]. by split.
Qed.

(** C3 as stated fails.  A first [fit] over three folds succeeds and
    leaves three entries.  In a second [fit] the second fold has no sample
    with label 1 to calibrate on and the scoring raises: the three entries
    are gone and the entry of the first fold is left behind. *)
Lemma fit_failure_leaves_partial_ensemble :
  let before :=
    (fit (Some six_samples) (Some [0; 1; 0; 1; 0; 1]%Z) None None None
       (estimator three_folds, [Classifier tt None])).2 in
  let run :=
    fit (Some six_samples) (Some [0; 1; 0; 0; 0; 1]%Z) None None None
      before in
  classifiers_ before.1 = Some [1; 4; 7] /\
  calibrators_ before.1 = Some [(2, 3); (5, 6); (8, 9)] /\
  run.1 = Err (Raise Collaborator ValueError) /\
  classifiers_ run.2.1 = Some [10] /\
  calibrators_ run.2.1 = Some [(11, 12)] /\
  classifiers_ run.2.1 <> classifiers_ before.1.
Proof. vm_compute. repeat split; discriminate. Qed.

(** C6 as stated fails.  Three samples with two labels: [check_X_y]
    rejects the unequal lengths with a [ValueError], although the label
    set has exactly two classes. *)
Lemma wrap_fit_rejects_input_with_two_classes :
  let result :=
    (WrapAsClassifier_fit 1 [[0]; [1]; [2]]%R [0; 1]%Z
       [Regressor 0%R None; WrapAsClassifier 0 None None]).1 in
  result = Err (Raise Sklearn ValueError) /\
  length (np_unique [0; 1]%Z) = 2 /\
  ~ ((exists o, result = Err (Raise o ValueError))
     <-> length (np_unique [0; 1]%Z) <> 2).
Proof.
  split; [reflexivity|]. split; [reflexivity|].
  intros [Hraise _]. apply Hraise; [|reflexivity]. by exists Sklearn.
Qed.

(** C7 as stated fails.  [X] and [y] are both supplied, the base estimator
    is a regressor and all labels are equal: the wrapper's [fit] raises
    the [ValueError] of its cardinality check. *)
Lemma fit_raises_with_complete_arguments :
  let result :=
    (fit (Some [[0]; [1]]%R) (Some [0; 0]%Z) None None None
       (estimator one_fold, [Regressor 0%R None])).1 in
  result = Err (Raise CardinalityCheck ValueError) /\
  ~ neither_mode (Some [[0]; [1]]%R) (Some [0; 0]%Z) None None None /\
  ~ ((exists o, result = Err (Raise o ValueError))
     <-> neither_mode (Some [[0]; [1]]%R) (Some [0; 0]%Z) None None None).
Proof.
  assert (Hmode : ~ neither_mode (Some [[0]; [1]]%R) (Some [0; 0]%Z)
                      (None : option (list R)) None None).
  { intros [HXy _]. apply HXy. by split. }
  split; [reflexivity|]. split; [done|].
  intros [Hraise _]. apply Hmode, Hraise. by exists CardinalityCheck.
Qed.

(** A fitted wrapper around a regressor that predicts 2 everywhere: the
    one row is [[1 - clip 2, clip 2]]. *)
Lemma predict_proba_rows_are_probabilities_witness :
  let h := [Regressor 2%R (Some ([], []));
            WrapAsClassifier 0 (Some [0; 1]%Z) (Some 0)] in
  h !! 1 = Some (WrapAsClassifier 0 (Some [0; 1]%Z) (Some 0)) /\
  check_array [[0%R]] = inl [[0%R]] /\
  regressor_predict h 0 [[0%R]] = Ok [2%R] /\
  length [2%R] = length [[0%R]] /\
  exists probas,
    WrapAsClassifier_predict_proba h 1 [[0%R]] = Ok probas /\
    probas = [[(1 - clip01 2)%R; clip01 2]] /\
    length probas = 1.
Proof.
  intros h.
  assert (H1 : h !! 1 = Some (WrapAsClassifier 0 (Some [0; 1]%Z) (Some 0)))
    by reflexivity.
  assert (H2 : check_array [[0%R]] = inl [[0%R]]) by reflexivity.
  assert (H3 : regressor_predict h 0 [[0%R]] = Ok [2%R]) by reflexivity.
  assert (H4 : length [2%R] = length [[0%R]]) by reflexivity.
  do 4 (split; [assumption|]).
  destruct (predict_proba_rows_are_probabilities h 1 _ _ _ _ _ _ H1 H2 H3 H4)
    as (probas & Hrun & Hrows & Hlen & _).
  exists probas. split; [exact Hrun|]. split; [exact Hrows|exact Hlen].
Defined.


(** The same entry: its calibrators have density 1 and [nnlf = - ln 1]. *)
Lemma log_mode_agrees_with_ratio_mode_witness :
  let h := [Classifier tt (Some ([], []));
            Calibrator tt (Some []); Calibrator tt (Some [])] in
  let s := {| base_estimator := 0;
              calibration := CalibrationName "histogram";
              cv := Prefit; decompose := false;
              classifiers_ := Some [0]; calibrators_ := Some [(1, 2)] |} in
  classifier_predict_proba h 0 [[0%R]] = Ok [[1; 0]%R] /\
  np_col [[1; 0]%R] 0 = Ok [1%R] /\
  calibrator_pdf h 1 (np_reshape_col [1%R]) = Ok [1%R] /\
  calibrator_nnlf h 1 (np_reshape_col [1%R])
    = Ok (map (fun x => (- ln x)%R) [1%R]) /\
  Forall (fun x => (0 <= x)%R /\ x <> 0%R) [1%R] /\
  exists rlog rratio,
    predict (s, h) [[0%R]] true = Ok rlog /\
    predict (s, h) [[0%R]] false = Ok rratio /\
    map exp rlog = rratio.
Proof.
  intros h s.
  assert (HP : classifier_predict_proba h (0, (1, 2)).1 [[0%R]]
               = Ok [[1; 0]%R]) by reflexivity.
  assert (Hp : np_col [[1; 0]%R] 0 = Ok [1%R]) by reflexivity.
  assert (Ha : calibrator_pdf h (0, (1, 2)).2.1 (np_reshape_col [1%R])
               = Ok [1%R]) by reflexivity.
  assert (Hb : calibrator_pdf h (0, (1, 2)).2.2 (np_reshape_col [1%R])
               = Ok [1%R]) by reflexivity.
  assert (Hna : calibrator_nnlf h (0, (1, 2)).2.1 (np_reshape_col [1%R])
                = Ok (map (fun x => (- ln x)%R) [1%R])) by reflexivity.
  assert (Hnb : calibrator_nnlf h (0, (1, 2)).2.2 (np_reshape_col [1%R])
                = Ok (map (fun x => (- ln x)%R) [1%R])) by reflexivity.
  assert (Hpos : Forall (fun x => (0 <= x)%R /\ x <> 0%R) [1%R]).
  { constructor; [split; lra|constructor]. }
  split; [exact HP|]. split; [exact Hp|]. split; [exact Ha|].
  split; [exact Hna|]. split; [exact Hpos|].
  destruct (log_mode_agrees_with_ratio_mode h [[0%R]] (0, (1, 2))
              [[1; 0]%R] [1%R] [1%R] [1%R] HP Hp Ha Hb Hna Hnb
              eq_refl eq_refl Hpos Hpos) as [_ Hpredict].
  apply (Hpredict s); reflexivity.
Defined.

(** Three labels for three samples: the cardinality check raises and the
    store is as it was. *)
Lemma wrap_fit_cardinality_error_witness :
  let h := [Regressor 0%R None; WrapAsClassifier 0 None None] in
  h !! 1 = Some (WrapAsClassifier 0 None None) /\
  check_X_y [[0]; [1]; [2]]%R [0; 1; 2]%Z
    = inl ([[0]; [1]; [2]]%R, [0; 1; 2]%Z) /\
  length (np_unique [0; 1; 2]%Z) <> 2 /\
  WrapAsClassifier_fit 1 [[0]; [1]; [2]]%R [0; 1; 2]%Z h
    = (Err (Raise CardinalityCheck ValueError), h).
Proof.
  intros h.
  assert (H1 : h !! 1 = Some (WrapAsClassifier 0 None None)) by reflexivity.
  assert (H2 : check_X_y [[0]; [1]; [2]]%R [0; 1; 2]%Z
               = inl ([[0]; [1]; [2]]%R, [0; 1; 2]%Z)) by reflexivity.
  assert (H3 : length (np_unique [0; 1; 2]%Z) <> 2) by (simpl; lia).
  do 3 (split; [assumption|]).
  destruct (wrap_fit_cardinality_error h 1 [[0]; [1]; [2]]%R [0; 1; 2]%Z
              0 None None H1) as [_ Haccepted].
  destruct (Haccepted _ _ H2) as [_ Hraise].
  exact (Hraise H3).
Defined.

(** The successful run over three folds: three entries, made in order. *)
Lemma fit_builds_one_entry_per_fold_witness :
  let w := (estimator three_folds, [Classifier tt None]) in
  let X := six_samples in
  let y := [0; 1; 0; 1; 0; 1]%Z in
  let w' := (fit (Some X) (Some y) None None None w).2 in
  fit (Some X) (Some y) None None None w = (Ok tt, w') /\
  fit_data (Some X) (Some y) None None None = Ok (X, y) /\
  exists cls cals,
    classifiers_ w'.1 = Some cls /\ calibrators_ w'.1 = Some cals /\
    length cls = 3 /\ length cals = 3.
Proof.
  intros w X y w'.
  assert (H1 : fit (Some X) (Some y) None None None w = (Ok tt, w'))
    by (vm_compute; reflexivity).
  assert (H2 : fit_data (Some X) (Some y) (None : option (list R)) None None
               = Ok (X, y)) by reflexivity.
  do 2 (split; [assumption|]).
  destruct (fit_builds_one_entry_per_fold (Some X) (Some y) None None None
              w.1 w.2 w' X y H1 H2)
    as (cls & cals & Hc & Hk & Hlen & _ & Hcv).
  exists cls, cals. split; [exact Hc|]. split; [exact Hk|].
  change (cv w.1) with three_folds in Hcv. unfold three_folds, folds in Hcv.
  destruct Hcv as (_ & Hn & _).
  split; [exact Hn|]. rewrite <- Hlen. exact Hn.
Defined.

(** A regressor as the base estimator of a prefit estimator: the scoring
    call fails on the wrapper that was never fitted. *)
Lemma prefit_regressor_never_fits_witness :
  let s := estimator Prefit in
  let h := [Regressor 0%R None] in
  is_regressor h (base_estimator s) = true /\
  cv s = Prefit /\
  (fit (Some [[0]; [1]]%R) (Some [0; 1]%Z) None None None (s, h)).1
    = Err (Raise Interpreter AttributeError).
Proof.
  intros s h.
  assert (H1 : is_regressor h (base_estimator s) = true) by reflexivity.
  assert (H2 : cv s = Prefit) by reflexivity.
  do 2 (split; [assumption|]).
  destruct (prefit_regressor_never_fits (Some [[0]; [1]]%R) (Some [0; 1]%Z)
              None None None s h H1 H2) as (e & Hrun & Hwhy).
  rewrite Hrun. f_equal.
  destruct (Hwhy _ _ eq_refl) as (_ & _ & _ & He).
  apply (He [[0%R]] [[0%R]]); [by right|reflexivity|reflexivity].
Defined.

End Runs.

(** * Further properties of the adapter *)

Section Runs_of_binds.
Context {S : Type}.

Lemma run_bind_ok {A B} (m : M S A) (f : A -> M S B) s a s' :
  m s = (Ok a, s') -> (m ≫= f) s = f a s'.
Proof. unfold mbind, M_bind. by intros ->. Qed.

Lemma run_bind_err {A B} (m : M S A) (f : A -> M S B) s e s' :
  m s = (Err e, s') -> (m ≫= f) s = (Err e, s').
Proof. unfold mbind, M_bind. by intros ->. Qed.

End Runs_of_binds.

Section Labels.

Lemma insert_sorted_In v x l : In x (insert_sorted v l) <-> x = v \/ In x l.
Proof.
  induction l as [|a l IH]; simpl; [intuition|].
  destruct (Z.ltb_spec v a); simpl; [intuition|].
  destruct (Z.eqb_spec v a); simpl; [subst; intuition|].
  rewrite IH. intuition.
Qed.

Lemma np_unique_In x y : In x (np_unique y) <-> In x y.
Proof.
  induction y as [|v y IH]; simpl; [done|].
  rewrite insert_sorted_In, IH. intuition.
Qed.

Lemma insert_sorted_increasing v l :
  StronglySorted Z.lt l -> StronglySorted Z.lt (insert_sorted v l).
Proof.
  induction 1 as [|a l Hl IH Ha]; simpl; [repeat constructor|].
  destruct (Z.ltb_spec v a).
  - constructor; [by constructor|]. constructor; [done|].
    eapply Forall_impl; [exact Ha|]. simpl. intros. lia.
  - destruct (Z.eqb_spec v a); [by constructor|].
    constructor; [done|]. apply List.Forall_forall.
    intros x [->|Hx]%insert_sorted_In; [lia|].
    by apply (proj1 (List.Forall_forall _ _) Ha).
Qed.

Lemma np_unique_increasing y : StronglySorted Z.lt (np_unique y).
Proof.
  induction y; simpl; [constructor|]. by apply insert_sorted_increasing.
Qed.

(** With two classes, the smaller label is encoded as 0 and the larger
    as 1. *)
Lemma two_classes y a b :
  np_unique y = [a; b] ->
  (a < b)%Z /\
  Forall (fun v => v = a \/ v = b) y /\
  encode [a; b] y = map (fun v => if (v =? a)%Z then 0%R else 1%R) y.
Proof.
  intros Hu.
  assert (Hlt : (a < b)%Z).
  { pose proof (np_unique_increasing y) as Hs. rewrite Hu in Hs.
    inversion Hs as [|? ? _ Hall]; subst.
    by inversion Hall. }
  assert (Hall : Forall (fun v => v = a \/ v = b) y).
  { apply List.Forall_forall. intros v Hv.
    apply np_unique_In in Hv. rewrite Hu in Hv. simpl in Hv. intuition. }
  split; [done|]. split; [done|].
  unfold encode. apply map_ext_in. intros v Hv.
  apply (proj1 (List.Forall_forall _ _) Hall) in Hv. simpl.
  destruct (Z.eqb_spec v a); [done|].
  destruct (Z.eqb_spec v b); [done|]. intuition.
Qed.

End Labels.

Section AdapterRuns.
Context `{Collaborators}.
Implicit Types h : heap.

Lemma clone_regressor h l p f :
  h !! l = Some (Regressor p f) ->
  clone l h = (Ok (length h), h ++ [Regressor p None]).
Proof.
  intros Hl. unfold clone, mbind, M_bind, get. simpl.
  unfold mbind, M_bind, get. by rewrite Hl.
Qed.

Lemma regressor_fit_ok h l p f X y :
  h !! l = Some (Regressor p f) ->
  reg_fit p X y = None ->
  regressor_fit l X y h = (Ok tt, <[l := Regressor p (Some (X, y))]> h).
Proof.
  intros Hl Hfit. unfold regressor_fit, mbind, M_bind, get, update.
  by rewrite Hl, Hfit, Hl.
Qed.

Lemma regressor_fit_raises h l p f X y e :
  h !! l = Some (Regressor p f) ->
  reg_fit p X y = Some e ->
  regressor_fit l X y h = (Err (Raise Collaborator e), h).
Proof.
  intros Hl Hfit. unfold regressor_fit, mbind, M_bind, get.
  by rewrite Hl, Hfit.
Qed.

(** The run of [WrapAsClassifier.fit] up to the regressor's [fit]. *)
Lemma wrap_fit_run h self r0 c0 r_0 p f X y X' y' :
  h !! self = Some (WrapAsClassifier r0 c0 r_0) ->
  h !! r0 = Some (Regressor p f) ->
  check_X_y X y = inl (X', y') ->
  length (np_unique y') = 2 ->
  let h1 := <[self := WrapAsClassifier r0 (Some (np_unique y')) r_0]> h in
  WrapAsClassifier_fit self X y h
  = (regressor_fit (length h) X' (encode (np_unique y') y') ≫= fun _ =>
     update self (set_regressor_ (length h)))
      (h1 ++ [Regressor p None]).
Proof.
  intros Hself Hr0 Hcheck Hcard h1.
  assert (Hne : self <> r0) by (intros ->; congruence).
  unfold WrapAsClassifier_fit.
  rewrite (run_bind_ok get _ h h h eq_refl), Hself.
  rewrite (run_bind_ok _ _ h (X', y') h) by (unfold pure_; by rewrite Hcheck).
  simpl. rewrite Hcard. simpl.
  rewrite (run_bind_ok _ _ h tt h1)
    by (unfold update, h1; by rewrite Hself).
  assert (Hr1 : h1 !! r0 = Some (Regressor p f)).
  { unfold h1. by rewrite list_lookup_insert_ne. }
  rewrite (run_bind_ok _ _ h1 _ _ (clone_regressor _ _ _ _ Hr1)).
  unfold h1. by rewrite length_insert.
Qed.

Lemma wrap_fit_success
    (h : heap) (self r0 : loc) (c0 : option (list Z)) (r_0 : option loc)
    (p : reg_params) (f : option (matrix * vector))
    (X X' : matrix) (y y' : labels) :
  h !! self = Some (WrapAsClassifier r0 c0 r_0) ->
  h !! r0 = Some (Regressor p f) ->
  check_X_y X y = inl (X', y') ->
  length (np_unique y') = 2 ->
  reg_fit p X' (encode (np_unique y') y') = None ->
  exists h' a b,
    WrapAsClassifier_fit self X y h = (Ok tt, h') /\
    np_unique y' = [a; b] /\ (a < b)%Z /\
    Forall (fun v => v = a \/ v = b) y' /\
    encode (np_unique y') y'
      = map (fun v => if (v =? a)%Z then 0%R else 1%R) y' /\
    length h' = S (length h) /\
    h' !! self = Some (WrapAsClassifier r0 (Some [a; b]) (Some (length h))) /\
    h' !! length h
      = Some (Regressor p (Some (X', encode (np_unique y') y'))) /\
    (forall l, l < length h -> l <> self -> h' !! l = h !! l).
Proof.
  intros Hself Hr0 Hcheck Hcard Hfit.
  pose proof (lookup_lt_Some _ _ _ Hself) as Hlt.
  destruct (np_unique y') as [|a [|b [|]]] eqn:Hu; try done.
  destruct (two_classes y' a b Hu) as (Hab & Hall & Henc).
  set (h1 := <[self := WrapAsClassifier r0 (Some [a; b]) r_0]> h).
  set (h2 := h1 ++ [Regressor p None]).
  set (h3 := <[length h := Regressor p (Some (X', encode [a; b] y'))]> h2).
  assert (Hl1 : length h1 = length h) by apply length_insert.
  assert (Hnew : h2 !! length h = Some (Regressor p None)).
  { unfold h2. by rewrite lookup_app_r, Hl1, Nat.sub_diag by lia. }
  assert (Hself3 : h3 !! self = Some (WrapAsClassifier r0 (Some [a; b]) r_0)).
  { unfold h3, h2. rewrite list_lookup_insert_ne by lia.
    rewrite lookup_app_l by lia. unfold h1.
    by apply list_lookup_insert_eq. }
  exists (<[self := WrapAsClassifier r0 (Some [a; b]) (Some (length h))]> h3),
    a, b.
  split.
  { rewrite (wrap_fit_run h self r0 c0 r_0 p f X y X' y') by
      (done || by rewrite Hu).
    rewrite Hu. fold h1. fold h2.
    rewrite (run_bind_ok _ _ h2 tt h3)
      by (by apply (regressor_fit_ok _ _ _ None)).
    unfold update. by rewrite Hself3. }
  do 4 (split; [done|]).
  assert (Hl3 : length h3 = S (length h)).
  { unfold h3, h2. rewrite length_insert, length_app, Hl1. simpl. lia. }
  split; [by rewrite length_insert|].
  split; [apply list_lookup_insert_eq; lia|].
  split.
  { rewrite list_lookup_insert_ne by lia. unfold h3.
    apply list_lookup_insert_eq. unfold h2. rewrite length_app, Hl1.
    simpl. lia. }
  intros l Hl Hne.
  rewrite list_lookup_insert_ne by done. unfold h3.
  rewrite list_lookup_insert_ne by lia. unfold h2.
  rewrite lookup_app_l by lia. unfold h1.
  by rewrite list_lookup_insert_ne.
Qed.

(** X1. On input that [check_X_y] accepts, with exactly two classes and
    a wrapped regressor whose [fit] does not raise, [WrapAsClassifier.fit]
    succeeds.  It stores the two labels in increasing order in [classes_]
    and, in [regressor_], a new object: a clone of the wrapped regressor,
    fitted on the validated samples and on the labels encoded as 0 for the
    smaller and 1 for the larger.  All other objects, the regressor given
    to the constructor among them, are as they were. *)
Theorem wrap_fit_fits_a_clone_on_encoded_labels
    (h : heap) (self r0 : loc) (c0 : option (list Z)) (r_0 : option loc)
    (p : reg_params) (f : option (matrix * vector))
    (X X' : matrix) (y y' : labels) :
  h !! self = Some (WrapAsClassifier r0 c0 r_0) ->
  h !! r0 = Some (Regressor p f) ->
  check_X_y X y = inl (X', y') ->
  length (np_unique y') = 2 ->
  reg_fit p X' (encode (np_unique y') y') = None ->
  exists h' a b,
    WrapAsClassifier_fit self X y h = (Ok tt, h') /\
    np_unique y' = [a; b] /\ (a < b)%Z /\
    Forall (fun v => v = a \/ v = b) y' /\
    encode (np_unique y') y'
      = map (fun v => if (v =? a)%Z then 0%R else 1%R) y' /\
    length h' = S (length h) /\
    h' !! self = Some (WrapAsClassifier r0 (Some [a; b]) (Some (length h))) /\
    h' !! length h
      = Some (Regressor p (Some (X', encode (np_unique y') y'))) /\
    (forall l, l < length h -> l <> self -> h' !! l = h !! l).
Proof. apply wrap_fit_success. Qed.

(** X2. When the wrapped regressor's [fit] raises, after the cardinality
    check has passed, [WrapAsClassifier.fit] raises that exception with
    [classes_] already set to the new classes and [regressor_] still what
    it was before the call: on a wrapper fitted earlier the two then
    belong to different calls.  An unfitted clone is left behind; the
    other objects are as they were. *)
Theorem wrap_fit_regressor_failure_keeps_new_classes
    (h : heap) (self r0 : loc) (c0 : option (list Z)) (r_0 : option loc)
    (p : reg_params) (f : option (matrix * vector))
    (X X' : matrix) (y y' : labels) (e : exn) :
  h !! self = Some (WrapAsClassifier r0 c0 r_0) ->
  h !! r0 = Some (Regressor p f) ->
  check_X_y X y = inl (X', y') ->
  length (np_unique y') = 2 ->
  reg_fit p X' (encode (np_unique y') y') = Some e ->
  exists h',
    WrapAsClassifier_fit self X y h = (Err (Raise Collaborator e), h') /\
    h' !! self = Some (WrapAsClassifier r0 (Some (np_unique y')) r_0) /\
    h' !! length h = Some (Regressor p None) /\
    length h' = S (length h) /\
    (forall l, l < length h -> l <> self -> h' !! l = h !! l).
Proof.
  intros Hself Hr0 Hcheck Hcard Hfit.
  pose proof (lookup_lt_Some _ _ _ Hself) as Hlt.
  set (h1 := <[self := WrapAsClassifier r0 (Some (np_unique y')) r_0]> h).
  assert (Hl1 : length h1 = length h) by apply length_insert.
  assert (Hnew : (h1 ++ [Regressor p None]) !! length h
            = Some (Regressor p None)).
  { by rewrite lookup_app_r, Hl1, Nat.sub_diag by lia. }
  exists (h1 ++ [Regressor p None]). split.
  { rewrite (wrap_fit_run h self r0 c0 r_0 p f X y X' y') by done.
    fold h1. apply run_bind_err.
    eapply regressor_fit_raises; [exact Hnew|exact Hfit]. }
  split.
  { rewrite lookup_app_l by lia. by apply list_lookup_insert_eq. }
  split; [done|].
  split; [rewrite length_app, Hl1; simpl; lia|].
  intros l Hl Hne. rewrite lookup_app_l by lia.
  by apply list_lookup_insert_ne.
Qed.

Lemma clip01_threshold x : (1 / 2 <= clip01 x)%R <-> (1 / 2 <= x)%R.
Proof.
  unfold clip01, Rmin, Rmax.
  destruct (Rle_dec x 0); destruct (Rle_dec _ 1); lra.
Qed.

Lemma np_col_rows (a b : R -> R) (p : vector) :
  np_col (map (fun x => [a x; b x]) p) 0 = Ok (map a p) /\
  np_col (map (fun x => [a x; b x]) p) 1 = Ok (map b p).
Proof.
  induction p as [|x p [IH0 IH1]]; simpl; [done|].
  by rewrite IH0, IH1.
Qed.

Lemma wrap_predict_proba_run h self X X' regressor classes r p :
  h !! self = Some (WrapAsClassifier regressor classes (Some r)) ->
  check_array X = inl X' ->
  regressor_predict h r X' = Ok p ->
  length p = length X' ->
  WrapAsClassifier_predict_proba h self X
    = Ok (map (fun x => [(1 - clip01 x)%R; clip01 x]) p).
Proof.
  intros Hself HX Hp Hlen.
  unfold WrapAsClassifier_predict_proba. rewrite Hself, HX. simpl.
  rewrite Hp. simpl.
  rewrite !np_assign_col_same
    by (unfold np_clip01; by rewrite ?length_map).
  simpl. unfold np_clip01. rewrite map_map.
  by rewrite zip_with_map_same.
Qed.

Lemma wrap_predict_run h self X X' regressor c0 c1 r p :
  h !! self = Some (WrapAsClassifier regressor (Some [c0; c1]) (Some r)) ->
  check_array X = inl X' ->
  regressor_predict h r X' = Ok p ->
  length p = length X' ->
  exists labels,
    WrapAsClassifier_predict h self X = Ok labels /\
    length labels = length X' /\
    Forall2 (fun x l => ((1 / 2 <= x)%R -> l = c1) /\
                        ((x < 1 / 2)%R -> l = c0)) p labels.
Proof.
  intros Hself HX Hp Hlen.
  unfold WrapAsClassifier_predict. rewrite Hself.
  rewrite (wrap_predict_proba_run _ _ _ _ _ _ _ _ Hself HX Hp Hlen). simpl.
  rewrite (proj2 (np_col_rows _ _ p)). simpl.
  eexists. split; [reflexivity|]. split; [by rewrite !length_map|].
  clear. induction p as [|x p IH]; simpl; constructor; [|done].
  destruct (Rge_dec (clip01 x) (1 / 2)) as [Hge|Hlt].
  - apply Rge_le in Hge. apply (proj1 (clip01_threshold x)) in Hge.
    split; [done|]. intros. exfalso. lra.
  - split; [|done]. intros Hx. apply (proj2 (clip01_threshold x)) in Hx.
    exfalso. apply Hlt. lra.
Qed.

(** X3. On a fitted wrapper, [predict] returns one label per sample:
    [classes_[1]] where the regressor's output is at least 0.5 and
    [classes_[0]] where it is below.  The clipping of [predict_proba]
    does not change the decision. *)
Theorem wrap_predict_thresholds_regressor_output
    (h : heap) (self : loc) (X X' : matrix) (regressor : loc)
    (c0 c1 : Z) (r : loc) (p : vector) :
  h !! self = Some (WrapAsClassifier regressor (Some [c0; c1]) (Some r)) ->
  check_array X = inl X' ->
  regressor_predict h r X' = Ok p ->
  length p = length X' ->
  exists labels,
    WrapAsClassifier_predict h self X = Ok labels /\
    length labels = length X' /\
    Forall2 (fun x l => ((1 / 2 <= x)%R -> l = c1) /\
                        ((x < 1 / 2)%R -> l = c0)) p labels.
Proof. apply wrap_predict_run. Qed.

(** X4. A wrapper that has no [regressor_] cannot predict: on input that
    [check_array] accepts, [predict_proba] and [predict] raise the
    [AttributeError] of the missing attribute; on input it rejects they
    raise its exception, the input being validated first. *)
Theorem unfitted_wrapper_cannot_predict
    (h : heap) (self : loc) (regressor : loc) (classes : option (list Z))
    (X : matrix) :
  h !! self = Some (WrapAsClassifier regressor classes None) ->
  match check_array X with
  | inl _ =>
      WrapAsClassifier_predict_proba h self X
        = Err (Raise Interpreter AttributeError) /\
      WrapAsClassifier_predict h self X
        = Err (Raise Interpreter AttributeError)
  | inr e =>
      WrapAsClassifier_predict_proba h self X = Err (Raise Sklearn e) /\
      WrapAsClassifier_predict h self X = Err (Raise Sklearn e)
  end.
Proof.
  intros Hself.
  unfold WrapAsClassifier_predict, WrapAsClassifier_predict_proba.
  rewrite Hself. by destruct (check_array X).
Qed.

(** X5. Fitting and then predicting: after a successful [fit] on labels
    with the two classes [a < b], [predict] on input that [check_array]
    accepts returns one label per sample, each of them a label of the
    training data: [b] where the fitted regressor's output is at least
    0.5, [a] where it is below. *)
Theorem wrap_fit_then_predict_returns_training_labels
    (h : heap) (self r0 : loc) (c0 : option (list Z)) (r_0 : option loc)
    (p : reg_params) (f : option (matrix * vector))
    (X X' : matrix) (y y' : labels) (X2 X2' : matrix) (q : vector) :
  h !! self = Some (WrapAsClassifier r0 c0 r_0) ->
  h !! r0 = Some (Regressor p f) ->
  check_X_y X y = inl (X', y') ->
  length (np_unique y') = 2 ->
  reg_fit p X' (encode (np_unique y') y') = None ->
  check_array X2 = inl X2' ->
  reg_predict p (Some (X', encode (np_unique y') y')) X2' = inl q ->
  length q = length X2' ->
  exists labels a b,
    np_unique y' = [a; b] /\
    WrapAsClassifier_predict (WrapAsClassifier_fit self X y h).2 self X2
      = Ok labels /\
    length labels = length X2' /\
    Forall (fun l => In l y') labels /\
    Forall2 (fun x l => ((1 / 2 <= x)%R -> l = b) /\
                        ((x < 1 / 2)%R -> l = a)) q labels.
Proof.
  intros Hself Hr0 Hcheck Hcard Hfit HX2 Hq Hlen.
  destruct (wrap_fit_success h self r0 c0 r_0 p f X X' y y'
              Hself Hr0 Hcheck Hcard Hfit)
    as (h' & a & b & Hrun & Hu & Hab & Hall & _ & _ & Hself' & Hr & _).
  rewrite Hrun. simpl.
  destruct (wrap_predict_run h' self X2 X2' r0 a b (length h) q Hself' HX2)
    as (labels & Hpred & Hl & Hdec); [|done|].
  { unfold regressor_predict. by rewrite Hr, Hq. }
  exists labels, a, b. do 3 (split; [done|]). split; [|done].
  assert (Ha : In a y') by (apply np_unique_In; rewrite Hu; simpl; auto).
  assert (Hb : In b y') by (apply np_unique_In; rewrite Hu; simpl; auto).
  clear -Hdec Ha Hb. induction Hdec as [|x l q labels [H1 H2] _ IH];
    constructor; [|done].
  destruct (Rle_or_lt (1 / 2) x); [by rewrite H1|by rewrite H2].
Qed.

End AdapterRuns.

(** * Further properties of [predict] *)

Section PredictMore.
Context `{Collaborators}.
Implicit Types h : heap.

Lemma np_iadd_length r v r' : np_iadd r v = Ok r' -> length r' = length r.
Proof.
  unfold np_iadd. destruct (Nat.eqb_spec (length r) (length v)) as [E|E].
  - intros [= <-]. rewrite length_zip_with. lia.
  - destruct v as [|x [|]]; try done. intros [= <-]. by rewrite length_map.
Qed.

Lemma predict_loop_length h X log entries r r' :
  predict_loop h X log entries r = Ok r' -> length r' = length r.
Proof.
  revert r. induction entries as [|e entries IH]; intros r; simpl.
  - by intros [= <-].
  - destruct (contribution h X log e) as [v|]; simpl; [|done].
    destruct (np_iadd r v) as [r1|] eqn:E; simpl; [|done].
    intros Hrun. rewrite (IH _ Hrun). by eapply np_iadd_length.
Qed.

(** X6. Whenever [predict] returns, it returns one value per row of [X],
    whatever the shapes the collaborators answered with: the sum is
    accumulated in place in an array of [len(X)] zeros. *)
Theorem predict_returns_one_value_per_sample
    (w : world) (X : matrix) (log : bool) (r : vector) :
  predict w X log = Ok r -> length r = length X.
Proof.
  unfold predict.
  destruct (attr (classifiers_ w.1)) as [cls|]; simpl; [|done].
  destruct (attr (calibrators_ w.1)) as [cals|]; simpl; [|done].
  destruct (predict_loop _ _ _ _ _) as [r1|] eqn:E; simpl; [|done].
  intros [= <-]. rewrite length_map, (predict_loop_length _ _ _ _ _ _ E).
  unfold np_zeros. by rewrite repeat_length.
Qed.

Lemma predict_loop_app h X log l1 l2 r :
  predict_loop h X log (l1 ++ l2) r
  = predict_loop h X log l1 r ≫= predict_loop h X log l2.
Proof.
  revert r. induction l1 as [|e l1 IH]; intros r; simpl; [done|].
  destruct (contribution h X log e) as [v|]; simpl; [|done].
  destruct (np_iadd r v) as [r1|]; simpl; [|done]. apply IH.
Qed.

(** The loop over entries that all answer with one value per sample. *)
Lemma predict_loop_answers h X log entries r :
  Forall (fun e => exists v, contribution h X log e = Ok v /\
                             length v = length X) entries ->
  length r = length X ->
  exists r',
    predict_loop h X log entries r = Ok r' /\
    length r' = length X /\
    forall i, i < length X ->
      nth i r' 0%R
      = (nth i r 0
         + foldr Rplus 0
             (map (fun e => match contribution h X log e with
                            | Ok v => nth i v 0%R
                            | Err _ => 0%R
                            end) entries))%R.
Proof.
  intros HF. revert r.
  induction HF as [|e entries (v & Hv & Hlen) _ IH]; intros r Hr.
  - exists r. simpl. repeat split; auto. intros. lra.
  - simpl. rewrite Hv. simpl. rewrite np_iadd_same by congruence. simpl.
    destruct (IH (zip_with Rplus r v)) as (r' & Hrun & Hr' & Hsum).
    { rewrite length_zip_with. lia. }
    exists r'. split; [done|]. split; [done|].
    intros i Hi. rewrite (Hsum i Hi), nth_zip_with by lia. lra.
Qed.

(** X8. [predict] stops at the first entry that fails: when the entries
    before it answer and its own classifier or calibrators raise,
    [predict] raises that exception, whatever the later entries would
    answer; no mean over the remaining entries is returned. *)
Theorem predict_raises_at_the_first_failing_entry
    (w : world) (X : matrix) (log : bool)
    (cls : list loc) (cals : list (loc * loc))
    (before after : list (loc * (loc * loc))) (e : loc * (loc * loc))
    (err : error) :
  classifiers_ w.1 = Some cls ->
  calibrators_ w.1 = Some cals ->
  zip cls cals = before ++ e :: after ->
  Forall (fun e => exists v, contribution w.2 X log e = Ok v /\
                             length v = length X) before ->
  contribution w.2 X log e = Err err ->
  predict w X log = Err err.
Proof.
  intros Hc Hk Hzip HF He.
  destruct (predict_loop_answers w.2 X log _ (np_zeros (length X)) HF)
    as (r1 & Hrun1 & _); [unfold np_zeros; by rewrite repeat_length|].
  unfold predict. rewrite Hc, Hk. simpl.
  rewrite Hzip, predict_loop_app, Hrun1. simpl. by rewrite He.
Qed.

End PredictMore.

(** * Further properties of [fit] *)

Section Calibration.
Context `{Collaborators}.
Implicit Types h : heap.

Lemma clone_calibrator h l p f :
  h !! l = Some (Calibrator p f) ->
  clone l h = (Ok (length h), h ++ [Calibrator p None]).
Proof.
  intros Hl. unfold clone, mbind, M_bind, get. simpl.
  unfold mbind, M_bind, get. by rewrite Hl.
Qed.

Lemma on_heap_run {A} (m : M heap A) (s : CalibratedClassifierRatio) h r h' :
  m h = (r, h') -> on_heap m (s, h) = (r, (s, h')).
Proof. unfold on_heap. simpl. by intros ->. Qed.

(** X9. A calibrator given as [calibration] is a template only:
    [_check_calibration] returns two new objects with its parameters,
    both unfitted even when the template is fitted, and leaves the
    template and every other object as they were.  The two are separate
    objects: fitting the first leaves the second unfitted. *)
Theorem check_calibration_clones_the_template_twice
    (s : CalibratedClassifierRatio) (h : heap) (l : loc)
    (p : cal_params) (f : option matrix) (scores : matrix) :
  calibration s = CalibrationEstimator l ->
  h !! l = Some (Calibrator p f) ->
  cal_fit p scores = None ->
  _check_calibration (s, h)
    = (Ok (length h, S (length h)),
       (s, h ++ [Calibrator p None; Calibrator p None])) /\
  calibrator_fit (length h) scores
    (h ++ [Calibrator p None; Calibrator p None])
    = (Ok tt, h ++ [Calibrator p (Some scores); Calibrator p None]).
Proof.
  intros Hcal Hl Hfit. pose proof (lookup_lt_Some _ _ _ Hl) as Hlt. split.
  - unfold _check_calibration.
    rewrite (run_bind_ok self_ _ (s, h) s (s, h) eq_refl).
    rewrite Hcal. simpl.
    rewrite (run_bind_ok _ _ (s, h) _ _
               (on_heap_run _ _ _ _ _ (clone_calibrator h l p f Hl))).
    assert (Hl' : (h ++ [Calibrator p None]) !! l = Some (Calibrator p f))
      by (by rewrite lookup_app_l).
    rewrite (run_bind_ok _ _ _ _ _
               (on_heap_run _ s _ _ _ (clone_calibrator _ l p f Hl'))).
    rewrite length_app, <- app_assoc. simpl.
    by replace (length h + 1) with (S (length h)) by lia.
  - unfold calibrator_fit, mbind, M_bind, get, update.
    rewrite lookup_app_r, Nat.sub_diag by lia. simpl. rewrite Hfit.
    rewrite lookup_app_r, Nat.sub_diag by lia. simpl.
    rewrite insert_app_r_alt, Nat.sub_diag by lia. done.
Qed.

End Calibration.

Section Generative.
Context `{Collaborators}.
Implicit Types h : heap.

(** X10. Generative mode for any [n_samples >= 0] and distributions that
    return as many rows as they are asked for.  When the two arrays have
    the same number of columns, the samples are the numerator's
    [n_samples // 2] rows followed by the denominator's [n_samples // 2]
    rows, the labels are [n_samples // 2] zeros followed by ones up to
    [n_samples] labels in all, and there are as many samples as labels
    exactly when [n_samples] is even.  When the numbers of columns
    differ, [np.vstack] raises a [ValueError] and there is no data; this
    includes [n_samples] 0 and 1, where the two arrays have no rows. *)
Theorem generative_mode_shapes
    (numerator denominator : dist) (n_samples : Z) (a b : array2) :
  (0 <= n_samples)%Z ->
  rvs numerator (n_samples / 2) = inl a ->
  rvs denominator (n_samples / 2) = inl b ->
  length (arr_rows a) = Z.to_nat (n_samples / 2) ->
  length (arr_rows b) = Z.to_nat (n_samples / 2) ->
  (shape1 a = shape1 b ->
   exists X y,
     generate numerator denominator n_samples = Ok (X, y) /\
     X = arr_rows a ++ arr_rows b /\
     y = repeat 0%Z (Z.to_nat (n_samples / 2))
         ++ repeat 1%Z (Z.to_nat n_samples - Z.to_nat (n_samples / 2)) /\
     length y = Z.to_nat n_samples /\
     (length X = length y <-> Z.even n_samples = true)) /\
  (shape1 a <> shape1 b ->
   generate numerator denominator n_samples
     = Err (Raise Numpy ValueError)).
Proof.
  intros Hn Ha Hb Hla Hlb. split.
  - intros Hw. eexists _, _. split; [by apply generate_blocks|].
    split; [done|]. split; [done|].
    assert (0 <= n_samples / 2 <= n_samples)%Z as [Hlo Hhi].
    { split; [apply Z.div_pos; lia|]. apply Z.div_le_upper_bound; lia. }
    split; [rewrite length_app, !repeat_length; lia|].
    by apply generate_lengths.
  - intros Hw. unfold generate. rewrite Ha, Hb. simpl. unfold np_vstack.
    by destruct (Nat.eqb_spec (shape1 a) (shape1 b)).
Qed.

Lemma select_first {A} (a b : list A) m :
  select (a ++ b) (repeat true (length a) ++ repeat false m) = a.
Proof.
  induction a as [|x a IH]; simpl.
  - revert m. induction b as [|x b IH]; intros [|m]; simpl; auto.
  - by rewrite IH.
Qed.

Lemma select_second {A} (a b : list A) :
  select (a ++ b) (repeat false (length a) ++ repeat true (length b)) = b.
Proof.
  induction a as [|x a IH]; simpl; [|done].
  induction b as [|x b IH]; simpl; [done|]. by rewrite IH.
Qed.

(** X11. For an even [n_samples >= 0] and two distributions whose
    arrays have as many rows as asked for and the same number of columns
    (as [np.vstack] needs, with or without rows), the labels of
    generative mode match the origin of the samples: selecting the
    samples with label 0 gives back exactly the rows drawn from the
    numerator, and label 1 the rows drawn from the denominator. *)
Theorem generative_mode_labels_match_origins
    (numerator denominator : dist) (n_samples : Z) (a b : array2) :
  (0 <= n_samples)%Z ->
  Z.even n_samples = true ->
  rvs numerator (n_samples / 2) = inl a ->
  rvs denominator (n_samples / 2) = inl b ->
  length (arr_rows a) = Z.to_nat (n_samples / 2) ->
  length (arr_rows b) = Z.to_nat (n_samples / 2) ->
  shape1 a = shape1 b ->
  exists X y,
    generate numerator denominator n_samples = Ok (X, y) /\
    np_mask X (np_eq y 0) = Ok (arr_rows a) /\
    np_mask X (np_eq y 1) = Ok (arr_rows b).
Proof.
  intros Hn Heven Ha Hb Hla Hlb Hw.
  eexists _, _. split; [by apply generate_blocks|].
  assert (0 <= n_samples / 2 <= n_samples)%Z as [Hlo Hhi].
  { split; [apply Z.div_pos; lia|]. apply Z.div_le_upper_bound; lia. }
  pose proof (Z.div_mod n_samples 2 ltac:(lia)) as Hdm.
  rewrite Zmod_even, Heven in Hdm.
  replace (Z.to_nat n_samples - Z.to_nat (n_samples / 2))
    with (Z.to_nat (n_samples / 2)) by lia.
  unfold np_mask, np_eq.
  rewrite !length_map, !length_app, !repeat_length, Hla, Hlb, Nat.eqb_refl.
  rewrite !map_app, !map_repeat. simpl.
  rewrite <- Hla at 1 3. rewrite <- Hlb at 2.
  by rewrite select_first, select_second.
Qed.

(** X12. A negative [n_samples] never yields data: whatever the
    distributions answer, generative mode raises (at the latest
    [np.zeros] does), the exception is not the argument error, and
    [fit] has then mutated nothing. *)
Theorem generative_mode_rejects_negative_n_samples
    (X : option matrix) (y : option labels)
    (numerator denominator : dist) (n_samples : Z)
    (s : CalibratedClassifierRatio) (h : heap) :
  (n_samples < 0)%Z ->
  ~ (is_Some X /\ is_Some y) ->
  exists e,
    generate numerator denominator n_samples = Err e /\
    err_origin e <> ArgumentCheck /\
    fit X y (Some numerator) (Some denominator) (Some n_samples) (s, h)
      = (Err e, (s, h)).
Proof.
  intros Hn HXy.
  assert (Hgen : exists e, generate numerator denominator n_samples = Err e).
  { unfold generate.
    destruct (call Collaborator (rvs numerator _)); simpl; [|by eexists].
    destruct (call Collaborator (rvs denominator _)); simpl; [|by eexists].
    destruct (np_vstack _ _); simpl; [|by eexists].
    unfold np_zeros_int. destruct (Z.ltb_spec n_samples 0); [|lia].
    by eexists. }
  destruct Hgen as [e He]. exists e. split; [done|].
  split; [by eapply generate_late|].
  assert (Hdata : fit_data X y (Some numerator) (Some denominator)
                    (Some n_samples) = Err e).
  { unfold fit_data. destruct X, y; try done.
    exfalso. apply HXy. by split. }
  unfold fit. apply run_bind_err. unfold pure_. by rewrite Hdata.
Qed.

End Generative.

Section Folds.
Context `{Collaborators}.
Implicit Types h : heap.

Lemma held_out_keeps h' h'' X y fold entry :
  held_out h' X y fold entry -> keeps (length h') h' h'' ->
  held_out h'' X y fold entry.
Proof.
  intros (hs & X_cal & y_cal & X0 & P0 & s0 & X1 & P1 & s1 & pn & pd &
          ? & ? & ? & ? & ? & ? & ? & ? & Hn & Hd & ? & Hlen & Hagree) Hk.
  exists hs, X_cal, y_cal, X0, P0, s0, X1, P1, s1, pn, pd.
  do 8 (split; [done|]).
  split. { rewrite (keeps_lookup _ _ _ _ Hk); [done|by eapply lookup_lt_Some]. }
  split. { rewrite (keeps_lookup _ _ _ _ Hk); [done|by eapply lookup_lt_Some]. }
  split; [done|]. split; [destruct Hk; lia|].
  intros l Hl Hl1 Hl2. rewrite (keeps_lookup _ _ _ _ Hk) by lia.
  by apply Hagree.
Qed.

Lemma entry_locs_snoc cls cals c k :
  length cls = length cals ->
  entry_locs (cls ++ [c]) (cals ++ [k]) = entry_locs cls cals ++ [c; k.1; k.2].
Proof.
  intros Hlen. unfold entry_locs.
  rewrite zip_with_app by done. rewrite concat_app. simpl.
  by rewrite ?app_nil_r.
Qed.

(** One pass of the loop: the entry it appends. *)
Lemma fit_fold_entry_spec base X y fold s h cls cals :
  classifiers_ s = Some cls ->
  calibrators_ s = Some cals ->
  wp (fit_fold base X y fold)
     (fun r w' =>
        keeps (length h) h w'.2 /\
        match r with
        | Ok _ =>
            exists c k,
              w'.1 = set_calibrators_ (cals ++ [k])
                       (set_classifiers_ (cls ++ [c]) s) /\
              length h <= c /\ c < k.1 /\ c < k.2 /\ k.1 <> k.2 /\
              k.1 < length w'.2 /\ k.2 < length w'.2 /\
              held_out w'.2 X y fold (c, k)
        | Err e => w'.1 = s
        end) (s, h).
Proof.
  intros Hcls Hcals. unfold fit_fold.
  apply wp_bind, wp_on_heap. simpl.
  eapply wp_mono; [apply clone_spec|].
  intros [c|e] h1 (ext & -> & Hpost); simpl.
  2:{ destruct Hpost as [Ho ->]. rewrite app_nil_r.
      split; [apply keeps_refl|done]. }
  destruct Hpost as [Hc Hcl].
  assert (Hk1 : keeps (length h) h (h ++ ext)) by (by apply keeps_app).
  apply wp_bind, wp_pure.
  destruct (np_take X fold.1) as [Xtr|e] eqn:EX; [|done].
  apply wp_bind, wp_pure.
  destruct (np_take y fold.1) as [ytr|e] eqn:Ey; [|done].
  apply wp_bind, wp_on_heap. simpl.
  eapply wp_mono; [apply (classifier_fit_spec (length h)); lia|].
  intros [[]|e] h2 [Hk2 Hpost]; simpl.
  2:{ split; [eauto using keeps_trans|done]. }
  assert (Hlen2 : length (h ++ ext) <= length h2) by apply Hk2.
  apply wp_bind. eapply wp_mono; [apply check_calibration_spec|].
  intros [[cn cd]|e] [s3 h3] (Hs & ext3 & Hh & Hpost3);
    simpl in *; subst s3 h3.
  2:{ split; [|done]. eapply keeps_trans; [exact Hk1|].
      eapply keeps_trans; [exact Hk2|]. apply keeps_app. lia. }
  destruct Hpost3 as (Hcn & Hcd & Hne).
  assert (Hk3 : keeps (length h) h (h2 ++ ext3)).
  { eapply keeps_trans; [exact Hk1|].
    eapply keeps_trans; [exact Hk2|]. apply keeps_app. lia. }
  apply wp_bind, wp_pure.
  destruct (np_take X fold.2) as [Xcal|e] eqn:EXc; [|done].
  apply wp_bind, wp_pure.
  destruct (np_take y fold.2) as [ycal|e] eqn:Eyc; [|done].
  eapply wp_mono;
    [by apply (calibrate_spec (length h2) c cn cd Xcal ycal s _ cls cals);
       try lia|].
  intros r [s4 h4] (Hk4 & Hl4 & Hagree & Hpost4); simpl in *.
  assert (Hk : keeps (length h) h h4).
  { eapply keeps_trans; [exact Hk3|]. eapply keeps_le; [|exact Hk4]. lia. }
  split; [done|]. destruct r as [[]|e]; [|by destruct Hpost4].
  destruct Hpost4 as (-> & X0 & P0 & s0 & X1 & P1 & s1 & pn & pd &
                      ? & ? & ? & ? & ? & ? & ? & ?).
  rewrite length_app in *.
  exists c, (cn, cd). simpl. split; [done|].
  do 4 (split; [lia|]). do 2 (split; [lia|]).
  exists (h2 ++ ext3), Xcal, ycal, X0, P0, s0, X1, P1, s1, pn, pd. simpl.
  do 10 (split; [done|]). rewrite length_app.
  split; [lia|]. split; [lia|]. intros l _ Hl1 Hl2. by apply Hagree.
Qed.

(** The loop over any list of folds: one entry per fold, made of objects
    of its own. *)
Lemma fit_loop_spec base X y l s h :
  classifiers_ s = Some [] ->
  calibrators_ s = Some [] ->
  wp (for_each l (fit_fold base X y))
     (fun r w' =>
        r = Ok tt ->
        length h <= length w'.2 /\
        exists cls cals,
          classifiers_ w'.1 = Some cls /\ calibrators_ w'.1 = Some cals /\
          length cls = length cals /\
          Forall2 (held_out w'.2 X y) l (zip cls cals) /\
          NoDup (entry_locs cls cals) /\
          Forall (fun l => length h <= l < length w'.2)
            (entry_locs cls cals)) (s, h).
Proof.
  intros Hcls Hcals.
  apply (wp_for_each
    (fun done_ (w' : world) =>
       length h <= length w'.2 /\
       exists cls cals,
         classifiers_ w'.1 = Some cls /\ calibrators_ w'.1 = Some cals /\
         length cls = length cals /\
         Forall2 (held_out w'.2 X y) done_ (zip cls cals) /\
         NoDup (entry_locs cls cals) /\
         Forall (fun l => length h <= l < length w'.2)
           (entry_locs cls cals))).
  - split; [done|]. exists [], []. repeat split; try done; constructor.
  - intros done_ fold [s1 h1] (Hlen & cls & cals & Hc1 & Hk1 & Hl & HF & Hnd & Hb).
    simpl in *.
    eapply wp_mono;
      [by apply (fit_fold_entry_spec base X y fold s1 h1 cls cals)|].
    intros r [s2 h2] [Hk2 Hpost]; simpl in *.
    destruct r as [[]|e]; [|done].
    destruct Hpost as (c' & k & -> & Hc' & Hck1 & Hck2 & Hne & Hb1 & Hb2 & Hho).
    assert (Hlen2 : length h1 <= length h2) by apply Hk2.
    split; [lia|].
    exists (cls ++ [c']), (cals ++ [k]).
    do 2 (split; [done|]). split; [rewrite !length_app; simpl; lia|].
    split.
    { rewrite zip_with_app by done. apply Forall2_app.
      - eapply Forall2_impl; [exact HF|]. intros f' e' He'.
        by eapply held_out_keeps.
      - by repeat constructor. }
    rewrite entry_locs_snoc by done. split.
    + apply NoDup_app. split; [done|]. split.
      * intros l0 Hl1 Hl2. apply (proj1 (Forall_forall _ _) Hb) in Hl1.
        apply elem_of_cons in Hl2 as [->|Hl2]; [lia|].
        apply elem_of_cons in Hl2 as [->|Hl2]; [lia|].
        apply list_elem_of_singleton in Hl2 as ->. lia.
      * apply NoDup_cons. split.
        { intros Hin. apply elem_of_cons in Hin as [->|Hin]; [lia|].
          apply list_elem_of_singleton in Hin. lia. }
        apply NoDup_cons. split; [|apply NoDup_singleton].
        intros Hin. apply list_elem_of_singleton in Hin. done.
    + apply Forall_app. split.
      * eapply Forall_impl; [exact Hb|]. simpl. intros. lia.
      * repeat constructor; lia.
  - intros [s' h'] HI _. exact HI.
Qed.

(** The loop over the folds that [cv] yields. *)
Lemma fit_ensemble_entries_spec base X y s h c :
  classifiers_ s = Some [] ->
  calibrators_ s = Some [] ->
  cv s = Cv c ->
  wp (fit_ensemble base X y)
     (fun r w' =>
        r = Ok tt ->
        exists cls cals,
          classifiers_ w'.1 = Some cls /\ calibrators_ w'.1 = Some cals /\
          Forall2 (held_out w'.2 X y) (cv_split c X y).1 (zip cls cals) /\
          NoDup (entry_locs cls cals) /\
          Forall (fun l => length h <= l < length w'.2)
            (entry_locs cls cals)) (s, h).
Proof.
  intros Hcls Hcals Hcv. unfold fit_ensemble.
  apply wp_bind, wp_self. simpl. rewrite Hcv.
  apply wp_bind.
  eapply wp_mono; [by apply (fit_loop_spec base X y _ s h)|].
  intros [[]|e] w' HQ; [|done].
  destruct (cv_split c X y).2; [by apply wp_raise|].
  apply wp_ret. intros _.
  destruct (HQ eq_refl) as (_ & cls & cals & ? & ? & ? & ? & ? & ?).
  by exists cls, cals.
Qed.

Lemma fit_entries_spec X y numerator denominator n_samples s h c Xy :
  fit_data X y numerator denominator n_samples = Ok Xy ->
  cv s = Cv c ->
  wp (fit X y numerator denominator n_samples)
     (fun r w' =>
        r = Ok tt ->
        exists cls cals,
          classifiers_ w'.1 = Some cls /\ calibrators_ w'.1 = Some cals /\
          Forall2 (held_out w'.2 Xy.1 Xy.2) (cv_split c Xy.1 Xy.2).1
            (zip cls cals) /\
          NoDup (entry_locs cls cals) /\
          Forall (fun l => length h <= l < length w'.2)
            (entry_locs cls cals)) (s, h).
Proof.
  intros Hdata Hcv. unfold fit. apply wp_bind, wp_pure. rewrite Hdata.
  apply wp_bind, wp_set_self. apply wp_bind, wp_set_self.
  apply wp_bind, wp_self. apply wp_bind, wp_read. simpl.
  destruct (is_regressor h (base_estimator s)).
  - apply wp_bind, wp_on_heap, wp_alloc. simpl.
    eapply wp_mono; [by apply (fit_ensemble_entries_spec _ _ _ _ _ c)|].
    intros r w' Hpost Hr.
    destruct (Hpost Hr) as (cls & cals & ? & ? & ? & ? & Hb).
    exists cls, cals. do 4 (split; [done|]).
    eapply Forall_impl; [exact Hb|]. simpl. intros l.
    rewrite length_app. simpl. lia.
  - apply wp_bind, wp_ret.
    eapply wp_mono; [by apply (fit_ensemble_entries_spec _ _ _ _ _ c)|].
    done.
Qed.

(** X13. After a successful cross-validated [fit], the calibrators of
    each entry were fitted on held-out scores: on column 0 of what that
    entry's own classifier predicts, once fitted, for the samples of the
    fold's calibrate subset, the numerator calibrator on those with label
    0 and the denominator calibrator on those with label 1. *)
Theorem fit_calibrates_each_fold_on_held_out_scores
    (X : option matrix) (y : option labels)
    (numerator denominator : option dist) (n_samples : option Z)
    (s : CalibratedClassifierRatio) (h : heap) (c : cv_arg)
    (w' : world) (X' : matrix) (y' : labels) :
  fit X y numerator denominator n_samples (s, h) = (Ok tt, w') ->
  fit_data X y numerator denominator n_samples = Ok (X', y') ->
  cv s = Cv c ->
  exists cls cals,
    classifiers_ w'.1 = Some cls /\
    calibrators_ w'.1 = Some cals /\
    Forall2 (held_out w'.2 X' y') (cv_split c X' y').1 (zip cls cals).
Proof.
  intros Hrun Hdata Hcv.
  destruct (wp_run _ _ _ _ _ Hrun
              (fit_entries_spec X y numerator denominator n_samples s h c
                 _ Hdata Hcv) eq_refl)
    as (cls & cals & ? & ? & ? & _).
  by exists cls, cals.
Qed.

(** X14. After a successful cross-validated [fit], every entry is made of
    three objects of its own, created during the call: no classifier or
    calibrator is shared between two entries, the two calibrators of an
    entry are different objects, and none of them existed before. *)
Theorem fit_entries_are_separate_new_objects
    (X : option matrix) (y : option labels)
    (numerator denominator : option dist) (n_samples : option Z)
    (s : CalibratedClassifierRatio) (h : heap) (c : cv_arg)
    (w' : world) (X' : matrix) (y' : labels) :
  fit X y numerator denominator n_samples (s, h) = (Ok tt, w') ->
  fit_data X y numerator denominator n_samples = Ok (X', y') ->
  cv s = Cv c ->
  exists cls cals,
    classifiers_ w'.1 = Some cls /\
    calibrators_ w'.1 = Some cals /\
    NoDup (entry_locs cls cals) /\
    Forall (fun l => length h <= l < length w'.2) (entry_locs cls cals).
Proof.
  intros Hrun Hdata Hcv.
  destruct (wp_run _ _ _ _ _ Hrun
              (fit_entries_spec X y numerator denominator n_samples s h c
                 _ Hdata Hcv) eq_refl)
    as (cls & cals & ? & ? & _ & ? & ?).
  by exists cls, cals.
Qed.

End Folds.

(** * A failed [fit] *)

Section Failure.
Context `{Collaborators}.
Implicit Types h : heap.
Implicit Types s : CalibratedClassifierRatio.

(** A loop that raises does so in the pass for one of its elements, after
    the passes for the elements before it. *)
Lemma for_each_raises {S A} (body : A -> M S unit) l (st : S) e st' :
  for_each l body st = (Err e, st') ->
  exists k x sk,
    l !! k = Some x /\
    for_each (take k l) body st = (Ok tt, sk) /\
    body x sk = (Err e, st').
Proof.
  revert st. induction l as [|a l IH]; intros st; simpl; [done|].
  unfold mbind at 1, M_bind at 1.
  destruct (body a st) as [[[]|e1] s1] eqn:Ea.
  - intros Hrun. destruct (IH _ Hrun) as (k & x & sk & Hk & Hpre & Hx).
    exists (Datatypes.S k), x, sk. split; [done|]. split; [|done].
    simpl. unfold mbind at 1, M_bind at 1. by rewrite Ea.
  - intros [= <- <-]. exists 0, a, st. by repeat split.
Qed.

Lemma loop_entry_params s s2 h :
  same_params s s2 -> loop_entry s h = loop_entry s2 h.
Proof.
  intros (Hb & Hc & Hcv & Hd). unfold loop_entry, set_calibrators_,
    set_classifiers_. simpl. by rewrite Hb, Hc, Hcv, Hd.
Qed.

(** [fit] from the point where its data are known. *)
Lemma fit_run X y numerator denominator n_samples s h Xy :
  fit_data X y numerator denominator n_samples = Ok Xy ->
  fit X y numerator denominator n_samples (s, h)
  = fit_ensemble (loop_entry s h).1 Xy.1 Xy.2 (loop_entry s h).2.
Proof.
  intros Hdata. unfold fit, loop_entry.
  unfold mbind at 1, M_bind at 1, pure_. rewrite Hdata.
  unfold mbind at 1, M_bind at 1, set_self. simpl.
  unfold mbind at 1, M_bind at 1. simpl.
  unfold mbind at 1, M_bind at 1, self_. simpl.
  unfold mbind at 1, M_bind at 1, read. simpl.
  unfold mbind at 1, M_bind at 1.
  by destruct (is_regressor h (base_estimator s)).
Qed.

(** What the loop over the folds leaves, whether it completes or not. *)
Lemma fit_loop_stops base X y c s h r w' :
  classifiers_ s = Some [] ->
  calibrators_ s = Some [] ->
  cv s = Cv c ->
  fit_ensemble base X y (s, h) = (r, w') ->
  exists cls cals,
    classifiers_ w'.1 = Some cls /\ calibrators_ w'.1 = Some cals /\
    length cls = length cals /\
    length cls <= length (cv_split c X y).1 /\
    Forall2 (held_out w'.2 X y) (take (length cls) (cv_split c X y).1)
      (zip cls cals) /\
    Forall (fun l => length h <= l) (entry_locs cls cals) /\
    match r with
    | Ok _ => (cv_split c X y).2 = None /\
              length cls = length (cv_split c X y).1
    | Err e => stops_after (length cls) base X y (cv_split c X y).1
                 (cv_split c X y).2 (s, h) e w'
    end.
Proof.
  intros Hcls Hcals Hcv. unfold fit_ensemble.
  unfold mbind at 1, M_bind at 1, self_. simpl. rewrite Hcv.
  set (folds := (cv_split c X y).1). set (stop := (cv_split c X y).2).
  unfold mbind at 1, M_bind at 1.
  destruct (for_each folds (fit_fold base X y) (s, h)) as [[[]|e1] w1] eqn:Hloop.
  - (* every pass completes *)
    destruct (wp_run _ _ _ _ _ Hloop (fit_loop_spec base X y folds s h
                Hcls Hcals) eq_refl)
      as (_ & cls & cals & Hc1 & Hk1 & Hlen & HF & _ & Hb).
    assert (Hn : length cls = length folds).
    { apply Forall2_length in HF. rewrite length_zip_with in HF. lia. }
    assert (Hnew : Forall (fun l => length h <= l) (entry_locs cls cals)).
    { eapply Forall_impl; [exact Hb|]. simpl. intros. lia. }
    destruct stop as [x|] eqn:Hstop.
    + intros [= <- <-]. exists cls, cals. do 3 (split; [done|]).
      split; [lia|]. rewrite Hn, firstn_all. do 2 (split; [done|]).
      exists w1. rewrite firstn_all. do 3 (split; [done|]).
      rewrite lookup_ge_None_2 by lia. by exists x.
    + intros [= <- <-]. exists cls, cals. do 3 (split; [done|]).
      split; [lia|]. rewrite Hn, firstn_all. by repeat split.
  - (* a pass raises *)
    intros [= <- <-].
    destruct (for_each_raises _ _ _ _ _ Hloop)
      as (k & fold & [sk hk] & Hfold & Hpre & Hpass).
    destruct (wp_run _ _ _ _ _ Hpre (fit_loop_spec base X y (take k folds)
                s h Hcls Hcals) eq_refl)
      as (Hhk & cls & cals & Hc1 & Hk1 & Hlen & HF & _ & Hb).
    simpl in *.
    pose proof (lookup_lt_Some _ _ _ Hfold) as Hk.
    assert (Hn : length cls = k).
    { apply Forall2_length in HF.
      rewrite length_zip_with, length_take in HF. lia. }
    destruct (wp_run _ _ _ _ _ Hpass
                (fit_fold_entry_spec base X y fold sk hk cls cals Hc1 Hk1))
      as [Hkeep Hs].
    simpl in Hs. rewrite Hs.
    exists cls, cals. do 3 (split; [done|]). split; [lia|]. rewrite Hn.
    split.
    { eapply Forall2_impl; [exact HF|]. intros f' e' He'.
      by eapply held_out_keeps. }
    split. { eapply Forall_impl; [exact Hb|]. simpl. intros. lia. }
    exists (sk, hk). simpl. rewrite Hs, Hfold. by repeat split.
Qed.

(** C3, amended. [fit] either completes with a fully populated ensemble
    (one entry when [cv] is "prefit", one per fold otherwise) or raises.
    When it raises while working out its data (the argument check, or the
    sampling of generative mode) nothing has been mutated.  Otherwise, also
    when it raises later, no object that existed before the call was
    modified and the previous ensemble is discarded: the run, its result
    and the world it leaves are the same whatever [classifiers_] and
    [calibrators_] held before, and the two lists hold objects made
    during the call only (the caller's classifier, with "prefit").  After
    a late failure the two lists hold, in equal numbers, exactly the
    entries of the folds completed before the failure: none with
    "prefit"; otherwise, when the pass for fold number [k + 1] raises
    (or the splitter, after the last fold), the [k] entries that the
    passes for the first [k] folds appended, each with a clone of the
    base estimator fitted on the train subset of its fold and two
    calibrators fitted on the scores of its calibrate subset. *)
Theorem fit_failure_leaves_completed_folds
    (X : option matrix) (y : option labels)
    (numerator denominator : option dist) (n_samples : option Z)
    (s : CalibratedClassifierRatio) (h : heap) :
  let r := (fit X y numerator denominator n_samples (s, h)).1 in
  let w' := (fit X y numerator denominator n_samples (s, h)).2 in
  match fit_data X y numerator denominator n_samples with
  | Err e => r = Err e /\ w' = (s, h)
  | Ok Xy =>
      same_params s w'.1 /\ keeps (length h) h w'.2 /\
      (forall s2, same_params s s2 ->
         fit X y numerator denominator n_samples (s2, h) = (r, w')) /\
      exists cls cals,
        classifiers_ w'.1 = Some cls /\ calibrators_ w'.1 = Some cals /\
        length cls = length cals /\
        match cv s with
        | Prefit =>
            match r with
            | Ok _ =>
                cls = [base_estimator s] /\
                exists k, cals = [k] /\
                  calibrated_on_all h w'.2 (base_estimator s) Xy.1 Xy.2 k
            | Err _ => cls = [] /\ cals = []
            end
        | Cv c =>
            let folds := (cv_split c Xy.1 Xy.2).1 in
            let stop := (cv_split c Xy.1 Xy.2).2 in
            length cls <= length folds /\
            Forall2
              (fold_classifier (fitted_clone h (base_estimator s) w'.2)
                 (length h) Xy.1 Xy.2)
              (take (length cls) folds) cls /\
            Forall2 (held_out w'.2 Xy.1 Xy.2) (take (length cls) folds)
              (zip cls cals) /\
            Forall (fun l => length h <= l) (entry_locs cls cals) /\
            match r with
            | Ok _ => stop = None /\ length cls = length folds
            | Err e =>
                stops_after (length cls) (loop_entry s h).1 Xy.1 Xy.2
                  folds stop (loop_entry s h).2 e w'
            end
        end
  end.
Proof.
  pose proof (fit_spec X y numerator denominator n_samples s h) as Hspec.
  unfold wp in Hspec. simpl.
  destruct (fit_data X y numerator denominator n_samples) as [Xy|e] eqn:Hdata;
    [|done].
  destruct Hspec as (Hp & Hk & cls & cals & Hc & Hcal & Hlen & _ & Hpost).
  split; [done|]. split; [done|]. split.
  { intros s2 Hs2.
    rewrite (fit_run _ _ _ _ _ s2 h Xy Hdata), <- (loop_entry_params s s2 h Hs2).
    rewrite <- (fit_run _ _ _ _ _ s h Xy Hdata).
    by destruct (fit _ _ _ _ _ _). }
  exists cls, cals. do 3 (split; [done|]).
  destruct (cv s) as [|c] eqn:Hcv.
  - destruct (fit _ _ _ _ _ _).1.
    + by destruct Hpost as (_ & ? & ?).
    + destruct Hpost as [-> _]. split; [done|]. by destruct cals.
  - destruct Hpost as (HF & Hle & _). simpl.
    pose proof (fit_run _ _ _ _ _ s h Xy Hdata) as Hrun.
    destruct (fit X y numerator denominator n_samples (s, h)) as [r w'] eqn:E.
    simpl in *. symmetry in Hrun.
    assert (Hcv0 : cv (loop_entry s h).2.1 = Cv c).
    { unfold loop_entry. by destruct (is_regressor _ _). }
    destruct (fit_loop_stops (loop_entry s h).1 Xy.1 Xy.2 c
                (loop_entry s h).2.1 (loop_entry s h).2.2 r w')
      as (cls' & cals' & Hc' & Hcal' & _ & _ & Hho & Hnew & Hr);
      try done.
    { unfold loop_entry. by destruct (is_regressor _ _). }
    { unfold loop_entry. by destruct (is_regressor _ _). }
    { by destruct (loop_entry s h) as [b [s0 h0]]. }
    assert (cls' = cls) by congruence. assert (cals' = cals) by congruence.
    subst cls' cals'.
    split; [done|]. split; [done|]. split; [done|]. split.
    { eapply Forall_impl; [exact Hnew|]. simpl. intros l Hl.
      unfold loop_entry in Hl.
      destruct (is_regressor _ _); simpl in Hl; [|done].
      rewrite length_app in Hl. simpl in Hl. lia. }
    destruct r as [[]|e]; [done|].
    by destruct (loop_entry s h) as [b [s0 h0]].
Qed.

End Failure.

(** * Runs of the further properties *)

Section MoreRuns.
#[local] Existing Instance Toy.collaborators.
Import Toy.

(** Two samples with the labels 3 and 7. *)
Lemma wrap_fit_fits_a_clone_on_encoded_labels_witness :
  let h := [Regressor 0%R None; WrapAsClassifier 0 None None] in
  let X := [[0]; [1]]%R in
  let y := [3; 7]%Z in
  h !! 1 = Some (WrapAsClassifier 0 None None) /\
  h !! 0 = Some (Regressor 0%R None) /\
  check_X_y X y = inl (X, y) /\
  length (np_unique y) = 2 /\
  reg_fit 0%R X (encode (np_unique y) y) = None /\
  exists h',
    WrapAsClassifier_fit 1 X y h = (Ok tt, h') /\
    h' !! 1 = Some (WrapAsClassifier 0 (Some [3; 7]%Z) (Some 2)) /\
    h' !! 0 = Some (Regressor 0%R None).
Proof.
  intros h X y.
  assert (H1 : h !! 1 = Some (WrapAsClassifier 0 None None)) by reflexivity.
  assert (H2 : h !! 0 = Some (Regressor 0%R None)) by reflexivity.
  assert (H3 : check_X_y X y = inl (X, y)) by reflexivity.
  assert (H4 : length (np_unique y) = 2) by reflexivity.
  assert (H5 : reg_fit 0%R X (encode (np_unique y) y) = None)
    by reflexivity.
  do 5 (split; [assumption|]).
  destruct (wrap_fit_fits_a_clone_on_encoded_labels h 1 0 None None 0%R None
              X X y y H1 H2 H3 H4 H5)
    as (h' & a & b & Hrun & Hu & _ & _ & _ & _ & Hself & _ & Hrest).
  exists h'. split; [exact Hrun|].
  injection Hu as <- <-. split; [exact Hself|].
  rewrite (Hrest 0); [reflexivity|simpl; lia|lia].
Defined.

(** A regressor that answers 2: the label is the second class. *)
Lemma wrap_predict_thresholds_regressor_output_witness :
  let h := [Regressor 2%R (Some ([], []));
            WrapAsClassifier 0 (Some [3; 7]%Z) (Some 0)] in
  h !! 1 = Some (WrapAsClassifier 0 (Some [3; 7]%Z) (Some 0)) /\
  check_array [[0%R]] = inl [[0%R]] /\
  regressor_predict h 0 [[0%R]] = Ok [2%R] /\
  length [2%R] = length [[0%R]] /\
  WrapAsClassifier_predict h 1 [[0%R]] = Ok [7%Z].
Proof.
  intros h.
  assert (H1 : h !! 1 = Some (WrapAsClassifier 0 (Some [3; 7]%Z) (Some 0)))
    by reflexivity.
  assert (H2 : check_array [[0%R]] = inl [[0%R]]) by reflexivity.
  assert (H3 : regressor_predict h 0 [[0%R]] = Ok [2%R]) by reflexivity.
  assert (H4 : length [2%R] = length [[0%R]]) by reflexivity.
  do 4 (split; [assumption|]).
  destruct (wrap_predict_thresholds_regressor_output h 1 [[0%R]] [[0%R]]
              0 3%Z 7%Z 0 [2%R] H1 H2 H3 H4) as (labels & Hrun & _ & Hdec).
  rewrite Hrun. f_equal.
  inversion Hdec as [|x l p labels' [Hhigh _] Hrest]; subst.
  inversion Hrest; subst. f_equal. apply Hhigh. lra.
Defined.

(** A wrapper that was never fitted. *)
Lemma unfitted_wrapper_cannot_predict_witness :
  let h := [Regressor 0%R None; WrapAsClassifier 0 None None] in
  h !! 1 = Some (WrapAsClassifier 0 None None) /\
  WrapAsClassifier_predict_proba h 1 [[0%R]]
    = Err (Raise Interpreter AttributeError) /\
  WrapAsClassifier_predict h 1 [[0%R]]
    = Err (Raise Interpreter AttributeError).
Proof.
  intros h.
  assert (H1 : h !! 1 = Some (WrapAsClassifier 0 None None)) by reflexivity.
  split; [assumption|].
  exact (unfitted_wrapper_cannot_predict h 1 0 None [[0%R]] H1).
Defined.

(** Fitted on the labels 3 and 7, the regressor answers 0: the label is
    the first class. *)
Lemma wrap_fit_then_predict_returns_training_labels_witness :
  let h := [Regressor 0%R None; WrapAsClassifier 0 None None] in
  let X := [[0]; [1]]%R in
  let y := [3; 7]%Z in
  h !! 1 = Some (WrapAsClassifier 0 None None) /\
  h !! 0 = Some (Regressor 0%R None) /\
  check_X_y X y = inl (X, y) /\
  length (np_unique y) = 2 /\
  reg_fit 0%R X (encode (np_unique y) y) = None /\
  check_array [[5%R]] = inl [[5%R]] /\
  reg_predict 0%R (Some (X, encode (np_unique y) y)) [[5%R]] = inl [0%R] /\
  length [0%R] = length [[5%R]] /\
  WrapAsClassifier_predict (WrapAsClassifier_fit 1 X y h).2 1 [[5%R]]
    = Ok [3%Z].
Proof.
  intros h X y.
  assert (H1 : h !! 1 = Some (WrapAsClassifier 0 None None)) by reflexivity.
  assert (H2 : h !! 0 = Some (Regressor 0%R None)) by reflexivity.
  assert (H3 : check_X_y X y = inl (X, y)) by reflexivity.
  assert (H4 : length (np_unique y) = 2) by reflexivity.
  assert (H5 : reg_fit 0%R X (encode (np_unique y) y) = None)
    by reflexivity.
  assert (H6 : check_array [[5%R]] = inl [[5%R]]) by reflexivity.
  assert (H7 : reg_predict 0%R (Some (X, encode (np_unique y) y)) [[5%R]]
               = inl [0%R]) by reflexivity.
  assert (H8 : length [0%R] = length [[5%R]]) by reflexivity.
  do 8 (split; [assumption|]).
  destruct (wrap_fit_then_predict_returns_training_labels h 1 0 None None
              0%R None X X y y [[5%R]] [[5%R]] [0%R]
              H1 H2 H3 H4 H5 H6 H7 H8)
    as (labels & a & b & Hu & Hrun & _ & _ & Hdec).
  rewrite Hrun. f_equal. injection Hu as <- <-.
  inversion Hdec as [|x l p labels' [_ Hlow] Hrest]; subst.
  inversion Hrest; subst. f_equal. apply Hlow. lra.
Defined.

(** An ensemble of one entry asked at two points. *)
Lemma predict_returns_one_value_per_sample_witness :
  exists r,
    predict (with_ensemble [0] [(1, 2)], fitted_store) [[0]; [1]]%R false
      = Ok r /\
    length r = 2.
Proof.
  eexists. split; [vm_compute; reflexivity|].
  apply (predict_returns_one_value_per_sample
           (with_ensemble [0] [(1, 2)], fitted_store) [[0]; [1]]%R false).
  vm_compute. reflexivity.
Defined.

(** The second entry's classifier is not fitted. *)
Lemma predict_raises_at_the_first_failing_entry_witness :
  let w := (with_ensemble [0; 4; 3] [(1, 2); (1, 2); (1, 2)], fitted_store) in
  zip [0; 4; 3] [(1, 2); (1, 2); (1, 2)]
    = [(0, (1, 2))] ++ (4, (1, 2)) :: [(3, (1, 2))] /\
  contribution fitted_store [[0%R]] true (4, (1, 2))
    = Err (Raise Collaborator RuntimeError) /\
  predict w [[0%R]] true = Err (Raise Collaborator RuntimeError).
Proof.
  intros w.
  assert (Hzip : zip [0; 4; 3] [(1, 2); (1, 2); (1, 2)]
                 = [(0, (1, 2))] ++ (4, (1, 2)) :: [(3, (1, 2))])
    by reflexivity.
  assert (He : contribution fitted_store [[0%R]] true (4, (1, 2))
               = Err (Raise Collaborator RuntimeError)) by reflexivity.
  do 2 (split; [assumption|]).
  apply (predict_raises_at_the_first_failing_entry w [[0%R]] true
           [0; 4; 3] [(1, 2); (1, 2); (1, 2)]
           [(0, (1, 2))] [(3, (1, 2))] (4, (1, 2)) _ eq_refl eq_refl Hzip);
    [|exact He].
  repeat constructor. eexists. split; reflexivity.
Defined.

(** A fitted calibrator as the template. *)
Lemma check_calibration_clones_the_template_twice_witness :
  let h := [Calibrator tt (Some [[0%R]])] in
  let s := {| base_estimator := 0; calibration := CalibrationEstimator 0;
              cv := Prefit; decompose := false;
              classifiers_ := None; calibrators_ := None |} in
  calibration s = CalibrationEstimator 0 /\
  h !! 0 = Some (Calibrator tt (Some [[0%R]])) /\
  cal_fit tt [[1%R]] = None /\
  _check_calibration (s, h)
    = (Ok (1, 2), (s, h ++ [Calibrator tt None; Calibrator tt None])).
Proof.
  intros h s.
  assert (H1 : calibration s = CalibrationEstimator 0) by reflexivity.
  assert (H2 : h !! 0 = Some (Calibrator tt (Some [[0%R]]))) by reflexivity.
  assert (H3 : cal_fit tt [[1%R]] = None) by reflexivity.
  do 3 (split; [assumption|]).
  exact (proj1 (check_calibration_clones_the_template_twice s h 0 tt
                  (Some [[0%R]]) [[1%R]] H1 H2 H3)).
Defined.

(** Five samples asked of two point distributions. *)
Lemma generative_mode_shapes_witness :
  let a := Array2 (repeat [0%R] 2) 1 in
  let b := Array2 (repeat [1%R] 2) 1 in
  (0 <= 5)%Z /\
  rvs [0%R] (5 / 2) = inl a /\
  rvs [1%R] (5 / 2) = inl b /\
  length (arr_rows a) = Z.to_nat (5 / 2) /\
  length (arr_rows b) = Z.to_nat (5 / 2) /\
  shape1 a = shape1 b /\
  exists X y,
    generate [0%R] [1%R] 5 = Ok (X, y) /\
    length X = 4 /\ length y = 5 /\ length X <> length y.
Proof.
  intros a b.
  assert (H1 : (0 <= 5)%Z) by lia.
  assert (H2 : rvs [0%R] (5 / 2) = inl a) by reflexivity.
  assert (H3 : rvs [1%R] (5 / 2) = inl b) by reflexivity.
  assert (H4 : length (arr_rows a) = Z.to_nat (5 / 2)) by reflexivity.
  assert (H5 : length (arr_rows b) = Z.to_nat (5 / 2)) by reflexivity.
  assert (H6 : shape1 a = shape1 b) by reflexivity.
  do 6 (split; [assumption|]).
  destruct (proj1 (generative_mode_shapes _ _ 5 a b H1 H2 H3 H4 H5) H6)
    as (X & y & Hrun & HX & _ & Hy & Hiff).
  exists X, y. split; [exact Hrun|].
  split; [rewrite HX; reflexivity|]. split; [exact Hy|].
  intros Heq. apply Hiff in Heq. discriminate Heq.
Defined.

(** No sample, or one, asked of a distribution over one feature and a
    distribution over two: the two arrays without rows do not stack.  Two
    distributions over one feature give no samples and no labels. *)
Example generative_mode_stacks_arrays_without_rows :
  generate [0%R] [1%R; 2%R] 0 = Err (Raise Numpy ValueError) /\
  generate [0%R] [1%R; 2%R] 1 = Err (Raise Numpy ValueError) /\
  generate [0%R] [1%R] 0 = Ok ([], []).
Proof. repeat split; reflexivity. Qed.

(** Four samples: two of each origin. *)
Lemma generative_mode_labels_match_origins_witness :
  let a := Array2 (repeat [0%R] 2) 1 in
  let b := Array2 (repeat [1%R] 2) 1 in
  (0 <= 4)%Z /\
  Z.even 4 = true /\
  rvs [0%R] (4 / 2) = inl a /\
  rvs [1%R] (4 / 2) = inl b /\
  length (arr_rows a) = Z.to_nat (4 / 2) /\
  length (arr_rows b) = Z.to_nat (4 / 2) /\
  shape1 a = shape1 b /\
  exists X y,
    generate [0%R] [1%R] 4 = Ok (X, y) /\
    np_mask X (np_eq y 0) = Ok (arr_rows a) /\
    np_mask X (np_eq y 1) = Ok (arr_rows b).
Proof.
  intros a b.
  assert (H1 : (0 <= 4)%Z) by lia.
  assert (H0 : Z.even 4 = true) by reflexivity.
  assert (H2 : rvs [0%R] (4 / 2) = inl a) by reflexivity.
  assert (H3 : rvs [1%R] (4 / 2) = inl b) by reflexivity.
  assert (H4 : length (arr_rows a) = Z.to_nat (4 / 2)) by reflexivity.
  assert (H5 : length (arr_rows b) = Z.to_nat (4 / 2)) by reflexivity.
  assert (H6 : shape1 a = shape1 b) by reflexivity.
  do 7 (split; [assumption|]).
  exact (generative_mode_labels_match_origins _ _ 4 a b
           H1 H0 H2 H3 H4 H5 H6).
Defined.

(** [n_samples = -1]. *)
Lemma generative_mode_rejects_negative_n_samples_witness :
  let w := (estimator Prefit, [Classifier tt (Some ([], []))]) in
  (-1 < 0)%Z /\
  ~ (is_Some (None : option (list (list R)))
     /\ is_Some (None : option (list Z))) /\
  exists e,
    fit None None (Some [0%R]) (Some [1%R]) (Some (-1)%Z) w = (Err e, w).
Proof.
  intros w.
  assert (H1 : (-1 < 0)%Z) by lia.
  assert (H2 : ~ (is_Some (None : option (list (list R)))
                  /\ is_Some (None : option (list Z)))).
  { intros [[x Hx] _]. discriminate Hx. }
  do 2 (split; [assumption|]).
  destruct (generative_mode_rejects_negative_n_samples None None
              ([0%R] : @dist collaborators) ([1%R] : @dist collaborators)
              (-1) w.1 w.2 H1 H2) as (e & _ & _ & Hrun).
  exists e. exact Hrun.
Defined.

(** The successful run over three folds. *)
Lemma fit_calibrates_each_fold_on_held_out_scores_witness :
  let w := (estimator three_folds, [Classifier tt None]) in
  let X := six_samples in
  let y := [0; 1; 0; 1; 0; 1]%Z in
  let w' := (fit (Some X) (Some y) None None None w).2 in
  fit (Some X) (Some y) None None None w = (Ok tt, w') /\
  fit_data (Some X) (Some y) None None None = Ok (X, y) /\
  cv w.1 = three_folds /\
  exists cls cals,
    classifiers_ w'.1 = Some cls /\
    calibrators_ w'.1 = Some cals /\
    length (zip cls cals) = 3.
Proof.
  intros w X y w'.
  assert (H1 : fit (Some X) (Some y) None None None w = (Ok tt, w'))
    by (vm_compute; reflexivity).
  assert (H2 : fit_data (Some X) (Some y) (None : option (list R)) None None
               = Ok (X, y)) by reflexivity.
  assert (H3 : cv w.1 = three_folds) by reflexivity.
  do 3 (split; [assumption|]).
  destruct (fit_calibrates_each_fold_on_held_out_scores
              (Some X) (Some y) None None None w.1 w.2 _ w' X y H1 H2 H3)
    as (cls & cals & Hc & Hk & HF).
  exists cls, cals. split; [exact Hc|]. split; [exact Hk|].
  apply Forall2_length in HF. rewrite <- HF. reflexivity.
Defined.

Lemma fit_entries_are_separate_new_objects_witness :
  let w := (estimator three_folds, [Classifier tt None]) in
  let X := six_samples in
  let y := [0; 1; 0; 1; 0; 1]%Z in
  let w' := (fit (Some X) (Some y) None None None w).2 in
  fit (Some X) (Some y) None None None w = (Ok tt, w') /\
  fit_data (Some X) (Some y) None None None = Ok (X, y) /\
  cv w.1 = three_folds /\
  exists cls cals,
    classifiers_ w'.1 = Some cls /\
    calibrators_ w'.1 = Some cals /\
    NoDup (entry_locs cls cals).
Proof.
  intros w X y w'.
  assert (H1 : fit (Some X) (Some y) None None None w = (Ok tt, w'))
    by (vm_compute; reflexivity).
  assert (H2 : fit_data (Some X) (Some y) (None : option (list R)) None None
               = Ok (X, y)) by reflexivity.
  assert (H3 : cv w.1 = three_folds) by reflexivity.
  do 3 (split; [assumption|]).
  destruct (fit_entries_are_separate_new_objects
              (Some X) (Some y) None None None w.1 w.2 _ w' X y H1 H2 H3)
    as (cls & cals & Hc & Hk & Hnd & _).
  exists cls, cals. split; [exact Hc|]. split; [exact Hk|exact Hnd].
Defined.

End MoreRuns.

Section StrictRuns.
#[local] Existing Instance Toy.strict_collaborators.
Import Toy.

(** A wrapper fitted earlier on the labels 1 and 2 is fitted again, on
    two samples with the labels 3 and 7; the regressor needs three. *)
Lemma wrap_fit_regressor_failure_keeps_new_classes_witness :
  let h := [Regressor 0%R None;
            WrapAsClassifier 0 (Some [1; 2]%Z) (Some 2);
            Regressor 0%R (Some ([], []))] in
  let X := [[0]; [1]]%R in
  let y := [3; 7]%Z in
  h !! 1 = Some (WrapAsClassifier 0 (Some [1; 2]%Z) (Some 2)) /\
  h !! 0 = Some (Regressor 0%R None) /\
  check_X_y X y = inl (X, y) /\
  length (np_unique y) = 2 /\
  reg_fit 0%R X (encode (np_unique y) y) = Some ValueError /\
  exists h',
    WrapAsClassifier_fit 1 X y h = (Err (Raise Collaborator ValueError), h') /\
    h' !! 1 = Some (WrapAsClassifier 0 (Some [3; 7]%Z) (Some 2)).
Proof.
  intros h X y.
  assert (H1 : h !! 1 = Some (WrapAsClassifier 0 (Some [1; 2]%Z) (Some 2)))
    by reflexivity.
  assert (H2 : h !! 0 = Some (Regressor 0%R None)) by reflexivity.
  assert (H3 : check_X_y X y = inl (X, y)) by reflexivity.
  assert (H4 : length (np_unique y) = 2) by reflexivity.
  assert (H5 : reg_fit 0%R X (encode (np_unique y) y) = Some ValueError)
    by reflexivity.
  do 5 (split; [assumption|]).
  destruct (wrap_fit_regressor_failure_keeps_new_classes h 1 0
              (Some [1; 2]%Z) (Some 2) 0%R None X X y y ValueError
              H1 H2 H3 H4 H5) as (h' & Hrun & Hself & _).
  exists h'. split; [exact Hrun|exact Hself].
Defined.

End StrictRuns.
